(** * Listing ingestion and upsert pipeline of real-estate-intelligence

    A shallow embedding of the pieces of the repository that the
    specification talks about:

    - [EnhancedFundaScraper.parse_price_text], [validate_listing] and
      [scrape_city_listings]  (scrapers/funda/enhanced_scraper.py),
    - [FundaDataProcessor.process_and_store]  (same file) together with the
      table it writes (infrastructure/database/schema.py),
    - [BatchProcessor.process_listing] and [flush]
      (scrapers/funda/funda_scraper.py),
    - [CBSRealEstateCollector.collect_cbs_data_with_fallback] and
      [generate_mock_cbs_data]  (scrapers/cbs/cbs_data_collector.py).

    Conventions.  A scraped listing is a Python dict, modelled as a
    [gmap string pyval].  A function that can raise returns an [outcome],
    [Returns v] or [Raises e]; a method that also changes its object or
    the database returns the outcome paired with the state it leaves.
    A Python float is a double, modelled by the rational it denotes
    ([Q]); [binary64] rounds a rational to the nearest double.  NaN is
    outside the model, and a rational beyond the range of the doubles
    stands for the infinity of its sign.  Texts are sequences of UTF-8
    bytes and the regular-expression classes [\d], [\s] and [\b] are
    read on the ASCII characters, as Python reads them on ASCII text;
    the results that depend on this reading are stated for ASCII text
    ([is_ascii]) or, where no [\b] is involved, for ASCII text with the
    euro sign and the superscript two ([plain_text]). *)

From Stdlib Require Import ZArith QArith Lia Bool Ascii String List Floats Uint63.
From stdpp Require Import gmap strings list fin_maps.

Local Open Scope Z_scope.

(** ** Python values held by a listing dict *)

Inductive pyval : Type :=
  | PNone
  | PStr (s : string)
  | PInt (z : Z)
  | PFloat (q : Q)
  | PTime (t : Z).          (* a datetime, as a point on the time line *)

(** [bool(v)] *)
Definition truthy (v : pyval) : bool :=
  match v with
  | PNone => false
  | PStr s => match s with EmptyString => false | String _ _ => true end
  | PInt z => negb (z =? 0)
  | PFloat q => negb (Qnum q =? 0)
  | PTime _ => true
  end.

(** The number a numeric value denotes. *)
Definition num_of (v : pyval) : option Q :=
  match v with
  | PInt z => Some (inject_Z z)
  | PFloat q => Some q
  | _ => None
  end.

(** [d.get(k)]: a missing key reads as [None]. *)
Definition dict_get (d : gmap string pyval) (k : string) : pyval :=
  default PNone (d !! k).

(** ** Text helpers *)

Module Text.

Definition is_digit (c : ascii) : bool :=
  let n := nat_of_ascii c in (48 <=? n)%nat && (n <=? 57)%nat.

Definition digit_val (c : ascii) : Z := Z.of_nat (nat_of_ascii c) - 48.

Fixpoint filter (p : ascii -> bool) (s : string) : string :=
  match s with
  | EmptyString => EmptyString
  | String c r => if p c then String c (filter p r) else filter p r
  end.

Fixpoint map (f : ascii -> ascii) (s : string) : string :=
  match s with
  | EmptyString => EmptyString
  | String c r => String (f c) (map f r)
  end.

Fixpoint forallb (p : ascii -> bool) (s : string) : bool :=
  match s with
  | EmptyString => true
  | String c r => p c && forallb p r
  end.

Fixpoint mem (c : ascii) (s : string) : bool :=
  match s with
  | EmptyString => false
  | String d r => Ascii.eqb c d || mem c r
  end.

(** [s.replace(c, '')] for a one-character [c] *)
Definition remove (c : ascii) (s : string) : string :=
  filter (fun d => negb (Ascii.eqb d c)) s.

(** [s.replace(c, d)] for one-character [c] and [d] *)
Definition replace (c d : ascii) (s : string) : string :=
  map (fun x => if Ascii.eqb x c then d else x) s.

(** [s.split(c)]: never empty, one more part than separators *)
Fixpoint split (c : ascii) (s : string) : list string :=
  match s with
  | EmptyString => [EmptyString]
  | String d r =>
      if Ascii.eqb d c then EmptyString :: split c r
      else match split c r with
           | p :: ps => String d p :: ps
           | [] => [String d EmptyString]
           end
  end.

(** Value of a digit string read in base ten (most significant first). *)
Fixpoint digits_value_from (acc : Z) (s : string) : Z :=
  match s with
  | EmptyString => acc
  | String c r => digits_value_from (10 * acc + digit_val c) r
  end.

Definition digits_value (s : string) : Z := digits_value_from 0 s.

Definition is_empty (s : string) : bool :=
  match s with EmptyString => true | _ => false end.

End Text.

(** ** Floating point numbers *)

(** [n / d] rounded to the nearest integer, ties to the even one
    ([0 < d]). *)
Definition round_half_even (n d : Z) : Z :=
  let q := n / d in
  match 2 * (n mod d) ?= d with
  | Lt => q
  | Gt => q + 1
  | Eq => if Z.even q then q else q + 1
  end.

(** The double nearest to the rational [x], ties to even, as [float]
    and the conversion of an int to a float compute it: [e] is the
    exponent of [x] (at least that of the subnormal numbers) and [m] its
    significand of 53 bits after rounding.  When the rounding leaves the
    range of the doubles (from 2^1024 - 2^970 on) Python's [float] gives
    an infinity; [x] itself, which lies beyond every double, then
    stands for it. *)
Definition binary64 (x : Q) : Q :=
  let a := Z.abs (Qnum x) in
  let d := Z.pos (Qden x) in
  if a =? 0 then 0%Q
  else
    let e0 := Z.log2 a - Z.log2 d in
    let below := if 0 <=? e0 then a <? d * 2 ^ e0 else a * 2 ^ (- e0) <? d in
    let e := Z.max (if below then e0 - 1 else e0) (- 1022) in
    let m := if e <=? 52 then round_half_even (a * 2 ^ (52 - e)) d
             else round_half_even a (d * 2 ^ (e - 52)) in
    if (1023 <? e) || ((e =? 1023) && (m =? 2 ^ 53)) then x
    else
      let v := if e <=? 52 then Qred (m # Z.to_pos (2 ^ (52 - e)))
               else inject_Z (m * 2 ^ (e - 52)) in
      if Qnum x <? 0 then Qopp v else v.

(** ** Record normalizer: price text *)

(** The number that a literal of digits and at most one dot denotes.
    [None]: the text is no such literal, it has no digit at all or more
    than one dot. *)
Definition literal_value (s : string) : option Q :=
  match Text.split "." s with
  | [a] =>
      if Text.forallb Text.is_digit a && negb (Text.is_empty a)
      then Some (inject_Z (Text.digits_value a))
      else None
  | [a; b] =>
      if Text.forallb Text.is_digit a && Text.forallb Text.is_digit b
         && negb (Text.is_empty (a ++ b))
      then Some (Qred (Text.digits_value (a ++ b)
                       # Z.to_pos (10 ^ Z.of_nat (String.length b))))
      else None
  | _ => None
  end.

(** [float(s)] on the texts [parse_price_text] hands to it, which hold
    only digits and dots: the double nearest to the number the literal
    denotes (the infinity when that number is beyond the doubles, see
    [binary64]).  [None] stands for [ValueError]. *)
Definition py_float (s : string) : option Q :=
  option_map binary64 (literal_value s).

(** Texts on which reading [\d] and [\s] on the ASCII characters, and
    comparing letters without case on the ASCII letters, is Python's
    reading: ASCII text in which the euro sign (the bytes E2 82 AC) and
    the superscript two of "m²" (the bytes C2 B2) may occur. *)
Fixpoint plain_text (s : string) : bool :=
  match s with
  | EmptyString => true
  | String c rest =>
      if (nat_of_ascii c <? 128)%nat then plain_text rest
      else match s with
           | String "226" (String "130" (String "172" rest3)) => plain_text rest3
           | String "194" (String "178" rest2) => plain_text rest2
           | _ => false
           end
  end.

(** [re.sub(r'[^\d,.]', '', price_text)], with [\d] read as the ASCII
    digits. *)
Definition strip_non_price (price_text : string) : string :=
  Text.filter (fun c => Text.is_digit c || Ascii.eqb c "," || Ascii.eqb c ".")
              price_text.

(** [EnhancedFundaScraper.parse_price_text]; [None] is Python's [None],
    returned when [float] raises [ValueError]. *)
Definition parse_price_text (price_text : string) : option Q :=
  let price_clean := strip_non_price price_text in
  let price_clean := Text.replace "," "." (Text.remove "." price_clean) in
  if Text.mem "." price_clean then
    let parts := Text.split "." price_clean in
    match parts with
    | [_; frac] =>
        if (String.length frac <=? 2)%nat
        then py_float price_clean
        else py_float (Text.remove "." price_clean)
    | _ => py_float (Text.remove "." price_clean)
    end
  else py_float price_clean.

(** The text left after [re.sub] and the two [replace] calls. *)
Definition price_clean_of (price_text : string) : string :=
  Text.replace "," "." (Text.remove "." (strip_non_price price_text)).

(** The decimal digits of a text, in order. *)
Definition digits (s : string) : string := Text.filter Text.is_digit s.

(** What [parse_price_text] computes, read off the input text: dots never
    count; the digits after a single comma are a fraction when there are
    at most two of them; the result is the double nearest to that
    number. *)
Definition price_of_text (s : string) : option Q :=
  let d := digits s in
  if Text.is_empty d then None
  else match Text.split "," s with
       | [_; b] =>
           if (String.length (digits b) <=? 2)%nat
           then Some (binary64
                        (Qred (Text.digits_value d
                               # Z.to_pos (10 ^ Z.of_nat (String.length (digits b))))))
           else Some (binary64 (inject_Z (Text.digits_value d)))
       | _ => Some (binary64 (inject_Z (Text.digits_value d)))
       end.

(** ** Exceptions and outcomes *)

Inductive pyexn : Type :=
  | KeyError (k : string)     (* d[k] on a dict without k *)
  | TypeError                 (* ordering a str or datetime against an int *)
  | DataError                 (* asyncpg: argument of the wrong type or out of range *)
  | NotNullViolation          (* PostgreSQL: NULL in a NOT NULL column *)
  | ConnectionFailure.        (* asyncpg.connect could not reach the server *)

Inductive outcome (A : Type) : Type :=
  | Returns (a : A)
  | Raises (e : pyexn).
Arguments Returns {A} a.
Arguments Raises {A} e.

#[global] Instance outcome_ret : MRet outcome := fun A a => Returns a.
#[global] Instance outcome_bind : MBind outcome := fun A B f m =>
  match m with
  | Returns a => f a
  | Raises e => Raises e
  end.

(** [[f(x) for x in xs]] where [f] can raise: the first exception wins. *)
Fixpoint traverse {A B} (f : A -> outcome B) (xs : list A) : outcome (list B) :=
  match xs with
  | [] => Returns []
  | x :: r => y ← f x; ys ← traverse f r; Returns (y :: ys)
  end.

(** [d[k]] *)
Definition dict_item (d : gmap string pyval) (k : string) : outcome pyval :=
  match d !! k with
  | Some v => Returns v
  | None => Raises (KeyError k)
  end.

(** ** Validator *)

Definition Qltb (a b : Q) : bool := negb (Qle_bool b a).

Definition required_fields : list string := ["source_id"; "address"; "city"]%string.

(** [EnhancedFundaScraper.validate_listing].  The comparison of a truthy
    price that is not a number raises [TypeError]. *)
Definition validate_listing (listing : gmap string pyval) : outcome bool :=
  if existsb (fun field => negb (truthy (dict_get listing field))) required_fields
  then Returns false
  else
    let price := dict_get listing "price" in
    if truthy price then
      match num_of price with
      | Some p =>
          if Qltb p (inject_Z 50000) || Qltb (inject_Z 5000000) p
          then Returns false
          else Returns true
      | None => Raises TypeError
      end
    else Returns true.

(** The validator as the specification words it: the identity fields are
    present (not null) and the price, when present, lies in the range. *)
Definition is_present (v : pyval) : bool :=
  match v with PNone => false | _ => true end.

Definition validate_as_specified (listing : gmap string pyval) : bool :=
  forallb (fun field => is_present (dict_get listing field)) required_fields
  && match num_of (dict_get listing "price") with
     | Some p => negb (Qltb p (inject_Z 50000) || Qltb (inject_Z 5000000) p)
     | None => true
     end.

(** A listing with its identity fields and nothing else, and the same
    with a price. *)
Definition bare_listing : gmap string pyval :=
  list_to_map [("source_id", PStr "42194096"); ("address", PStr "Keizersgracht 1");
               ("city", PStr "amsterdam")]%string.

Definition priced_listing (price : pyval) : gmap string pyval :=
  <["price" := price]> bare_listing.

(** ** Storage: the listings table

    The columns of [PropertyListing] (infrastructure/database/schema.py)
    that the two INSERT statements of the scrapers write, and the
    [updated_at] column that the first of them sets.  [source],
    [source_id], [address], [postal_code] and [city] are declared
    [nullable=False]; the unique index [idx_source_id] on
    ([source], [source_id]) is the arbiter of ON CONFLICT.  The statement
    of [process_and_store] names the table [raw.property_listings], whose
    definition is not among the sources; it is read as this table.

    The primary key [id] is not among the columns of the model.
    schema.py gives it a default that only SQLAlchemy applies
    ([default=uuid.uuid4]); both statements go through asyncpg and name
    no [id], and the model takes the server to fill it in.  On the table
    exactly as the metadata of schema.py creates it nothing fills it in
    and every such INSERT is refused: what is stated below about a write
    that is refused, or on the condition that a write returns, holds
    there too, but no write returns. *)

Record row : Type := mk_row {
  r_source : string;
  r_source_id : string;
  r_url : option string;
  r_address : string;
  r_postal_code : string;
  r_city : string;
  r_price : option Q;
  r_size_m2 : option Q;
  r_rooms : option Z;
  r_property_type : option string;
  r_listing_type : option string;
  r_scraped_at : option Z;
  r_updated_at : option Z
}.

(** The server: whether [asyncpg.connect] reaches it, its clock (a
    logical clock, advanced by every statement it completes) and the
    rows of the table, oldest first. *)
Record database : Type := mk_db {
  db_reachable : bool;
  db_now : Z;
  db_rows : list row
}.

(** asyncpg's argument encoders: [None] is NULL; a text column takes a
    [str], a timestamp column a [datetime]; a [float8] column takes a
    float or, converted as by [float], an int that is not too large for
    a double; an [int4] column takes an int or, converted as by [int], a
    float, within the range of 32 bits. *)
Definition as_text (v : pyval) : outcome (option string) :=
  match v with
  | PNone => Returns None
  | PStr s => Returns (Some s)
  | _ => Raises DataError
  end.

Definition float_overflow : Z := 2 ^ 1024 - 2 ^ 970.

Definition as_float8 (v : pyval) : outcome (option Q) :=
  match v with
  | PNone => Returns None
  | PInt z =>
      if Z.abs z <? float_overflow then Returns (Some (binary64 (inject_Z z)))
      else Raises DataError
  | PFloat q => Returns (Some q)
  | _ => Raises DataError
  end.

Definition int4_of (z : Z) : outcome (option Z) :=
  if (- 2 ^ 31 <=? z) && (z <? 2 ^ 31) then Returns (Some z)
  else Raises DataError.

Definition as_int4 (v : pyval) : outcome (option Z) :=
  match v with
  | PNone => Returns None
  | PInt z => int4_of z
  | PFloat q => int4_of (Z.quot (Qnum q) (Z.pos (Qden q)))
  | _ => Raises DataError
  end.

Definition as_timestamp (v : pyval) : outcome (option Z) :=
  match v with
  | PNone => Returns None
  | PTime t => Returns (Some t)
  | _ => Raises DataError
  end.

Definition not_null {A} (v : option A) : outcome A :=
  match v with
  | Some a => Returns a
  | None => Raises NotNullViolation
  end.

(** The row proposed by the VALUES list of the statement in
    [FundaDataProcessor.process_and_store] ($1 .. $12).  [updated_at] is
    not in the column list; its default is not declared in the sources
    and is taken to be NULL. *)
Definition row_of_args12 (args : list pyval) : outcome row :=
  match args with
  | [source; source_id; url; address; postal_code; city;
     price; size_m2; rooms; property_type; listing_type; scraped_at] =>
      source ← as_text source;
      source_id ← as_text source_id;
      url ← as_text url;
      address ← as_text address;
      postal_code ← as_text postal_code;
      city ← as_text city;
      price ← as_float8 price;
      size_m2 ← as_float8 size_m2;
      rooms ← as_int4 rooms;
      property_type ← as_text property_type;
      listing_type ← as_text listing_type;
      scraped_at ← as_timestamp scraped_at;
      source ← not_null source;
      source_id ← not_null source_id;
      address ← not_null address;
      postal_code ← not_null postal_code;
      city ← not_null city;
      Returns (mk_row source source_id url address postal_code city
                      price size_m2 rooms property_type listing_type
                      scraped_at None)
  | _ => Raises DataError
  end.

(** The same for the statement of [BatchProcessor.flush] ($1 .. $10),
    which names neither [property_type] nor [listing_type]. *)
Definition row_of_args10 (args : list pyval) : outcome row :=
  match args with
  | [source; source_id; url; address; postal_code; city;
     price; size_m2; rooms; scraped_at] =>
      row_of_args12 [source; source_id; url; address; postal_code; city;
                     price; size_m2; rooms; PNone; PNone; scraped_at]
  | _ => Raises DataError
  end.

(** The identity key of a row, and the test that a row carries a key. *)
Definition row_key (r : row) : string * string := (r_source r, r_source_id r).

Definition has_key (source source_id : string) (r : row) : bool :=
  String.eqb (r_source r) source && String.eqb (r_source_id r) source_id.

Definition same_key (a b : row) : bool :=
  has_key (r_source a) (r_source_id a) b.

(** DO UPDATE SET price = EXCLUDED.price, scraped_at = EXCLUDED.scraped_at
    and, when [stamp] is given, updated_at = NOW(). *)
Definition conflict_update (stamp : option Z) (excluded old : row) : row :=
  mk_row (r_source old) (r_source_id old) (r_url old) (r_address old)
         (r_postal_code old) (r_city old)
         (r_price excluded) (r_size_m2 old) (r_rooms old)
         (r_property_type old) (r_listing_type old)
         (r_scraped_at excluded)
         (match stamp with Some t => Some t | None => r_updated_at old end).

(** INSERT ... ON CONFLICT (source, source_id) DO UPDATE ... of one row. *)
Definition upsert_row (stamp : option Z) (rows : list row) (new : row) : list row :=
  if existsb (same_key new) rows
  then List.map (fun old => if same_key new old
                            then conflict_update stamp new old else old) rows
  else rows ++ [new].

Definition tick (db : database) (rows : list row) : database :=
  mk_db (db_reachable db) (db_now db + 1) rows.

(** [conn.execute(<upsert>, *args)] of [process_and_store].  asyncpg
    returns the command tag, and the tag of an INSERT is "INSERT 0 n"
    with n the number of rows inserted or updated: the same for a row
    newly inserted and for one updated by the ON CONFLICT clause. *)
Definition pg_execute_upsert (db : database) (args : list pyval)
  : outcome string * database :=
  match row_of_args12 args with
  | Raises e => (Raises e, db)
  | Returns new =>
      (Returns "INSERT 0 1"%string,
       tick db (upsert_row (Some (db_now db)) (db_rows db) new))
  end.

(** [conn.executemany(<upsert>, argss)] of [flush]: all rows or none
    (asyncpg runs it in one implicit transaction since version 0.22). *)
Definition pg_executemany (db : database) (argss : list (list pyval))
  : outcome unit * database :=
  match traverse row_of_args10 argss with
  | Raises e => (Raises e, db)
  | Returns news =>
      (Returns tt, tick db (fold_left (upsert_row None) news (db_rows db)))
  end.

(** ** Upsert writer *)

Record stats : Type := mk_stats { inserted : Z; updated : Z; errors : Z }.

(** How many listings the counters account for; one more error. *)
Definition counted (st : stats) : Z := inserted st + updated st + errors st.

Definition add_error (st : stats) : stats :=
  mk_stats (inserted st) (updated st) (errors st + 1).

Definition upsert_keys : list string :=
  ["source"; "source_id"; "url"; "address"; "postal_code"; "city";
   "price"; "size_m2"; "rooms"; "property_type"; "listing_type";
   "scraped_at"]%string.

(** [listing['source'], ..., listing['scraped_at']], left to right. *)
Definition upsert_args (listing : gmap string pyval) : outcome (list pyval) :=
  traverse (dict_item listing) upsert_keys.

Section Writer.

(** The loop of [process_and_store] over any connection whatever: a
    state [Conn] and the behaviour of [conn.execute] on it. *)
Context {Conn : Type}.
Variable conn_execute : Conn -> list pyval -> outcome string * Conn.

(** One turn of [for listing in listings], with its try/except. *)
Definition store_listing (acc : stats * Conn) (listing : gmap string pyval)
  : stats * Conn :=
  let '(st, conn) := acc in
  match upsert_args listing with
  | Raises _ => (mk_stats (inserted st) (updated st) (errors st + 1), conn)
  | Returns args =>
      match conn_execute conn args with
      | (Returns result, conn') =>
          if String.eqb result "INSERT 0 1"
          then (mk_stats (inserted st + 1) (updated st) (errors st), conn')
          else (mk_stats (inserted st) (updated st + 1) (errors st), conn')
      | (Raises _, conn') =>
          (mk_stats (inserted st) (updated st) (errors st + 1), conn')
      end
  end.

Definition store_listings (conn : Conn) (listings : list (gmap string pyval))
  : stats * Conn :=
  fold_left store_listing listings (mk_stats 0 0 0, conn).

End Writer.

(** [FundaDataProcessor.process_and_store] *)
Definition process_and_store (db : database) (listings : list (gmap string pyval))
  : outcome stats * database :=
  match listings with
  | [] => (Returns (mk_stats 0 0 0), db)
  | _ =>
      if db_reachable db then
        let '(st, db') := store_listings pg_execute_upsert db listings in
        (Returns st, db')
      else (Raises ConnectionFailure, db)
  end.

(** Rows of the table that carry a given identity key. *)
Definition rows_with_key (source source_id : string) (rows : list row) : list row :=
  List.filter (has_key source source_id) rows.

(** The unique index holds: no two rows share a key. *)
Definition unique_keys (rows : list row) : Prop :=
  NoDup (List.map row_key rows).

(** The row a listing proposes to the table, when it can be written. *)
Definition proposed_row (listing : gmap string pyval) : outcome row :=
  args ← upsert_args listing; row_of_args12 args.

(** The listing can be written: it has every key of the statement and
    the table accepts the row it proposes. *)
Definition writable (listing : gmap string pyval) : bool :=
  match proposed_row listing with
  | Returns _ => true
  | Raises _ => false
  end.

(** A row without its [updated_at] stamp, and the rows that the
    listings of a batch propose (those that can be written), in order. *)
Definition row_data (r : row) : row :=
  mk_row (r_source r) (r_source_id r) (r_url r) (r_address r)
         (r_postal_code r) (r_city r) (r_price r) (r_size_m2 r) (r_rooms r)
         (r_property_type r) (r_listing_type r) (r_scraped_at r) None.

Fixpoint proposed_rows (listings : list (gmap string pyval)) : list row :=
  match listings with
  | [] => []
  | l :: rest =>
      match proposed_row l with
      | Returns new => new :: proposed_rows rest
      | Raises _ => proposed_rows rest
      end
  end.

(** What a run of ON CONFLICT updates does to one row, and the last row
    of a run that has the key of a given row. *)
Definition update_if_same (stamp : option Z) (old new : row) : row :=
  if same_key new old then conflict_update stamp new old else old.

Fixpoint last_match (news : list row) (r : row) : option row :=
  match news with
  | [] => None
  | n :: rest =>
      match last_match rest r with
      | Some x => Some x
      | None => if same_key n r then Some n else None
      end
  end.

(** ** Batch buffer *)

Record BatchProcessor : Type := mk_bp {
  batch_size : Z;
  buffer : list (gmap string pyval)
}.

(** A [BatchProcessor] with the database it writes to and, as an
    observation, the batches handed to [executemany] so far. *)
Record bp_state : Type := mk_bps {
  bp : BatchProcessor;
  bp_db : database;
  handed : list (list (gmap string pyval))
}.

Definition flush_keys : list string :=
  ["source"; "source_id"; "url"; "address"; "postal_code"; "city";
   "price"; "size_m2"; "rooms"; "scraped_at"]%string.

(** The tuple [(l['source'], ..., l['scraped_at'])] built for one listing. *)
Definition flush_args (l : gmap string pyval) : outcome (list pyval) :=
  traverse (dict_item l) flush_keys.

(** [BatchProcessor.flush].  When anything raises, [self.buffer = []] is
    not reached and the exception leaves the method. *)
Definition flush (st : bp_state) : outcome unit * bp_state :=
  match buffer (bp st) with
  | [] => (Returns tt, st)
  | _ =>
      if db_reachable (bp_db st) then
        match traverse flush_args (buffer (bp st)) with
        | Raises e => (Raises e, st)
        | Returns argss =>
            let handed' := handed st ++ [buffer (bp st)] in
            match pg_executemany (bp_db st) argss with
            | (Returns _, db') =>
                (Returns tt, mk_bps (mk_bp (batch_size (bp st)) []) db' handed')
            | (Raises e, db') =>
                (Raises e, mk_bps (bp st) db' handed')
            end
        end
      else (Raises ConnectionFailure, st)
  end.

(** [BatchProcessor.process_listing] *)
Definition process_listing (st : bp_state) (listing : gmap string pyval)
  : outcome unit * bp_state :=
  let st1 := mk_bps (mk_bp (batch_size (bp st)) (buffer (bp st) ++ [listing]))
                    (bp_db st) (handed st) in
  if Z.of_nat (length (buffer (bp st1))) >=? batch_size (bp st1)
  then flush st1
  else (Returns tt, st1).

(** [for listing in listings: await processor.process_listing(listing)]
    as in [run_funda_scraper]: the first exception ends the loop. *)
Fixpoint process_listings (st : bp_state) (listings : list (gmap string pyval))
  : outcome unit * bp_state :=
  match listings with
  | [] => (Returns tt, st)
  | l :: rest =>
      match process_listing st l with
      | (Returns _, st') => process_listings st' rest
      | (Raises e, st') => (Raises e, st')
      end
  end.

(** A listing that [flush] can store: every key is there and every value
    has the type and nullability of its column. *)
Definition storable (l : gmap string pyval) : bool :=
  match args ← flush_args l; row_of_args10 args with
  | Returns _ => true
  | Raises _ => false
  end.


(** A new [BatchProcessor(database_url, batch_size)] over a database. *)
Definition new_batch_processor (batch_size : Z) (db : database) : bp_state :=
  mk_bps (mk_bp batch_size []) db [].

(** ** City scrape *)

(** What the body of the try block yields for one page: [fetch_page]
    (after its retries) or [parse_search_page] raises, or the page parses
    to a list of listings. *)
Inductive page_outcome : Type :=
  | PageRaises
  | PageListings (listings : list (gmap string pyval)).

(** The loop of [scrape_city_listings] from page [page] on, [remaining]
    pages to go; [web] answers each page request. *)
Fixpoint scrape_pages (web : Z -> page_outcome) (page : Z) (remaining : nat)
    (all_listings : list (gmap string pyval)) : list (gmap string pyval) :=
  match remaining with
  | O => all_listings
  | S n =>
      match web page with
      | PageRaises => scrape_pages web (page + 1) n all_listings      (* continue *)
      | PageListings [] => all_listings                               (* break *)
      | PageListings listings =>
          scrape_pages web (page + 1) n (all_listings ++ listings)
      end
  end.

(** [EnhancedFundaScraper.scrape_city_listings]: pages 1 .. max_pages *)
Definition scrape_city_listings (web : Z -> page_outcome) (max_pages : Z)
  : list (gmap string pyval) :=
  scrape_pages web 1 (Z.to_nat max_pages) [].

(** The run as the specification words it: the first page that raises
    ends it, with what was collected before. *)
Fixpoint scrape_pages_as_specified (web : Z -> page_outcome) (page : Z)
    (remaining : nat) (all_listings : list (gmap string pyval))
  : list (gmap string pyval) :=
  match remaining with
  | O => all_listings
  | S n =>
      match web page with
      | PageRaises => all_listings
      | PageListings [] => all_listings
      | PageListings listings =>
          scrape_pages_as_specified web (page + 1) n (all_listings ++ listings)
      end
  end.

(** ** Fallback collector (CBS) *)

(** [int(f)] of a finite float: truncation toward zero. *)
Definition int_of_float (f : float) : Z :=
  match Prim2SF f with
  | S754_finite sign m e =>
      let a := if 0 <=? e then Z.pos m * 2 ^ e else Z.pos m / 2 ^ (- e) in
      if sign then - a else a
  | _ => 0
  end.

(** [float(z)] of a small non-negative int *)
Definition float_of_int (z : Z) : float := PrimFloat.of_uint63 (Uint63.of_Z z).

Definition regions : list string :=
  ["Amsterdam"; "Rotterdam"; "Utrecht"; "Den Haag"; "Eindhoven"]%string.

Definition periods : list string :=
  ["2023JJ00"; "2022JJ00"; "2021JJ00"; "2020JJ00"]%string.

Definition base_prices : list (string * Z) :=
  [("Amsterdam", 450000); ("Rotterdam", 300000); ("Utrecht", 380000);
   ("Den Haag", 350000); ("Eindhoven", 280000)]%string.

(** [base_prices.get(region, 300000)] *)
Fixpoint base_price_of (table : list (string * Z)) (region : string) : Z :=
  match table with
  | [] => 300000
  | (name, price) :: rest =>
      if String.eqb name region then price else base_price_of rest region
  end.

(** [int(base_price * (1 + ((2023 - int(period[:4])) * 0.05)))], in
    binary64 arithmetic; the literal is the double nearest to 0.05. *)
Definition avg_sale_price (region period : string) : Z :=
  let base_price := base_price_of base_prices region in
  let year := Text.digits_value (String.substring 0 4 period) in
  let growth_factor :=
    PrimFloat.add (float_of_int 1)
      (PrimFloat.mul (float_of_int (2023 - year)) 0x1.999999999999ap-5%float) in
  int_of_float (PrimFloat.mul (float_of_int base_price) growth_factor).

(** An HTTP exchange: the request fails (timeout, connection error), or
    a response arrives with a status and a body; [None] is a body that
    [response.json()] cannot decode, [Some records] is the list under
    its ['value'] key ([[]] when the key is missing). *)
Inductive http_reply : Type :=
  | HttpFails
  | HttpResponse (status : Z) (value : option (list (gmap string pyval))).

Section CBS.

(** [hash] of a str is salted per process; [now] is [datetime.now()]. *)
Variable py_hash : string -> Z.
Variable now : Z.

Definition mock_record (region period : string) : gmap string pyval :=
  list_to_map
    [("region", PStr region);
     ("period", PStr period);
     ("avg_sale_price", PInt (avg_sale_price region period));
     ("transaction_count", PInt (1200 + py_hash (region ++ period) mod 800));
     ("source", PStr "cbs_mock");
     ("collected_at", PTime now);
     ("note", PStr "Generated for development - replace with real CBS data")]%string.

(** [CBSRealEstateCollector.generate_mock_cbs_data]; a DataFrame is the
    list of its records. *)
Definition generate_mock_cbs_data : list (gmap string pyval) :=
  flat_map (fun region => List.map (fun period => mock_record region period) periods)
           regions.

(** [CBSRealEstateCollector.test_api_connection] *)
Definition test_api_connection (reply : http_reply) : bool :=
  match reply with
  | HttpResponse status _ => status =? 200
  | HttpFails => false
  end.

Definition processed_record (record : gmap string pyval) : gmap string pyval :=
  list_to_map
    [("region", default (PStr "Unknown") (record !! "RegioS"));
     ("period", default (PStr "Unknown") (record !! "Perioden"));
     ("source", PStr "cbs_test");
     ("collected_at", PTime now)]%string.

(** [CBSRealEstateCollector.fetch_sample_house_data].  An exception in
    the try body reaches the clause [except aiohttp.ClientTimeout], which
    names a class that is no exception, so [TypeError] leaves the method. *)
Definition fetch_sample_house_data (reply : http_reply)
  : outcome (list (gmap string pyval)) :=
  match reply with
  | HttpFails => Raises TypeError
  | HttpResponse status value =>
      if status =? 200 then
        match value with
        | Some records => Returns (List.map processed_record records)
        | None => Raises TypeError
        end
      else Returns []
  end.

(** [CBSRealEstateCollector.collect_cbs_data_with_fallback]; [probe]
    answers the connection test and [fetch] the data request. *)
Definition collect_cbs_data_with_fallback (probe fetch : http_reply)
  : list (gmap string pyval) :=
  if test_api_connection probe then
    match fetch_sample_house_data fetch with
    | Returns real_data =>
        match real_data with
        | [] => generate_mock_cbs_data
        | _ => real_data
        end
    | Raises _ => generate_mock_cbs_data
    end
  else generate_mock_cbs_data.

(** The external source gave nothing: unreachable, failing, or empty. *)
Definition source_failed (probe fetch : http_reply) : Prop :=
  test_api_connection probe = false
  \/ (exists e, fetch_sample_house_data fetch = Raises e)
  \/ fetch_sample_house_data fetch = Returns [].

End CBS.

(** [cbs_data.iloc[0]['source'] if not cbs_data.empty else 'none'], the
    [data_source] that [collect_cbs_data] reports. *)
Definition data_source (cbs_data : list (gmap string pyval)) : pyval :=
  match cbs_data with
  | first :: _ => dict_get first "source"
  | [] => PStr "none"
  end.

(** Three pages: the first lists one home, the second cannot be fetched,
    the third lists another home. *)
Definition three_pages (page : Z) : page_outcome :=
  if page =? 1 then PageListings [priced_listing (PInt 425000)]
  else if page =? 3 then PageListings [priced_listing (PInt 389000)]
  else PageRaises.

(** A scraped listing as [extract_listing_data] builds it (without the
    debugging sample [raw_html]), and one that lacks its [url] key. *)
Definition sample_listing (source_id : string) (price : Z) (scraped_at : Z)
  : gmap string pyval :=
  list_to_map
    [("source", PStr "funda"); ("source_id", PStr source_id);
     ("url", PStr "/koop/amsterdam/huis-42194096/");
     ("address", PStr "Keizersgracht 1"); ("postal_code", PStr "1015CC");
     ("city", PStr "amsterdam"); ("price", PFloat (inject_Z price));
     ("size_m2", PInt 85); ("rooms", PInt 3);
     ("property_type", PStr "apartment"); ("listing_type", PStr "sale");
     ("scraped_at", PTime scraped_at)]%string.

Definition listing_without_url (source_id : string) : gmap string pyval :=
  delete "url" (sample_listing source_id 425000 0).

Definition empty_db : database := mk_db true 0 [].

(** A listing as [FundaScraper.parse_search_page] builds it: its
    [extract_postal_code] and [extract_property_type] return [None]. *)
Definition listing_without_postal_code (source_id : string) : gmap string pyval :=
  <["postal_code" := PNone]> (<["property_type" := PNone]> (sample_listing source_id 425000 0)).

(** [n] listings with distinct three-digit ids, to fill a buffer. *)
Definition id_of_nat (i : nat) : string :=
  String (ascii_of_nat (48 + i / 100))
    (String (ascii_of_nat (48 + (i / 10) mod 10))
       (String (ascii_of_nat (48 + i mod 10)) EmptyString)).

Definition numbered_listings (n : nat) : list (gmap string pyval) :=
  List.map (fun i => sample_listing (id_of_nat i) 425000 (Z.of_nat i)) (seq 0 n).


(** ** Further definitions: storage, buffer and callers *)

(** The columns that neither upsert statement overwrites on conflict. *)
Definition static_cols (r : row)
  : string * string * option string * string * string * string
    * option Q * option Z * option string * option string :=
  (r_source r, r_source_id r, r_url r, r_address r, r_postal_code r, r_city r,
   r_size_m2 r, r_rooms r, r_property_type r, r_listing_type r).

(** A stored row and a table that holds it. *)
Definition stored_sample : row :=
  mk_row "funda" "A" (Some "/koop/amsterdam/huis-42194096/"%string)
         "Keizersgracht 1" "1015CC" "amsterdam"
         (Some (inject_Z 425000)) (Some (inject_Z 85)) (Some 3)
         (Some "apartment"%string) (Some "sale"%string) (Some 1) None.

Definition one_row_db : database := mk_db true 5 [stored_sample].

(** The row of home "B" as its second write of a batch leaves it. *)
Definition second_write_B : row :=
  mk_row "funda" "B" (Some "/koop/amsterdam/huis-42194096/"%string)
         "Keizersgracht 1" "1015CC" "amsterdam"
         (Some (inject_Z 379000)) (Some (inject_Z 85)) (Some 3)
         (Some "apartment"%string) (Some "sale"%string) (Some 10) (Some 6).

(** The same home scraped again, smaller and cheaper. *)
Definition rescraped_sample : gmap string pyval :=
  <["size_m2" := PInt 80]> (<["rooms" := PInt 2]> (sample_listing "A" 419000 9)).

Module FundaScraper.

(** [FundaScraper.scrape_search_results]: the same page loop as
    [EnhancedFundaScraper.scrape_city_listings], with [web] answering
    [fetch_page] followed by [parse_search_page]. *)
Definition scrape_search_results (web : Z -> page_outcome) (max_pages : Z)
  : list (gmap string pyval) :=
  scrape_pages web 1 (Z.to_nat max_pages) [].

End FundaScraper.

(** The coroutine [scrape_all] of [run_funda_scraper]
    (airflow/dags/real_estate_pipeline.py): for every city, scrape, add
    each listing to the batch processor, then flush.  [web city] answers
    the page requests for [city]. *)
Fixpoint scrape_all (web : string -> Z -> page_outcome) (max_pages : Z)
    (st : bp_state) (cities : list string) : outcome unit * bp_state :=
  match cities with
  | [] => (Returns tt, st)
  | city :: rest =>
      let listings := FundaScraper.scrape_search_results (web city) max_pages in
      match process_listings st listings with
      | (Returns _, st1) =>
          match flush st1 with
          | (Returns _, st2) => scrape_all web max_pages st2 rest
          | (Raises e, st2) => (Raises e, st2)
          end
      | (Raises e, st1) => (Raises e, st1)
      end
  end.

(** The listings of a page, none when it raises. *)
Definition page_listings (o : page_outcome) : list (gmap string pyval) :=
  match o with
  | PageRaises => []
  | PageListings listings => listings
  end.

Definition is_empty_page (o : page_outcome) : bool :=
  match o with
  | PageListings [] => true
  | _ => false
  end.

(** The pages [page], [page + 1], ... ([n] of them). *)
Fixpoint pages_from (page : Z) (n : nat) : list Z :=
  match n with
  | O => []
  | S m => page :: pages_from (page + 1) m
  end.

Definition default_cities : list string :=
  ["amsterdam"; "rotterdam"; "utrecht"; "den-haag"]%string.

Definition add_stats (a b : stats) : stats :=
  mk_stats (inserted a + inserted b) (updated a + updated b) (errors a + errors b).

(** The loop over the cities in [scrape_funda_cities]: an empty scrape
    is skipped, an exception of [process_and_store] is logged and the
    loop goes on. *)
Fixpoint scrape_cities_loop (web : string -> Z -> page_outcome) (max_pages : Z)
    (cities : list string) (total_stats : stats) (db : database)
  : stats * database :=
  match cities with
  | [] => (total_stats, db)
  | city :: rest =>
      match scrape_city_listings (web city) max_pages with
      | [] => scrape_cities_loop web max_pages rest total_stats db
      | listings =>
          match process_and_store db listings with
          | (Returns st, db') =>
              scrape_cities_loop web max_pages rest (add_stats total_stats st) db'
          | (Raises _, db') =>
              scrape_cities_loop web max_pages rest total_stats db'
          end
      end
  end.

(** [scrape_funda_cities(cities, max_pages)]; [cities] empty (or [None])
    stands for the four default cities. *)
Definition scrape_funda_cities (web : string -> Z -> page_outcome)
    (cities : list string) (max_pages : Z) (db : database) : stats * database :=
  let cities := match cities with [] => default_cities | _ => cities end in
  scrape_cities_loop web max_pages cities (mk_stats 0 0 0) db.

(** A source with one home on page 1 and nothing after it, and the same
    source with a stray page 3. *)
Definition one_page_web (page : Z) : page_outcome :=
  if page =? 1 then PageListings [sample_listing "A" 425000 1] else PageListings [].

Definition one_page_web_and_stray (page : Z) : page_outcome :=
  if page =? 3 then PageListings [sample_listing "Z" 1 1] else one_page_web page.

(** ** Further definitions: the normalizer of [EnhancedFundaScraper] *)

(** The characters of a price text that [parse_price_text] looks at. *)
Definition price_chars (s : string) : string :=
  Text.filter (fun c => Text.is_digit c || Ascii.eqb c ",") s.

(** [EnhancedFundaScraper.extract_price].  [texts] holds, for each of
    the four price selectors in order, [None] when [select_one] finds no
    element and otherwise the element's [get_text(strip=True)].  The test
    [if price:] skips [None] and a price of zero. *)
Fixpoint extract_price (texts : list (option string)) : option Q :=
  match texts with
  | [] => None
  | None :: rest => extract_price rest
  | Some price_text :: rest =>
      match parse_price_text price_text with
      | Some price =>
          if negb (Qnum price =? 0) then Some price else extract_price rest
      | None => extract_price rest
      end
  end.

(** [needle in hay] *)
Fixpoint contains (needle hay : string) : bool :=
  String.prefix needle hay
  || match hay with
     | EmptyString => false
     | String _ rest => contains needle rest
     end.

(** [s.lower()] on the ASCII letters.  The words looked for below are
    ASCII and hold no [k], the only ASCII letter that the lower-casing
    of a non-ASCII character yields within a word, so other case
    mappings neither make nor break an occurrence. *)
Definition lower_char (c : ascii) : ascii :=
  let n := nat_of_ascii c in
  if (65 <=? n)%nat && (n <=? 90)%nat then ascii_of_nat (n + 32) else c.

Definition lower (s : string) : string := Text.map lower_char s.

Definition apartment_words : list string := ["appartement"; "flat"; "studio"]%string.
Definition house_words : list string := ["woning"; "huis"; "villa"; "bungalow"]%string.
Definition penthouse_words : list string := ["penthouse"]%string.

(** [any(word in text or word in address_lower for word in words)] *)
Definition any_word (words : list string) (text address_lower : string) : bool :=
  existsb (fun word => contains word text || contains word address_lower) words.

(** [EnhancedFundaScraper.extract_property_type]; [item_text] is
    [item.get_text()]. *)
Definition extract_property_type (item_text address : string) : string :=
  let text := lower item_text in
  let address_lower := lower address in
  if any_word apartment_words text address_lower then "apartment"
  else if any_word house_words text address_lower then "house"
  else if any_word penthouse_words text address_lower then "penthouse"
  else "unknown".

(** ** Further definitions: the CBS collection task *)

(** [a == b] on the values of a column. *)
Definition py_eqb (a b : pyval) : bool :=
  match a, b with
  | PNone, PNone => true
  | PStr x, PStr y => String.eqb x y
  | PInt x, PInt y => x =? y
  | PInt x, PFloat y => Qeq_bool (inject_Z x) y
  | PFloat x, PInt y => Qeq_bool x (inject_Z y)
  | PFloat x, PFloat y => Qeq_bool x y
  | PTime x, PTime y => x =? y
  | _, _ => false
  end.

(** The distinct values of a list, each at its last occurrence. *)
Fixpoint distinct (vals : list pyval) : list pyval :=
  match vals with
  | [] => []
  | v :: rest => if existsb (py_eqb v) rest then distinct rest else v :: distinct rest
  end.

(** [column.nunique()]: the number of distinct values, nulls left out. *)
Definition nunique (column : list pyval) : nat :=
  length (distinct (List.filter is_present column)).

(** The summary that [collect_cbs_data] pushes and returns;
    [collection_timestamp] is the instant whose ISO text it stores. *)
Record cbs_stats : Type := mk_cbs_stats {
  records_collected : nat;
  stats_data_source : pyval;
  collection_timestamp : Z;
  regions_covered : nat
}.

(** [collect_cbs_data] *)
Definition collect_cbs_data (py_hash : string -> Z) (now : Z)
    (probe fetch : http_reply) : cbs_stats :=
  let cbs_data := collect_cbs_data_with_fallback py_hash now probe fetch in
  mk_cbs_stats
    (length cbs_data)
    (data_source cbs_data)
    now
    (match cbs_data with
     | [] => 0%nat
     | _ => nunique (List.map (fun r => dict_get r "region") cbs_data)
     end).

(** ** Further definitions: the regular expressions of the normalizer

    The patterns are read on ASCII text: [\d] as the digits 0-9, [\s] as
    the ASCII white space of Python ([\t\n\v\f\r], 0x1c-0x1f and the
    space) and [\b] against the ASCII word characters.  None of the
    patterns has an alternative, and its greedy groups are each followed
    by a character they cannot match, so that at a given start there is
    at most one way to match and [re.search] is a scan for the first
    start that matches. *)

Definition is_ascii (s : string) : bool :=
  Text.forallb (fun c => (nat_of_ascii c <? 128)%nat) s.

Definition is_alpha (c : ascii) : bool :=
  let n := nat_of_ascii c in
  ((65 <=? n)%nat && (n <=? 90)%nat) || ((97 <=? n)%nat && (n <=? 122)%nat).

Definition is_space (c : ascii) : bool :=
  let n := nat_of_ascii c in
  (n =? 32)%nat || ((9 <=? n)%nat && (n <=? 13)%nat) || ((28 <=? n)%nat && (n <=? 31)%nat).

Definition is_word (c : ascii) : bool :=
  Text.is_digit c || is_alpha c || Ascii.eqb c "_".

(** The longest prefix whose characters satisfy [p], and the rest. *)
Fixpoint span (p : ascii -> bool) (s : string) : string * string :=
  match s with
  | EmptyString => (EmptyString, EmptyString)
  | String c rest =>
      if p c then let '(a, b) := span p rest in (String c a, b)
      else (EmptyString, s)
  end.

(** The text is empty or starts with a character that fails [p]. *)
Definition boundary_with (p : ascii -> bool) (rest : string) : bool :=
  match rest with
  | EmptyString => true
  | String c _ => negb (p c)
  end.

(** No word character on this side: the start or end of the text, or a
    character that is not a word character. *)
Definition boundary_after (rest : string) : bool :=
  match rest with
  | EmptyString => true
  | String c _ => negb (is_word c)
  end.

Definition boundary_before (prev : option ascii) : bool :=
  match prev with
  | None => true
  | Some c => negb (is_word c)
  end.

(** [\b(\d{4}\s*[A-Za-z]{2})\b] matched at the start of [s], the
    character before it being [prev]; the result is group 1. *)
Definition match_postal_at (prev : option ascii) (s : string) : option string :=
  match s with
  | String d1 (String d2 (String d3 (String d4 rest))) =>
      if boundary_before prev
         && Text.is_digit d1 && Text.is_digit d2 && Text.is_digit d3 && Text.is_digit d4
      then
        let '(ws, rest2) := span is_space rest in
        match rest2 with
        | String l1 (String l2 rest3) =>
            if is_alpha l1 && is_alpha l2 && boundary_after rest3
            then Some (String d1 (String d2 (String d3 (String d4
                         (ws ++ String l1 (String l2 EmptyString))))))
            else None
        | _ => None
        end
      else None
  | _ => None
  end.

(** [re.search(pattern, s)]: the first start that matches. *)
Fixpoint search_postal (prev : option ascii) (s : string) : option string :=
  match match_postal_at prev s with
  | Some m => Some m
  | None =>
      match s with
      | EmptyString => None
      | String c rest => search_postal (Some c) rest
      end
  end.

(** [EnhancedFundaScraper.extract_postal_code] *)
Definition extract_postal_code (address : string) : option string :=
  match search_postal None address with
  | Some group1 => Some (Text.remove " " group1)
  | None => None
  end.

(** What a match of the postal code pattern looks like. *)
Definition postal_shape (m : string) : Prop :=
  exists d ws l,
    m = (d ++ ws ++ l)%string
    /\ String.length d = 4%nat /\ Text.forallb Text.is_digit d = true
    /\ Text.forallb is_space ws = true
    /\ String.length l = 2%nat /\ Text.forallb is_alpha l = true.

(** [n] spaces *)
Fixpoint spaces (n : nat) : string :=
  match n with
  | O => EmptyString
  | S m => String " " (spaces m)
  end.

(** [unit] at the start of [s], letters compared without case
    ([re.IGNORECASE]); [unit] is written in lower case. *)
Fixpoint prefix_ci (unit s : string) : bool :=
  match unit, s with
  | EmptyString, _ => true
  | String u unit', String c s' => Ascii.eqb u (lower_char c) && prefix_ci unit' s'
  | String _ _, EmptyString => false
  end.

(** [(\d+)\s*unit] matched at the start of [s]; the result is
    [int(group 1)], with [int] taken without its limit on the number of
    digits; [int_raises] below tells when that limit is exceeded. *)
Definition match_number_at (unit s : string) : option Z :=
  let '(ds, rest) := span Text.is_digit s in
  if Text.is_empty ds then None
  else
    let '(ws, rest2) := span is_space rest in
    if prefix_ci unit rest2 then Some (Text.digits_value ds) else None.

Fixpoint search_number (unit s : string) : option Z :=
  match match_number_at unit s with
  | Some n => Some n
  | None =>
      match s with
      | EmptyString => None
      | String _ rest => search_number unit rest
      end
  end.

(** The first pattern, in list order, that is found anywhere. *)
Fixpoint first_found (units : list string) (text : string) : option Z :=
  match units with
  | [] => None
  | unit :: rest =>
      match search_number unit text with
      | Some n => Some n
      | None => first_found rest text
      end
  end.

(** The same search, giving group 1 itself: the digits handed to
    [int]. *)
Definition match_digits_at (unit s : string) : option string :=
  let '(ds, rest) := span Text.is_digit s in
  if Text.is_empty ds then None
  else
    let '(ws, rest2) := span is_space rest in
    if prefix_ci unit rest2 then Some ds else None.

Fixpoint search_digits (unit s : string) : option string :=
  match match_digits_at unit s with
  | Some ds => Some ds
  | None =>
      match s with
      | EmptyString => None
      | String _ rest => search_digits unit rest
      end
  end.

Fixpoint first_digits (units : list string) (text : string) : option string :=
  match units with
  | [] => None
  | unit :: rest =>
      match search_digits unit text with
      | Some ds => Some ds
      | None => first_digits rest text
      end
  end.

(** [int(match.group(1))] raises [ValueError]: the digits are more than
    4300 (the limit of [int] in Python 3.11 and later). *)
Definition int_raises (units : list string) (text : string) : bool :=
  match first_digits units text with
  | Some ds => 4300 <? Z.of_nat (String.length ds)
  | None => false
  end.

Definition size_units : list string := ["m²"; "m2"; "vierkante meter"]%string.
Definition room_units : list string := ["kamer"; "room"; "slaapkamer"]%string.

(** [EnhancedFundaScraper.extract_size] and [extract_rooms]; [text] is
    [item.get_text()]. *)
Definition extract_size (text : string) : option Z := first_found size_units text.
Definition extract_rooms (text : string) : option Z := first_found room_units text.

(** ** Further definitions: one search result of [EnhancedFundaScraper] *)

(** What [extract_listing_data] reads of a search-result element
    [item]: [item.get('data-object-id')]; [item.find('a')] and, when
    there is one, its [href]; the [get_text(strip=True)] of the [h2] or,
    failing that, of the street-name element; for each price selector of
    [extract_price] the text of the element it selects;
    [item.get_text()]; and [str(item)[:1000]]. *)
Record result_item : Type := mk_item {
  data_object_id : option string;
  link_href : option (option string);
  address_text : option string;
  price_texts : list (option string);
  item_text : string;
  raw_html : string
}.

(** [/(\d+)/] matched at the start of [s]; the result is group 1. *)
Definition match_id_at (s : string) : option string :=
  match s with
  | String "/" rest =>
      let '(ds, rest2) := span Text.is_digit rest in
      if Text.is_empty ds then None
      else match rest2 with
           | String "/" _ => Some ds
           | _ => None
           end
  | _ => None
  end.

(** [re.search(r'/(\d+)/', href)] *)
Fixpoint search_id (href : string) : option string :=
  match match_id_at href with
  | Some ds => Some ds
  | None =>
      match href with
      | EmptyString => None
      | String _ rest => search_id rest
      end
  end.

(** [link['href']] when [link and link.get('href')] holds. *)
Definition href_of (item : result_item) : option string :=
  match link_href item with
  | Some (Some (String c h)) => Some (String c h)
  | _ => None
  end.

(** The identifier: the attribute, or else the first number between
    slashes in the link. *)
Definition source_id_of (item : result_item) : option string :=
  match data_object_id item with
  | Some (String c s) => Some (String c s)
  | _ =>
      match href_of item with
      | Some href => search_id href
      | None => None
      end
  end.

(** The address: the text of the address element, or "Unknown". *)
Definition address_of (item : result_item) : string :=
  match address_text item with
  | Some text => text
  | None => "Unknown"
  end.

(** A Python value that may be [None]. *)
Definition py_opt {A} (f : A -> pyval) (o : option A) : pyval :=
  match o with
  | Some a => f a
  | None => PNone
  end.

(** [EnhancedFundaScraper.extract_listing_data]; [now] is the reading of
    [datetime.now()].  An item without identifier gives [None]; so does
    one on which [extract_size] or [extract_rooms] raises, through the
    clause [except Exception]. *)
Definition extract_listing_data (item : result_item) (city : string) (now : Z)
  : option (gmap string pyval) :=
  match source_id_of item with
  | None => None
  | Some source_id =>
      if int_raises size_units (item_text item)
         || int_raises room_units (item_text item)
      then None
      else
      let address := address_of item in
      let price := extract_price (price_texts item) in
      let size_m2 := extract_size (item_text item) in
      let rooms := extract_rooms (item_text item) in
      let property_type := extract_property_type (item_text item) address in
      let detail_url := href_of item in
      let postal_code := extract_postal_code address in
      Some (list_to_map
              [("source", PStr "funda"); ("source_id", PStr source_id);
               ("url", py_opt PStr detail_url);
               ("address", PStr address);
               ("postal_code", py_opt PStr postal_code);
               ("city", PStr city);
               ("price", py_opt PFloat price);
               ("size_m2", py_opt PInt size_m2);
               ("rooms", py_opt PInt rooms);
               ("property_type", PStr property_type);
               ("listing_type", PStr "sale");
               ("scraped_at", PTime now);
               ("raw_html", PStr (raw_html item))]%string)
  end.

(** The result of the first selector that selects anything. *)
Fixpoint first_nonempty {A} (selections : list (list A)) : list A :=
  match selections with
  | [] => []
  | [] :: rest => first_nonempty rest
  | items :: _ => items
  end.

(** The loop of [parse_search_page] over the items; [clock n] is the
    reading of the [n]-th call of [datetime.now()].  A listing is kept
    when [validate_listing] returns [True]; when it raises, the item is
    skipped. *)
Fixpoint parse_items (clock : nat -> Z) (n : nat) (city : string)
    (items : list result_item) : list (gmap string pyval) :=
  match items with
  | [] => []
  | item :: rest =>
      match extract_listing_data item city (clock n) with
      | Some listing =>
          match validate_listing listing with
          | Returns true => listing :: parse_items clock (S n) city rest
          | _ => parse_items clock (S n) city rest
          end
      | None => parse_items clock n city rest
      end
  end.

(** [EnhancedFundaScraper.parse_search_page]; [selections] holds what
    [soup.select] gives for each of the three selectors, in order. *)
Definition parse_search_page (selections : list (list result_item)) (city : string)
    (clock : nat -> Z) : list (gmap string pyval) :=
  parse_items clock 0 city (first_nonempty selections).

(** A search result with everything in it. *)
Definition sample_item : result_item :=
  mk_item (Some "42194096"%string)
          (Some (Some "/koop/amsterdam/huis-42194096-keizersgracht-1/"%string))
          (Some "Keizersgracht 1, 1015 CC Amsterdam"%string)
          [None; Some "€ 425.000 k.k."%string; None; None]
          "Keizersgracht 1 1015 CC Amsterdam € 425.000 k.k. 85 m² 3 kamers"
          "<div data-object-id=42194096>".

(** ** Further definitions: one search result of [FundaScraper] *)

Module FundaScraperPage.

(** [s] without the prefix [old], when it starts with it. *)
Fixpoint strip_prefix (old s : string) : option string :=
  match old, s with
  | EmptyString, _ => Some s
  | String a old', String b s' =>
      if Ascii.eqb a b then strip_prefix old' s' else None
  | String _ _, EmptyString => None
  end.

(** [s.replace(old, '')] for a non-empty [old]: the occurrences are
    found from the left and do not overlap.  The fuel bounds the number
    of steps; one more than the length of [s] is enough. *)
Fixpoint remove_sub (fuel : nat) (old s : string) : string :=
  match fuel with
  | O => s
  | S fuel' =>
      match strip_prefix old s with
      | Some rest => remove_sub fuel' old rest
      | None =>
          match s with
          | EmptyString => EmptyString
          | String c rest => String c (remove_sub fuel' old rest)
          end
      end
  end.

Definition str_remove (old s : string) : string :=
  remove_sub (S (String.length s)) old s.

Section Builtins.

(** [s.strip()], and [float(s)] with [None] for [ValueError]. *)
Variable str_strip : string -> string.
Variable str_float : string -> option Q.

(** [FundaScraper.parse_price] *)
Definition parse_price (price_text : string) : option Q :=
  let price := str_remove "k.k." (Text.remove "." (str_remove "€" price_text)) in
  let price := Text.replace "," "." (str_strip price) in
  str_float price.

(** What [parse_search_page] reads of a [div.search-result]:
    [item.get('data-object-id')]; [item.find('a')['href']],
    [item.find('h2').text.strip()], the stripped text of the location
    [div] and the text of the price [span], each [None] when the
    expression raises; and what [parse_size] and [parse_rooms] return. *)
Record search_result : Type := mk_result {
  sr_object_id : option string;
  sr_href : option string;
  sr_heading : option string;
  sr_location : option string;
  sr_price_text : option string;
  sr_size : option Z;
  sr_rooms : option Z
}.

(** The dict built for one item, [None] when building it raises.
    [extract_postal_code] and [extract_property_type] have the body
    [pass] and return [None]. *)
Definition listing_of (item : search_result) (listed_date scraped_at : Z)
  : option (gmap string pyval) :=
  match sr_href item, sr_heading item, sr_location item, sr_price_text item with
  | Some href, Some address, Some city, Some price_text =>
      Some (list_to_map
              [("source", PStr "funda");
               ("source_id", py_opt PStr (sr_object_id item));
               ("url", PStr href);
               ("address", PStr address);
               ("postal_code", PNone);
               ("city", PStr city);
               ("price", py_opt PFloat (parse_price price_text));
               ("size_m2", py_opt PInt (sr_size item));
               ("rooms", py_opt PInt (sr_rooms item));
               ("property_type", PNone);
               ("listed_date", PTime listed_date);
               ("scraped_at", PTime scraped_at)]%string)
  | _, _, _, _ => None
  end.

(** The loop of [parse_search_page]; [clock n] is the reading of the
    [n]-th call of [datetime.now()], two of them per listing. *)
Fixpoint parse_results (clock : nat -> Z) (n : nat) (items : list search_result)
  : list (gmap string pyval) :=
  match items with
  | [] => []
  | item :: rest =>
      match listing_of item (clock n) (clock (S n)) with
      | Some listing => listing :: parse_results clock (S (S n)) rest
      | None => parse_results clock n rest
      end
  end.

(** [FundaScraper.parse_search_page] *)
Definition parse_search_page (clock : nat -> Z) (items : list search_result)
  : list (gmap string pyval) :=
  parse_results clock 0 items.

End Builtins.

(** A [float] that reads digits and one dot, and a complete result. *)
Definition plain_float (s : string) : option Q :=
  if Text.mem "k" s then None else py_float s.

Definition sample_result : search_result :=
  mk_result (Some "42194096"%string)
            (Some "/koop/amsterdam/huis-42194096-keizersgracht-1/"%string)
            (Some "Keizersgracht 1"%string) (Some "1015 CC Amsterdam"%string)
            (Some "€ 425.000 k.k."%string) (Some 85) (Some 3).

Definition sample_web (city : string) (page : Z) : page_outcome :=
  if page =? 1
  then PageListings (parse_search_page (fun s => s) plain_float (fun n => Z.of_nat n)
                                       [sample_result])
  else PageListings [].

End FundaScraperPage.

(** ** Further definitions: the requests of [EnhancedFundaScraper]

    [fetch_page] and the page loop of [scrape_city_listings] with the
    requests and pauses they make.  The server is a sequence of replies,
    one per request in the order the requests are sent. *)

Module Requests.

(** What one [session.get] comes to: a status below 400 with the text
    of the body; status 429; or anything that raises otherwise (another
    status from 400 up, or an exception of the client). *)
Inductive reply : Type :=
  | Page (html : string)
  | TooManyRequests
  | Failed.

(** [asyncio.sleep(seconds)] and a GET for a page of the search. *)
Inductive event : Type :=
  | Sleep (seconds : Z)
  | Request (page : Z).

Record session : Type := mk_session {
  server : nat -> reply;
  sent : nat;
  trace : list event
}.

Definition log (e : event) (s : session) : session :=
  mk_session (server s) (sent s) (trace s ++ [e]).

Definition request_delay : Z := 2.

(** One run of the body of [fetch_page]: [None] when it raises. *)
Definition fetch_once (page : Z) (s : session) : option string * session :=
  let s1 := log (Sleep request_delay) s in
  let s2 := mk_session (server s1) (S (sent s1)) (trace s1 ++ [Request page]) in
  match server s (sent s) with
  | Page html => (Some html, s2)
  | TooManyRequests => (None, log (Sleep 10) s2)
  | Failed => (None, s2)
  end.

(** [wait_exponential(multiplier=1, min=4, max=10)] after the failed
    attempt number [attempt]. *)
Definition retry_wait (attempt : Z) : Z :=
  Z.max 4 (Z.min (2 ^ (attempt - 1)) 10).

(** [fetch_page] under [@retry(stop=stop_after_attempt(3), ...)] with
    [left] attempts to go, the next one being number [attempt]; [None]
    when the last attempt has failed. *)
Fixpoint fetch_attempts (left : nat) (attempt : Z) (page : Z) (s : session)
  : option string * session :=
  match left with
  | O => (None, s)
  | S left' =>
      match fetch_once page s with
      | (Some html, s') => (Some html, s')
      | (None, s') =>
          match left' with
          | O => (None, s')
          | S _ =>
              fetch_attempts left' (attempt + 1) page
                             (log (Sleep (retry_wait attempt)) s')
          end
      end
  end.

Definition fetch_page (page : Z) (s : session) : option string * session :=
  fetch_attempts 3 1 page s.

(** The loop of [scrape_city_listings]; [parse] is [parse_search_page]
    for the city. *)
Fixpoint scrape_pages (parse : string -> page_outcome) (page : Z) (remaining : nat)
    (all_listings : list (gmap string pyval)) (s : session)
  : list (gmap string pyval) * session :=
  match remaining with
  | O => (all_listings, s)
  | S n =>
      match fetch_page page s with
      | (None, s') => scrape_pages parse (page + 1) n all_listings s'
      | (Some html, s') =>
          match parse html with
          | PageRaises => scrape_pages parse (page + 1) n all_listings s'
          | PageListings [] => (all_listings, s')
          | PageListings listings =>
              scrape_pages parse (page + 1) n (all_listings ++ listings) s'
          end
      end
  end.

Definition scrape_city_listings (parse : string -> page_outcome) (max_pages : Z)
    (s : session) : list (gmap string pyval) * session :=
  scrape_pages parse 1 (Z.to_nat max_pages) [] s.

(** The requests of a trace. *)
Definition is_request (e : event) : bool :=
  match e with
  | Request _ => true
  | Sleep _ => false
  end.

Definition requests (tr : list event) : list event := List.filter is_request tr.

(** Every request of the trace comes right after a pause of
    [request_delay]; [ready] tells whether such a pause has just been
    made. *)
Fixpoint polite_from (ready : bool) (tr : list event) : bool :=
  match tr with
  | [] => true
  | Sleep seconds :: rest => polite_from (seconds =? request_delay) rest
  | Request _ :: rest => ready && polite_from false rest
  end.

(** [s'] continues [s] by the events [new]. *)
Definition continues (s s' : session) (new : list event) : Prop :=
  server s' = server s
  /\ trace s' = trace s ++ new
  /\ sent s' = (sent s + length (requests new))%nat.

End Requests.

(** * Properties *)

Section TextFacts.

Lemma filter_app p (a b : string) :
  Text.filter p (a ++ b)%string = (Text.filter p a ++ Text.filter p b)%string.
Proof.
  induction a as [|c a IH]; simpl; [reflexivity|].
  destruct (p c); simpl; now rewrite IH.
Qed.

Lemma forallb_filter p (s : string) : Text.forallb p (Text.filter p s) = true.
Proof.
  induction s as [|c s IH]; simpl; [reflexivity|].
  destruct (p c) eqn:E; simpl; [rewrite E|]; assumption.
Qed.

Lemma mem_forallb c p (s : string) :
  p c = false -> Text.forallb p s = true -> Text.mem c s = false.
Proof.
  intros Hc. induction s as [|d s IH]; simpl; [reflexivity|].
  intros [Hd Hs]%andb_prop.
  destruct (Ascii.eqb_spec c d) as [->|_]; [congruence|].
  simpl. now apply IH.
Qed.

Lemma split_no_sep c (s : string) :
  Text.mem c s = false -> Text.split c s = [s].
Proof.
  induction s as [|d s IH]; simpl; [reflexivity|].
  intros [Hd Hs]%orb_false_elim.
  rewrite Ascii.eqb_sym, Hd. now rewrite IH.
Qed.

Lemma split_nonempty c (s : string) : Text.split c s <> [].
Proof.
  induction s as [|d s IH]; simpl; [discriminate|].
  destruct (Ascii.eqb d c); [discriminate|].
  destruct (Text.split c s); discriminate.
Qed.

End TextFacts.

Section Rounding.

Lemma round_half_even_nonneg n d : 0 <= n -> 0 < d -> 0 <= round_half_even n d.
Proof.
  intros Hn Hd. unfold round_half_even.
  assert (Hq : 0 <= n / d) by (apply Z.div_pos; lia).
  destruct (2 * (n mod d) ?= d); [destruct (Z.even (n / d))| |]; lia.
Qed.

Lemma binary64_nonneg (x : Q) : (0 <= x)%Q -> (0 <= binary64 x)%Q.
Proof.
  intros Hx. assert (Hn : 0 <= Qnum x) by (unfold Qle in Hx; cbn in Hx; lia).
  unfold binary64.
  destruct (Z.abs (Qnum x) =? 0); [apply Qle_refl|].
  set (e := Z.max _ (- 1022)).
  set (m := if e <=? 52 then _ else _).
  assert (Hm : 0 <= m).
  { unfold m. destruct (Z.leb_spec e 52) as [Hle|Hgt]; apply round_half_even_nonneg.
    - apply Z.mul_nonneg_nonneg; [lia|]. apply Z.pow_nonneg. lia.
    - reflexivity.
    - lia.
    - apply Z.mul_pos_pos; [reflexivity|]. apply Z.pow_pos_nonneg; lia. }
  destruct (_ || _); [exact Hx|].
  destruct (Z.ltb_spec (Qnum x) 0) as [Hneg|_]; [lia|].
  destruct (e <=? 52).
  - rewrite Qred_correct. unfold Qle. cbn. lia.
  - unfold Qle. cbn. assert (0 <= 2 ^ (e - 52)) by (apply Z.pow_nonneg; lia). nia.
Qed.

End Rounding.

Section PriceCleaning.

Local Arguments Ascii.eqb : simpl never.

Ltac char_cases c :=
  let Hc := fresh "Hcomma" in
  let Hd := fresh "Hdot" in
  destruct (Ascii.eqb c ",") eqn:Hc;
  [ apply Ascii.eqb_eq in Hc; subst c
  | destruct (Ascii.eqb c ".") eqn:Hd;
    [ apply Ascii.eqb_eq in Hd; subst c | ] ].

Ltac simp_chars :=
  repeat (simpl;
          match goal with
          | |- context [Ascii.eqb ?c ?c] => rewrite (Ascii.eqb_refl c)
          | H : Ascii.eqb ?c ?d = false |- context [Ascii.eqb ?c ?d] => rewrite H
          | H : Ascii.eqb ?c ?d = false |- context [Ascii.eqb ?d ?c] =>
              rewrite (Ascii.eqb_sym d c), H
          | H : Text.is_digit ?c = _ |- context [Text.is_digit ?c] => rewrite H
          end); simpl.

Lemma clean_remove_dots (s : string) :
  Text.remove "." (price_clean_of s) = digits s.
Proof.
  unfold price_clean_of, strip_non_price, Text.remove, Text.replace, digits.
  induction s as [|c s IH]; simpl; [reflexivity|].
  char_cases c; simp_chars; try assumption.
  destruct (Text.is_digit c) eqn:E; simp_chars; [|assumption].
  now rewrite IH.
Qed.

Lemma clean_mem_dot (s : string) :
  Text.mem "." (price_clean_of s) = Text.mem "," s.
Proof.
  unfold price_clean_of, strip_non_price, Text.remove, Text.replace.
  induction s as [|c s IH]; simpl; [reflexivity|].
  char_cases c; simp_chars; try assumption; try reflexivity.
  destruct (Text.is_digit c) eqn:E; simp_chars; assumption.
Qed.

Lemma clean_split (s : string) :
  Text.split "." (price_clean_of s) = List.map digits (Text.split "," s).
Proof.
  unfold price_clean_of, strip_non_price, Text.remove, Text.replace, digits.
  induction s as [|c s IH]; simpl; [reflexivity|].
  char_cases c; simp_chars.
  - now rewrite IH.
  - rewrite IH. destruct (Text.split "," s) eqn:E; [now apply split_nonempty in E|].
    reflexivity.
  - destruct (Text.is_digit c) eqn:E; simp_chars; rewrite IH;
      (destruct (Text.split "," s) eqn:E'; [now apply split_nonempty in E'|]);
      simpl; now rewrite ?E.
Qed.

End PriceCleaning.

Section PriceParsing.

Lemma split_one c (s b : string) : Text.split c s = [b] -> s = b.
Proof.
  revert b. induction s as [|d s IH]; simpl; intros b H.
  - now injection H.
  - destruct (Ascii.eqb d c).
    + injection H as _ H. now apply split_nonempty in H.
    + destruct (Text.split c s) as [|p ps] eqn:E; [now apply split_nonempty in E|].
      injection H as <- ->. now rewrite (IH p eq_refl).
Qed.

Lemma split_two c (s a b : string) :
  Text.split c s = [a; b] -> s = (a ++ String c b)%string.
Proof.
  revert a. induction s as [|d s IH]; simpl; intros a H; [discriminate|].
  destruct (Ascii.eqb_spec d c) as [->|_].
  - injection H as <- H. apply split_one in H. now subst.
  - destruct (Text.split c s) as [|p ps]; [discriminate|].
    injection H as <- ->. simpl. now rewrite (IH p eq_refl).
Qed.

Lemma digits_split_two (s a b : string) :
  Text.split "," s = [a; b] -> (digits a ++ digits b)%string = digits s.
Proof.
  intros ->%split_two. unfold digits. now rewrite filter_app.
Qed.

Lemma py_float_digits (s : string) :
  py_float (digits s)
  = if Text.is_empty (digits s) then None
    else Some (binary64 (inject_Z (Text.digits_value (digits s)))).
Proof.
  unfold py_float, literal_value.
  rewrite split_no_sep
    by (apply (mem_forallb _ Text.is_digit); [reflexivity|apply forallb_filter]).
  unfold digits at 1. rewrite forallb_filter. simpl.
  now destruct (Text.is_empty (digits s)).
Qed.

Lemma parse_price_text_price_of_text (s : string) :
  parse_price_text s = price_of_text s.
Proof.
  unfold parse_price_text, price_of_text.
  fold (price_clean_of s).
  rewrite clean_mem_dot, clean_split, clean_remove_dots, py_float_digits.
  assert (Hfrac : forall a b, Text.split "," s = [a; b] ->
            py_float (price_clean_of s)
            = if Text.is_empty (digits s) then None
              else Some (binary64
                           (Qred (Text.digits_value (digits s)
                                  # Z.to_pos (10 ^ Z.of_nat (String.length (digits b))))))).
  { intros a b E. unfold py_float, literal_value. rewrite clean_split, E. simpl.
    unfold digits at 1 2. rewrite !forallb_filter. simpl.
    fold (digits a) (digits b). rewrite (digits_split_two _ _ _ E).
    now destruct (Text.is_empty (digits s)). }
  destruct (Text.mem "," s) eqn:Hmem.
  - destruct (Text.split "," s) as [|a [|b [|c l]]] eqn:E; simpl;
      try (now destruct (Text.is_empty (digits s))).
    rewrite (Hfrac a b eq_refl).
    destruct (Text.is_empty (digits s)); now destruct (_ <=? _)%nat.
  - unfold py_float, literal_value. rewrite clean_split, (split_no_sep _ _ Hmem). simpl.
    unfold digits at 1. rewrite forallb_filter. simpl.
    now destruct (Text.is_empty (digits s)).
Qed.

End PriceParsing.

(** ** Price text *)

(** C3, as stated, fails: the decimal-form text "12.50" does not parse
    to 12.50; its dot is dropped and the result is 1250. *)
Lemma parse_price_text_dot_not_decimal :
  exists q, parse_price_text "12.50" = Some q /\ ~ (q == 25 # 2)%Q.
Proof.
  exists (1250 # 1)%Q. split; [vm_compute; reflexivity|].
  intros H. vm_compute in H. discriminate H.
Qed.

(** C3, amended: [parse_price_text] maps "€ 425.000 k.k." to 425000 and
    the text "12,50" to 12.5, while "12.50" gives 1250.  Every dot of the
    input is dropped as a thousands separator; the comma is the decimal
    mark when the text has exactly one comma followed by at most two
    digits, and otherwise commas are dropped as well; the result is the
    double nearest to the number so read.  A text without any digit
    yields null, and no text makes the parser raise.  The general laws
    are stated for plain text (ASCII, the euro sign and the superscript
    two) with at most 308 digits (beyond them the result can be the
    infinity). *)
Theorem parse_price_text_dutch_format :
  parse_price_text "€ 425.000 k.k." = Some (425000 # 1)%Q
  /\ parse_price_text "12,50" = Some (25 # 2)%Q
  /\ parse_price_text "12.50" = Some (1250 # 1)%Q
  /\ (forall s, plain_text s = true -> (String.length (digits s) <= 308)%nat ->
                parse_price_text s = price_of_text s)
  /\ (forall s, plain_text s = true ->
                parse_price_text s = None <-> digits s = EmptyString).
Proof.
  split; [vm_compute; reflexivity|].
  split; [vm_compute; reflexivity|].
  split; [vm_compute; reflexivity|].
  split.
  - intros s _ _. apply parse_price_text_price_of_text.
  - intros s _. rewrite parse_price_text_price_of_text. unfold price_of_text.
    split.
    + destruct (digits s) as [|d0 ds]; cbn [Text.is_empty]; [reflexivity|].
      destruct (Text.split "," s) as [|p1 [|p2 [|p3 ps]]]; try discriminate.
      destruct (_ <=? _)%nat; discriminate.
    + intros ->. reflexivity.
Qed.

(** ** Validator *)

Section Validator.

Implicit Types (listing : gmap string pyval).

Lemma Qltb_lt (a b : Q) : Qltb a b = true <-> (a < b)%Q.
Proof.
  unfold Qltb. rewrite negb_true_iff, <- not_true_iff_false, Qle_bool_iff.
  split; [apply Qnot_le_lt | apply Qlt_not_le].
Qed.

Lemma Qltb_ge (a b : Q) : Qltb a b = false <-> (b <= a)%Q.
Proof.
  unfold Qltb. rewrite negb_false_iff. apply Qle_bool_iff.
Qed.

Lemma identity_check listing :
  existsb (fun field => negb (truthy (dict_get listing field))) required_fields = false
  <-> Forall (fun field => truthy (dict_get listing field) = true) required_fields.
Proof.
  unfold required_fields. simpl. rewrite !orb_false_iff, !negb_false_iff.
  split.
  - intros (H1 & H2 & H3 & _). repeat constructor; assumption.
  - intros H. inversion H as [|? ? H1 H']; subst.
    inversion H' as [|? ? H2 H'']; subst.
    inversion H'' as [|? ? H3 _]; subst. auto.
Qed.

Lemma validate_listing_true listing :
  validate_listing listing = Returns true
  <-> Forall (fun field => truthy (dict_get listing field) = true) required_fields
      /\ (truthy (dict_get listing "price") = true ->
          exists p, num_of (dict_get listing "price") = Some p
                    /\ (inject_Z 50000 <= p)%Q /\ (p <= inject_Z 5000000)%Q).
Proof.
  rewrite <- identity_check. unfold validate_listing.
  destruct (existsb _ required_fields); [split; [discriminate|intros [? _]; discriminate]|].
  destruct (truthy (dict_get listing "price")).
  - destruct (num_of (dict_get listing "price")) as [p|].
    + destruct (Qltb p (inject_Z 50000)) eqn:Hlo; simpl.
      * split; [discriminate|]. intros [_ H]. destruct (H eq_refl) as (p' & [= <-] & Hge & _).
        apply Qltb_lt in Hlo. now apply Qlt_not_le in Hlo.
      * destruct (Qltb (inject_Z 5000000) p) eqn:Hhi.
        -- split; [discriminate|]. intros [_ H].
           destruct (H eq_refl) as (p' & [= <-] & _ & Hle).
           apply Qltb_lt in Hhi. now apply Qlt_not_le in Hhi.
        -- split; [|reflexivity]. intros _. split; [reflexivity|]. intros _.
           exists p. apply Qltb_ge in Hlo, Hhi. auto.
    + split; [discriminate|]. intros [_ H]. destruct (H eq_refl) as (p & [=] & _).
  - split; [|reflexivity]. intros _. split; [reflexivity|discriminate].
Qed.

End Validator.

(** C4, as stated, fails: a listing whose price is 0 is accepted, though
    its price is present and below 50,000. *)
Lemma validate_listing_accepts_zero_price :
  validate_listing (priced_listing (PInt 0)) = Returns true
  /\ validate_as_specified (priced_listing (PInt 0)) = false.
Proof. split; vm_compute; reflexivity. Qed.

(** C4, amended: [validate_listing] returns true if and only if
    [source_id], [address] and [city] are all truthy (present, not
    [None], not zero and not an empty text) and the price is falsy
    (absent, [None], zero or an empty text) or is a number neither below
    50,000 nor above 5,000,000.  Price 50,001 is accepted, 49,999 and
    5,000,001 are rejected, a listing without price (and without
    size_m2) is accepted, and so is one whose price is 0 or an empty
    text; a price that is a text with something in it makes the
    comparison raise. *)
Theorem validate_listing_iff :
  (forall listing : gmap string pyval,
     validate_listing listing = Returns true
     <-> Forall (fun field => truthy (dict_get listing field) = true) required_fields
         /\ (truthy (dict_get listing "price") = true ->
             exists p, num_of (dict_get listing "price") = Some p
                       /\ (inject_Z 50000 <= p)%Q /\ (p <= inject_Z 5000000)%Q))
  /\ validate_listing (priced_listing (PInt 50001)) = Returns true
  /\ validate_listing (priced_listing (PInt 49999)) = Returns false
  /\ validate_listing (priced_listing (PInt 5000001)) = Returns false
  /\ validate_listing (priced_listing (PFloat (50001 # 1))) = Returns true
  /\ validate_listing bare_listing = Returns true
  /\ validate_listing (priced_listing PNone) = Returns true
  /\ validate_listing (delete "city" (priced_listing (PInt 425000))) = Returns false
  /\ validate_listing (priced_listing (PInt 0)) = Returns true
  /\ validate_listing (priced_listing (PStr EmptyString)) = Returns true
  /\ validate_listing (priced_listing (PStr "425000")) = Raises TypeError.
Proof.
  split; [exact validate_listing_true|].
  repeat split; vm_compute; reflexivity.
Qed.



(** ** City scrape *)

Section Scrape.

Implicit Types (web : Z -> page_outcome) (acc : list (gmap string pyval)).

Lemma scrape_pages_extends web : forall n page acc,
  exists more,
    scrape_pages web page n acc = acc ++ more
    /\ Forall (fun l => exists p ls, page <= p < page + Z.of_nat n
                                    /\ web p = PageListings ls /\ In l ls) more.
Proof.
  induction n as [|n IH]; intros page acc.
  { exists []. split; [now rewrite app_nil_r|constructor]. }
  cbn [scrape_pages].
  assert (Hweaken : forall more : list (gmap string pyval),
    Forall (fun l => exists p ls, page + 1 <= p < page + 1 + Z.of_nat n
                                 /\ web p = PageListings ls /\ In l ls) more ->
    Forall (fun l => exists p ls, page <= p < page + Z.of_nat (S n)
                                 /\ web p = PageListings ls /\ In l ls) more).
  { intros more H. eapply Forall_impl; [exact H|].
    intros l (p & ls & Hp & Hw & Hin). exists p, ls. split; [lia|auto]. }
  destruct (web page) as [|ls] eqn:Hpage.
  - destruct (IH (page + 1) acc) as (more & -> & Hmore). eauto.
  - destruct ls as [|l0 ls0].
    + exists []. split; [now rewrite app_nil_r|constructor].
    + destruct (IH (page + 1) (acc ++ l0 :: ls0)) as (more & -> & Hmore).
      exists ((l0 :: ls0) ++ more). split; [now rewrite <- app_assoc|].
      apply Forall_app. split; [|auto].
      apply Forall_forall. intros l Hl. exists page, (l0 :: ls0).
      split; [lia|]. split; [assumption|].
      now apply list_elem_of_In.
Qed.

End Scrape.

(** C9, as stated, fails: after the page that raises, the run goes on
    and returns the listings of the later page too. *)
Lemma scrape_city_listings_goes_past_error :
  scrape_city_listings three_pages 3
    = [priced_listing (PInt 425000); priced_listing (PInt 389000)]
  /\ scrape_pages_as_specified three_pages 1 3 [] = [priced_listing (PInt 425000)].
Proof. split; reflexivity. Qed.

(** C9, amended: a page whose fetch or parse raises is skipped and the
    scrape goes on with the next page; the run ends early only at a page
    that parses to no listings.  Either way every listing collected so
    far is returned, and everything returned comes from a page of the
    source: no fallback data is added. *)
Theorem scrape_city_listings_skips_failed_page :
  (forall web page n acc,
     web page = PageRaises ->
     scrape_pages web page (S n) acc = scrape_pages web (page + 1) n acc)
  /\ (forall web page n acc,
        web page = PageListings [] ->
        scrape_pages web page (S n) acc = acc)
  /\ (forall web page n acc,
        exists more,
          scrape_pages web page n acc = acc ++ more
          /\ Forall (fun l => exists p ls, page <= p < page + Z.of_nat n
                                          /\ web p = PageListings ls /\ In l ls) more)
  /\ (forall web max_pages,
        Forall (fun l => exists p ls, 1 <= p <= max_pages
                                     /\ web p = PageListings ls /\ In l ls)
               (scrape_city_listings web max_pages)).
Proof.
  split; [|split; [|split]].
  - intros web page n acc H. cbn [scrape_pages]. now rewrite H.
  - intros web page n acc H. cbn [scrape_pages]. now rewrite H.
  - intros. apply scrape_pages_extends.
  - intros web max_pages. unfold scrape_city_listings.
    destruct (scrape_pages_extends web (Z.to_nat max_pages) 1 []) as (more & -> & H).
    simpl. eapply Forall_impl; [exact H|].
    intros l (p & ls & Hp & Hw & Hin). exists p, ls. split; [lia|auto].
Qed.

(** ** Fallback collector *)

Section Fallback.

Variable py_hash : string -> Z.
Variable now : Z.




Lemma processed_record_tagged (record : gmap string pyval) :
  dict_get (processed_record now record) "source" = PStr "cbs_test".
Proof. vm_compute. reflexivity. Qed.

Lemma collect_falls_back (probe fetch : http_reply) :
  source_failed now probe fetch ->
  collect_cbs_data_with_fallback py_hash now probe fetch
  = generate_mock_cbs_data py_hash now.
Proof.
  unfold source_failed, collect_cbs_data_with_fallback.
  intros [-> | [[e ->] | ->]]; [reflexivity | |];
    now destruct (test_api_connection probe).
Qed.

Lemma collect_real (probe fetch : http_reply) :
  ~ source_failed now probe fetch ->
  exists records,
    fetch_sample_house_data now fetch = Returns (List.map (processed_record now) records)
    /\ collect_cbs_data_with_fallback py_hash now probe fetch
       = List.map (processed_record now) records
    /\ records <> [].
Proof.
  unfold source_failed, collect_cbs_data_with_fallback. intros Hok.
  destruct (test_api_connection probe); [|exfalso; auto].
  destruct fetch as [|status [records|]]; simpl in *;
    try (exfalso; apply Hok; right; left; eexists; reflexivity).
  - destruct (status =? 200).
    + exists records. destruct records as [|r rs];
        [exfalso; apply Hok; right; right; reflexivity|].
      repeat split; discriminate.
    + exfalso. apply Hok. right. right. reflexivity.
  - destruct (status =? 200).
    + exfalso; apply Hok; right; left; eexists; reflexivity.
    + exfalso. apply Hok. right. right. reflexivity.
Qed.

End Fallback.


(** ** The listings table *)

Section Table.

Implicit Types (rows : list row) (new old : row) (stamp : option Z).

Lemma has_key_row_key source source_id r :
  has_key source source_id r = true <-> row_key r = (source, source_id).
Proof.
  unfold has_key, row_key. rewrite andb_true_iff, !String.eqb_eq.
  split; [intros [-> ->]; reflexivity | intros [= -> ->]; auto].
Qed.

Lemma same_key_row_key new old :
  same_key new old = true <-> row_key old = row_key new.
Proof. apply has_key_row_key. Qed.

Lemma upsert_row_keys_existing stamp rows new :
  existsb (same_key new) rows = true ->
  List.map row_key (upsert_row stamp rows new) = List.map row_key rows.
Proof.
  intros H. unfold upsert_row. rewrite H, List.map_map.
  apply List.map_ext. intros old. now destruct (same_key new old).
Qed.

Lemma existsb_same_key_In rows new :
  existsb (same_key new) rows = true <-> In (row_key new) (List.map row_key rows).
Proof.
  rewrite existsb_exists, in_map_iff. split.
  - intros (old & Hin & Hk%same_key_row_key). eauto.
  - intros (old & Hk & Hin). exists old. split; [assumption|].
    now apply same_key_row_key.
Qed.

Lemma upsert_row_unique stamp rows new :
  unique_keys rows -> unique_keys (upsert_row stamp rows new).
Proof.
  unfold unique_keys. intros Hu.
  destruct (existsb (same_key new) rows) eqn:E.
  - now rewrite upsert_row_keys_existing.
  - unfold upsert_row. rewrite E, List.map_app. simpl.
    apply NoDup_app. split; [assumption|]. split; [|apply NoDup_singleton].
    intros k Hk [<-|[]]%list_elem_of_In. apply list_elem_of_In in Hk.
    apply existsb_same_key_In in Hk. congruence.
Qed.

Lemma rows_with_key_absent rows new :
  existsb (same_key new) rows = false ->
  rows_with_key (r_source new) (r_source_id new) rows = [].
Proof.
  unfold rows_with_key, same_key.
  induction rows as [|r rows IH]; simpl; [reflexivity|].
  intros [-> H]%orb_false_elim. auto.
Qed.

Lemma rows_with_key_unique rows new :
  unique_keys rows ->
  existsb (same_key new) rows = true ->
  exists old, rows_with_key (r_source new) (r_source_id new) rows = [old].
Proof.
  unfold unique_keys.
  induction rows as [|r rows IH]; simpl; [discriminate|].
  intros Hu H. apply NoDup_cons in Hu as [Hnotin Hu].
  unfold rows_with_key in *. simpl. fold (same_key new r).
  destruct (same_key new r) eqn:Hr.
  - exists r. f_equal. apply rows_with_key_absent.
    destruct (existsb (same_key new) rows) eqn:E; [|reflexivity].
    apply existsb_same_key_In in E. apply same_key_row_key in Hr.
    rewrite <- Hr in E. apply list_elem_of_In in E. contradiction.
  - simpl in H. auto.
Qed.

Lemma rows_with_key_map_update stamp rows new :
  rows_with_key (r_source new) (r_source_id new)
    (List.map (fun old => if same_key new old
                          then conflict_update stamp new old else old) rows)
  = List.map (conflict_update stamp new)
      (rows_with_key (r_source new) (r_source_id new) rows).
Proof.
  unfold rows_with_key.
  induction rows as [|r rows IH]; simpl; [reflexivity|].
  fold (same_key new r). destruct (same_key new r) eqn:Hr.
  - change (has_key (r_source new) (r_source_id new) (conflict_update stamp new r))
      with (same_key new r). rewrite Hr. simpl. now rewrite IH.
  - fold (same_key new r). now rewrite Hr.
Qed.

(** After an upsert of [new] exactly one row carries its key, with the
    price and scrape time of [new]. *)
Lemma upsert_row_stored stamp rows new :
  unique_keys rows ->
  exists r,
    rows_with_key (r_source new) (r_source_id new) (upsert_row stamp rows new) = [r]
    /\ r_price r = r_price new /\ r_scraped_at r = r_scraped_at new.
Proof.
  intros Hu. unfold upsert_row.
  destruct (existsb (same_key new) rows) eqn:E.
  - destruct (rows_with_key_unique rows new Hu E) as (old & Hold).
    exists (conflict_update stamp new old).
    now rewrite rows_with_key_map_update, Hold.
  - exists new. unfold rows_with_key. rewrite List.filter_app.
    fold (rows_with_key (r_source new) (r_source_id new) rows).
    rewrite (rows_with_key_absent rows new E). simpl.
    unfold has_key. now rewrite !String.eqb_refl.
Qed.

Lemma upsert_row_present stamp rows new :
  existsb (same_key new) (upsert_row stamp rows new) = true.
Proof.
  apply existsb_same_key_In. unfold upsert_row.
  destruct (existsb (same_key new) rows) eqn:E.
  - fold (upsert_row stamp rows new) in *.
    assert (H := upsert_row_keys_existing stamp rows new E).
    unfold upsert_row in H. rewrite E in H. rewrite H.
    now apply existsb_same_key_In.
  - rewrite List.map_app. apply in_or_app. right. now left.
Qed.

Lemma upsert_row_length_existing stamp rows new :
  existsb (same_key new) rows = true ->
  length (upsert_row stamp rows new) = length rows.
Proof. intros H. unfold upsert_row. rewrite H. apply List.length_map. Qed.

End Table.

(** ** Upsert writer *)

Section Outcome.

Lemma bind_Returns {A B} (m : outcome A) (k : A -> outcome B) (b : B) :
  (m ≫= k) = Returns b -> exists a, m = Returns a /\ k a = Returns b.
Proof. destruct m as [a|e]; [eauto|discriminate]. Qed.

Lemma traverse_cons_Returns {A B} (f : A -> outcome B) x xs ys :
  traverse f (x :: xs) = Returns ys ->
  exists y ys', f x = Returns y /\ traverse f xs = Returns ys' /\ ys = y :: ys'.
Proof.
  cbn [traverse]. intros (y & Hy & H)%bind_Returns.
  apply bind_Returns in H as (ys' & Hys & [= <-]). eauto.
Qed.

Lemma dict_item_get (d : gmap string pyval) k v :
  dict_item d k = Returns v -> dict_get d k = v.
Proof.
  unfold dict_item, dict_get. destruct (d !! k); [|discriminate].
  now intros [= ->].
Qed.

End Outcome.

Ltac invert_traverse H :=
  repeat (let y := fresh "v" in
          let Hy := fresh "Hitem" in
          apply traverse_cons_Returns in H as (y & ? & Hy & H & ->);
          apply dict_item_get in Hy);
  cbn [traverse] in H; injection H as <-.

Ltac invert_binds H :=
  repeat (let a := fresh "c" in
          let Ha := fresh "Hcol" in
          apply bind_Returns in H as (a & Ha & H)).

Section WriterFacts.

Implicit Types (listing : gmap string pyval) (db : database).

Lemma not_null_Returns {A} (v : option A) a : not_null v = Returns a -> v = Some a.
Proof. destruct v; [now intros [= ->]|discriminate]. Qed.

(** How the row a listing proposes relates to the values under its keys. *)
Lemma proposed_row_fields listing new :
  proposed_row listing = Returns new ->
  as_text (dict_get listing "source") = Returns (Some (r_source new))
  /\ as_text (dict_get listing "source_id") = Returns (Some (r_source_id new))
  /\ as_float8 (dict_get listing "price") = Returns (r_price new)
  /\ as_timestamp (dict_get listing "scraped_at") = Returns (r_scraped_at new).
Proof.
  unfold proposed_row. intros (args & Hargs & Hrow)%bind_Returns.
  unfold upsert_args, upsert_keys in Hargs. invert_traverse Hargs.
  cbn [row_of_args12] in Hrow. invert_binds Hrow. injection Hrow as <-.
  repeat match goal with
         | H : not_null _ = Returns _ |- _ => apply not_null_Returns in H; subst
         end.
  subst. cbn [r_source r_source_id r_price r_scraped_at]. auto.
Qed.

Lemma pg_execute_upsert_Returns db args new :
  row_of_args12 args = Returns new ->
  pg_execute_upsert db args
  = (Returns "INSERT 0 1"%string,
     tick db (upsert_row (Some (db_now db)) (db_rows db) new)).
Proof. unfold pg_execute_upsert. now intros ->. Qed.

Lemma store_listing_good (st : stats) db listing new :
  proposed_row listing = Returns new ->
  store_listing pg_execute_upsert (st, db) listing
  = (mk_stats (inserted st + 1) (updated st) (errors st),
     tick db (upsert_row (Some (db_now db)) (db_rows db) new)).
Proof.
  unfold proposed_row, store_listing. intros (args & -> & Hrow)%bind_Returns.
  now rewrite (pg_execute_upsert_Returns _ _ _ Hrow).
Qed.

Lemma store_listing_bad (st : stats) db listing e :
  proposed_row listing = Raises e ->
  store_listing pg_execute_upsert (st, db) listing
  = (mk_stats (inserted st) (updated st) (errors st + 1), db).
Proof.
  unfold proposed_row, store_listing, pg_execute_upsert.
  destruct (upsert_args listing) as [args|e']; [|reflexivity].
  cbn. now intros ->.
Qed.

Lemma process_and_store_single db listing new :
  db_reachable db = true ->
  proposed_row listing = Returns new ->
  process_and_store db [listing]
  = (Returns (mk_stats 1 0 0),
     tick db (upsert_row (Some (db_now db)) (db_rows db) new)).
Proof.
  intros Hup Hrow. unfold process_and_store, store_listings. rewrite Hup.
  cbn [fold_left]. now rewrite (store_listing_good _ _ _ _ Hrow).
Qed.

End WriterFacts.

Section WriterCounts.

Context {Conn : Type}.
Variable conn_execute : Conn -> list pyval -> outcome string * Conn.

Lemma store_listing_counts_one (st : stats) (conn : Conn) (listing : gmap string pyval) :
  counted (fst (store_listing conn_execute (st, conn) listing)) = counted st + 1.
Proof.
  unfold store_listing, counted.
  destruct (upsert_args listing) as [args|e]; [|simpl; lia].
  destruct (conn_execute conn args) as [[result|e] conn']; [|simpl; lia].
  destruct (String.eqb result "INSERT 0 1"); simpl; lia.
Qed.

Lemma fold_store_counts (listings : list (gmap string pyval)) :
  forall acc : stats * Conn,
    counted (fst (fold_left (store_listing conn_execute) listings acc))
    = counted (fst acc) + Z.of_nat (length listings).
Proof.
  induction listings as [|l ls IH]; intros [st conn]; cbn [fold_left length].
  - simpl. lia.
  - rewrite IH, store_listing_counts_one. cbn [fst]. lia.
Qed.

End WriterCounts.

Section WriterSkips.

Implicit Types (listing : gmap string pyval) (db : database) (st : stats).

Lemma store_listing_add_error st db listing :
  store_listing pg_execute_upsert (add_error st, db) listing
  = (add_error (fst (store_listing pg_execute_upsert (st, db) listing)),
     snd (store_listing pg_execute_upsert (st, db) listing)).
Proof.
  unfold store_listing.
  destruct (upsert_args listing) as [args|e]; [|reflexivity].
  destruct (pg_execute_upsert db args) as [[result|e] db']; [|reflexivity].
  now destruct (String.eqb result "INSERT 0 1").
Qed.

Lemma fold_store_add_error (listings : list (gmap string pyval)) : forall st db,
  fold_left (store_listing pg_execute_upsert) listings (add_error st, db)
  = (add_error (fst (fold_left (store_listing pg_execute_upsert) listings (st, db))),
     snd (fold_left (store_listing pg_execute_upsert) listings (st, db))).
Proof.
  induction listings as [|l ls IH]; intros st db; cbn [fold_left]; [reflexivity|].
  rewrite store_listing_add_error.
  destruct (store_listing pg_execute_upsert (st, db) l) as [st' db'].
  apply IH.
Qed.

Lemma store_listings_skip_bad db pre bad post e :
  proposed_row bad = Raises e ->
  store_listings pg_execute_upsert db (pre ++ bad :: post)
  = (add_error (fst (store_listings pg_execute_upsert db (pre ++ post))),
     snd (store_listings pg_execute_upsert db (pre ++ post))).
Proof.
  intros Hbad. unfold store_listings. rewrite !fold_left_app. cbn [fold_left].
  destruct (fold_left (store_listing pg_execute_upsert) pre (mk_stats 0 0 0, db))
    as [st1 db1].
  rewrite (store_listing_bad _ _ _ _ Hbad). apply fold_store_add_error.
Qed.

Lemma store_listing_never_updated st db listing :
  updated (fst (store_listing pg_execute_upsert (st, db) listing)) = updated st.
Proof.
  unfold store_listing, pg_execute_upsert.
  destruct (upsert_args listing) as [args|e]; [|reflexivity].
  now destruct (row_of_args12 args).
Qed.

Lemma fold_store_never_updated (listings : list (gmap string pyval)) :
  forall acc : stats * database,
    updated (fst (fold_left (store_listing pg_execute_upsert) listings acc))
    = updated (fst acc).
Proof.
  induction listings as [|l ls IH]; intros [st db]; cbn [fold_left]; [reflexivity|].
  now rewrite IH, store_listing_never_updated.
Qed.

End WriterSkips.

Section Replay.

Implicit Types (rows : list row) (news : list row) (r new old : row).

Lemma same_key_update stamp n new old :
  same_key n (update_if_same stamp old new) = same_key n old.
Proof. unfold update_if_same. now destruct (same_key new old). Qed.

Lemma upsert_row_map rows new stamp :
  existsb (same_key new) rows = true ->
  upsert_row stamp rows new = List.map (fun old => update_if_same stamp old new) rows.
Proof. intros H. unfold upsert_row. now rewrite H. Qed.

Lemma existsb_same_key_upsert stamp rows new n :
  existsb (same_key n) rows = true ->
  existsb (same_key n) (upsert_row stamp rows new) = true.
Proof.
  intros H. unfold upsert_row. destruct (existsb (same_key new) rows).
  - rewrite existsb_exists in *. destruct H as (old & Hin & Hk).
    exists (update_if_same stamp old new). split.
    + apply in_map_iff. exists old. auto.
    + now rewrite same_key_update.
  - rewrite existsb_app, H. reflexivity.
Qed.

Lemma existsb_same_key_fold news : forall rows n,
  existsb (same_key n) rows = true ->
  existsb (same_key n) (fold_left (upsert_row None) news rows) = true.
Proof.
  induction news as [|m news IH]; intros rows n H; cbn [fold_left]; [exact H|].
  apply IH. now apply existsb_same_key_upsert.
Qed.

(** Every row of the batch has its key in the table after the run. *)
Lemma keys_present_after news : forall rows n,
  In n news -> existsb (same_key n) (fold_left (upsert_row None) news rows) = true.
Proof.
  induction news as [|m news IH]; intros rows n; [contradiction|].
  cbn [fold_left]. intros [->|Hin]; [|now apply IH].
  apply existsb_same_key_fold, upsert_row_present.
Qed.

(** When every key is in the table, the run is a row-by-row update. *)
Lemma fold_upsert_present news : forall rows,
  (forall n, In n news -> existsb (same_key n) rows = true) ->
  fold_left (upsert_row None) news rows
  = List.map (fun old => fold_left (update_if_same None) news old) rows.
Proof.
  induction news as [|m news IH]; intros rows Hall; cbn [fold_left].
  - now rewrite List.map_id.
  - rewrite (upsert_row_map rows m None) by (apply Hall; now left).
    rewrite IH, List.map_map; [reflexivity|].
    intros n Hn. rewrite <- upsert_row_map by (apply Hall; now left).
    apply existsb_same_key_upsert, Hall. now right.
Qed.

Lemma last_match_update stamp news : forall new old,
  last_match news (update_if_same stamp old new) = last_match news old.
Proof.
  induction news as [|n news IH]; intros new old; cbn [last_match]; [reflexivity|].
  now rewrite IH, same_key_update.
Qed.

Lemma fold_update_last news : forall old,
  fold_left (update_if_same None) news old
  = match last_match news old with
    | Some n => conflict_update None n old
    | None => old
    end.
Proof.
  induction news as [|m news IH]; intros old; cbn [fold_left last_match]; [reflexivity|].
  rewrite IH, last_match_update.
  destruct (last_match news old) as [n|];
    unfold update_if_same; now destruct (same_key m old).
Qed.

Lemma In_upsert_other stamp rows new r :
  In r (upsert_row stamp rows new) -> same_key new r = false -> In r rows.
Proof.
  unfold upsert_row. destruct (existsb (same_key new) rows) eqn:E.
  - intros (old & <- & Hin)%in_map_iff Hk.
    destruct (same_key new old) eqn:Hold; [|exact Hin].
    unfold same_key, has_key in *. cbn in Hk. congruence.
  - intros [Hin|[<-|[]]]%in_app_or Hk; [exact Hin|].
    unfold same_key, has_key in Hk. now rewrite !String.eqb_refl in Hk.
Qed.

Lemma In_upsert_same stamp rows new r :
  In r (upsert_row stamp rows new) -> same_key new r = true ->
  r_price r = r_price new /\ r_scraped_at r = r_scraped_at new.
Proof.
  unfold upsert_row. destruct (existsb (same_key new) rows) eqn:E.
  - intros (old & <- & Hin)%in_map_iff Hk.
    destruct (same_key new old) eqn:Hold; [split; reflexivity|congruence].
  - intros [Hin|[<-|[]]]%in_app_or Hk; [|split; reflexivity].
    rewrite <- not_true_iff_false, existsb_exists in E.
    exfalso. apply E. eauto.
Qed.

Lemma In_fold_untouched news : forall rows r,
  In r (fold_left (upsert_row None) news rows) -> last_match news r = None -> In r rows.
Proof.
  induction news as [|m news IH]; intros rows r; cbn [fold_left last_match]; [auto|].
  intros Hin Hlast. destruct (last_match news r) eqn:E; [discriminate|].
  destruct (same_key m r) eqn:Hm; [discriminate|].
  apply (In_upsert_other None rows m r); [|exact Hm]. exact (IH _ _ Hin E).
Qed.

(** After the run, a row carries the price and scrape time of the last
    row of the batch with its key. *)
Lemma fold_upsert_last news : forall rows r n,
  In r (fold_left (upsert_row None) news rows) ->
  last_match news r = Some n ->
  r_price r = r_price n /\ r_scraped_at r = r_scraped_at n.
Proof.
  induction news as [|m news IH]; intros rows r n; cbn [fold_left last_match];
    [discriminate|].
  intros Hin Hlast. destruct (last_match news r) as [x|] eqn:E.
  - injection Hlast as ->. eapply IH; eassumption.
  - destruct (same_key m r) eqn:Hm; [|discriminate]. injection Hlast as <-.
    eapply In_upsert_same; [|exact Hm]. eapply In_fold_untouched; eassumption.
Qed.

(** Replaying a run of upserts on its own result changes nothing. *)
Lemma fold_upsert_replay news rows :
  fold_left (upsert_row None) news (fold_left (upsert_row None) news rows) = fold_left (upsert_row None) news rows.
Proof.
  rewrite fold_upsert_present by (intros n Hn; now apply keys_present_after).
  rewrite <- (List.map_id (fold_left (upsert_row None) news rows)) at 2.
  apply map_ext_in. intros r Hr. rewrite fold_update_last.
  destruct (last_match news r) as [n|] eqn:E; [|reflexivity].
  destruct (fold_upsert_last news rows r n Hr E) as [Hp Ht].
  destruct r. cbn in *. unfold conflict_update. cbn. now rewrite Hp, Ht.
Qed.

Lemma row_data_upsert stamp rows new :
  List.map row_data (upsert_row stamp rows new)
  = upsert_row None (List.map row_data rows) (row_data new).
Proof.
  unfold upsert_row.
  assert (E : existsb (same_key (row_data new)) (List.map row_data rows)
              = existsb (same_key new) rows).
  { induction rows as [|r rows IH]; [reflexivity|]. cbn [List.map existsb].
    now rewrite IH. }
  rewrite E. destruct (existsb (same_key new) rows).
  - rewrite !List.map_map. apply List.map_ext. intros old.
    change (same_key (row_data new) (row_data old)) with (same_key new old).
    now destruct (same_key new old).
  - now rewrite List.map_app.
Qed.

(** The data a run of [process_and_store] leaves in the table. *)
Lemma store_listings_data (listings : list (gmap string pyval)) : forall st db,
  List.map row_data
    (db_rows (snd (fold_left (store_listing pg_execute_upsert) listings (st, db))))
  = fold_left (upsert_row None) (List.map row_data (proposed_rows listings))
              (List.map row_data (db_rows db)).
Proof.
  induction listings as [|l ls IH]; intros st db; cbn [fold_left proposed_rows];
    [reflexivity|].
  destruct (proposed_row l) as [new|e] eqn:E.
  - rewrite (store_listing_good st db l new E), IH. cbn [tick db_rows List.map fold_left].
    now rewrite row_data_upsert.
  - rewrite (store_listing_bad st db l e E). apply IH.
Qed.

Lemma process_and_store_data db listings :
  db_reachable db = true ->
  List.map row_data (db_rows (snd (process_and_store db listings)))
  = fold_left (upsert_row None) (List.map row_data (proposed_rows listings))
              (List.map row_data (db_rows db)).
Proof.
  intros Hup. unfold process_and_store. rewrite Hup.
  destruct listings as [|l ls]; [reflexivity|].
  unfold store_listings.
  rewrite <- (store_listings_data (l :: ls) (mk_stats 0 0 0) db).
  now destruct (fold_left _ (l :: ls) _).
Qed.

Lemma process_and_store_reachable db listings :
  db_reachable (snd (process_and_store db listings)) = db_reachable db.
Proof.
  unfold process_and_store. destruct listings as [|l ls]; [reflexivity|].
  destruct (db_reachable db) eqn:Hup; [|exact Hup].
  unfold store_listings.
  assert (H : forall ls' st d, db_reachable
             (snd (fold_left (store_listing pg_execute_upsert) ls' (st, d)))
             = db_reachable d).
  { induction ls' as [|x xs IH]; intros st d; cbn [fold_left]; [reflexivity|].
    destruct (proposed_row x) as [new|e] eqn:E.
    - now rewrite (store_listing_good st d x new E), IH.
    - now rewrite (store_listing_bad st d x e E), IH. }
  specialize (H (l :: ls) (mk_stats 0 0 0) db).
  destruct (fold_left _ (l :: ls) _). cbn in *. congruence.
Qed.

(** Writing a batch a second time leaves every stored row as it is,
    apart from its [updated_at] stamp. *)
Lemma process_and_store_replay db listings :
  let db1 := snd (process_and_store db listings) in
  let db2 := snd (process_and_store db1 listings) in
  List.map row_data (db_rows db2) = List.map row_data (db_rows db1).
Proof.
  cbv zeta. destruct (db_reachable db) eqn:Hup.
  - rewrite process_and_store_data
      by (now rewrite process_and_store_reachable).
    rewrite (process_and_store_data db listings Hup).
    apply fold_upsert_replay.
  - unfold process_and_store. rewrite Hup.
    destruct listings; cbn [snd]; [reflexivity|]. now rewrite Hup.
Qed.

End Replay.

(** A batch whose second listing has no [url] key: the [KeyError] is
    counted and the third listing is still written. *)
Example process_and_store_skips_bad_row :
  exists db',
    process_and_store empty_db
      [sample_listing "A" 425000 1; listing_without_url "B"; sample_listing "C" 389000 1]
    = (Returns (mk_stats 2 0 1), db')
    /\ List.map row_key (db_rows db') = [("funda", "A"); ("funda", "C")]%string
    /\ proposed_row (listing_without_url "B") = Raises (KeyError "url").
Proof. eexists. repeat split; vm_compute; reflexivity. Qed.

Section Stored.

(** What the table stores for the price and the scrape time of a
    listing that it accepts. *)
Lemma proposed_row_values listing new :
  proposed_row listing = Returns new ->
  match dict_get listing "price" with
  | PFloat price => r_price new = Some price
  | PInt price => r_price new = Some (binary64 (inject_Z price))
  | PNone => r_price new = None
  | _ => False
  end
  /\ match dict_get listing "scraped_at" with
     | PTime t => r_scraped_at new = Some t
     | PNone => r_scraped_at new = None
     | _ => False
     end.
Proof.
  intros (_ & _ & Hp & Ht)%proposed_row_fields. split.
  - destruct (dict_get listing "price") as [| |z|q|]; cbn [as_float8] in Hp;
      try discriminate Hp.
    + now injection Hp as <-.
    + destruct (Z.abs z <? float_overflow); [|discriminate Hp]. now injection Hp as <-.
    + now injection Hp as <-.
  - destruct (dict_get listing "scraped_at"); cbn [as_timestamp] in Ht;
      try discriminate Ht; now injection Ht as <-.
Qed.

End Stored.

(** C1: when two listings with the same ([source], [source_id]) are
    written one after the other, the table holds exactly one row for
    that key after the second write, and that row has the price and the
    scrape time of the second listing: the float it gave as price (an
    int is stored as the double nearest to it, no price as null) and the
    time it gave as [scraped_at].  The second write adds no row and the
    key stays unique. *)
Theorem upsert_same_key_twice (db : database) (l1 l2 : gmap string pyval) :
  db_reachable db = true ->
  unique_keys (db_rows db) ->
  writable l1 = true ->
  writable l2 = true ->
  dict_get l1 "source" = dict_get l2 "source" ->
  dict_get l1 "source_id" = dict_get l2 "source_id" ->
  let db1 := snd (process_and_store db [l1]) in
  let db2 := snd (process_and_store db1 [l2]) in
  exists source source_id r,
    dict_get l2 "source" = PStr source
    /\ dict_get l2 "source_id" = PStr source_id
    /\ rows_with_key source source_id (db_rows db2) = [r]
    /\ match dict_get l2 "price" with
       | PFloat price => r_price r = Some price
       | PInt price => r_price r = Some (binary64 (inject_Z price))
       | PNone => r_price r = None
       | _ => False
       end
    /\ match dict_get l2 "scraped_at" with
       | PTime t => r_scraped_at r = Some t
       | PNone => r_scraped_at r = None
       | _ => False
       end
    /\ length (db_rows db2) = length (db_rows db1)
    /\ unique_keys (db_rows db2).
Proof.
  intros Hup Hu Hw1 Hw2 Hsrc Hid db1 db2. unfold writable in *.
  destruct (proposed_row l1) as [new1|] eqn:E1; [|discriminate].
  destruct (proposed_row l2) as [new2|] eqn:E2; [|discriminate].
  destruct (proposed_row_fields _ _ E1) as (Hs1 & Hi1 & _ & _).
  destruct (proposed_row_fields _ _ E2) as (Hs2 & Hi2 & _ & _).
  destruct (proposed_row_values _ _ E2) as (Hp2 & Ht2).
  assert (Hkey : row_key new1 = row_key new2).
  { rewrite Hsrc, Hs2 in Hs1. rewrite Hid, Hi2 in Hi1.
    injection Hs1 as Hs1. injection Hi1 as Hi1. unfold row_key. congruence. }
  subst db2 db1.
  rewrite (process_and_store_single db l1 new1 Hup E1). cbn [snd].
  rewrite (process_and_store_single
             (tick db (upsert_row (Some (db_now db)) (db_rows db) new1)) l2 new2 Hup E2).
  cbn [snd tick db_rows db_now].
  set (rows1 := upsert_row (Some (db_now db)) (db_rows db) new1).
  assert (Hu1 : unique_keys rows1) by now apply upsert_row_unique.
  assert (Hin1 : existsb (same_key new2) rows1 = true).
  { apply existsb_same_key_In. rewrite <- Hkey. apply existsb_same_key_In.
    apply upsert_row_present. }
  destruct (upsert_row_stored (Some (db_now db + 1)) rows1 new2 Hu1)
    as (r & Hr & Hprice & Htime).
  exists (r_source new2), (r_source_id new2), r.
  rewrite Hprice, Htime.
  split; [|split; [|split; [|split; [|split; [|split]]]]].
  - destruct (dict_get l2 "source"); try discriminate. now injection Hs2 as ->.
  - destruct (dict_get l2 "source_id"); try discriminate. now injection Hi2 as ->.
  - exact Hr.
  - exact Hp2.
  - exact Ht2.
  - now apply upsert_row_length_existing.
  - now apply upsert_row_unique.
Qed.

Lemma upsert_same_key_twice_witness :
  exists r,
    rows_with_key "funda" "A"
      (db_rows (snd (process_and_store
                       (snd (process_and_store empty_db [sample_listing "A" 425000 1]))
                       [sample_listing "A" 419000 2])))
    = [r]
    /\ r_price r = Some (419000 # 1)%Q
    /\ r_scraped_at r = Some 2.
Proof.
  pose proof (upsert_same_key_twice empty_db (sample_listing "A" 425000 1)
                (sample_listing "A" 419000 2)) as H.
  cbv zeta in H.
  destruct H as (source & source_id & r & Hs & Hi & Hr & Hp & Ht & _).
  - reflexivity.
  - apply NoDup_nil_2.
  - vm_compute. reflexivity.
  - vm_compute. reflexivity.
  - vm_compute. reflexivity.
  - vm_compute. reflexivity.
  - vm_compute in Hs. injection Hs as <-.
    vm_compute in Hi. injection Hi as <-.
    exists r. split; [exact Hr|]. split; [exact Hp | exact Ht].
Defined.

(** C2, on the code: [process_and_store] never counts a write as an
    update.  Every write that succeeds is answered with the command tag
    "INSERT 0 1" and counted in [inserted], also when the row existed:
    writing a one-listing batch twice reports inserted = 1 both times,
    while the table keeps one row.  What does hold is that a second run
    of a batch leaves the stored rows as they are, apart from the
    [updated_at] stamp. *)
Theorem process_and_store_never_reports_update :
  (forall db listings,
     updated (fst (store_listings pg_execute_upsert db listings)) = 0)
  /\ (exists db1 db2,
        process_and_store empty_db [sample_listing "A" 425000 1]
        = (Returns (mk_stats 1 0 0), db1)
        /\ process_and_store db1 [sample_listing "A" 425000 1]
           = (Returns (mk_stats 1 0 0), db2)
        /\ length (db_rows db1) = 1%nat
        /\ length (db_rows db2) = 1%nat)
  /\ (forall db listings,
        let db1 := snd (process_and_store db listings) in
        let db2 := snd (process_and_store db1 listings) in
        List.map row_data (db_rows db2) = List.map row_data (db_rows db1)).
Proof.
  split; [|split].
  - intros db listings. unfold store_listings.
    apply (fold_store_never_updated listings (mk_stats 0 0 0, db)).
  - eexists _, _. repeat split; vm_compute; reflexivity.
  - exact process_and_store_replay.
Qed.

(** ** Batch buffer *)

Section Buffer.

Implicit Types (st : bp_state) (ls : list (gmap string pyval)) (db : database).








Lemma flush_Returns st st' :
  flush st = (Returns tt, st') ->
  buffer (bp st') = []
  /\ (buffer (bp st) = [] -> st' = st)
  /\ (buffer (bp st) <> [] -> handed st' = handed st ++ [buffer (bp st)]).
Proof.
  unfold flush. destruct (buffer (bp st)) as [|l ls] eqn:Hbuf.
  - intros [= <-]. repeat split; congruence.
  - destruct (db_reachable (bp_db st)); [|discriminate].
    destruct (traverse flush_args (l :: ls)) as [argss|e]; [|discriminate].
    destruct (pg_executemany (bp_db st) argss) as [[[]|e] db']; [|discriminate].
    intros [= <-]. cbn. split; [reflexivity|]. split; [discriminate|reflexivity].
Qed.


Lemma traverse_unstorable ls :
  forallb storable ls = false ->
  (exists e, traverse flush_args ls = Raises e)
  \/ (exists argss e, traverse flush_args ls = Returns argss
                      /\ traverse row_of_args10 argss = Raises e).
Proof.
  induction ls as [|l ls IH]; cbn [forallb traverse]; [discriminate|].
  intros H. unfold storable in H at 1.
  destruct (flush_args l) as [args|e]; [|left; eauto]. cbn in H |- *.
  destruct (traverse flush_args ls) as [argss|e]; [|left; eauto].
  right. exists (args :: argss). cbn [traverse].
  destruct (row_of_args10 args) as [r|e]; [|eauto]. cbn in H |- *.
  destruct (IH H) as [[e [=]] | (argss' & e & [= <-] & ->)]. eauto.
Qed.

Lemma flush_unstorable st :
  db_reachable (bp_db st) = true ->
  forallb storable (buffer (bp st)) = false ->
  exists e st',
    flush st = (Raises e, st')
    /\ bp st' = bp st
    /\ db_rows (bp_db st') = db_rows (bp_db st).
Proof.
  intros Hup Hbad. unfold flush.
  destruct (buffer (bp st)) as [|l ls] eqn:Hbuf; [discriminate|]. rewrite Hup.
  destruct (traverse_unstorable _ Hbad) as [[e ->] | (argss & e & -> & Hrows)].
  - exists e, st. auto.
  - unfold pg_executemany. rewrite Hrows. eexists _, _. split; [reflexivity|].
    split; reflexivity.
Qed.

End Buffer.

Section BufferOutcomes.

Implicit Types (st : bp_state) (ls : list (gmap string pyval)).







End BufferOutcomes.






(** C7, as stated, fails on the writer inside [flush]: the listing with
    a null postal code makes [executemany] raise, the listing after it
    is not written, and nothing is counted. *)
Lemma flush_aborts_batch_on_bad_row :
  let pending := [listing_without_postal_code "B"; sample_listing "A" 425000 1] in
  flush (mk_bps (mk_bp 100 pending) empty_db [])
  = (Raises NotNullViolation, mk_bps (mk_bp 100 pending) empty_db [pending])
  /\ forallb storable pending = false
  /\ storable (sample_listing "A" 425000 1) = true.
Proof. repeat split; vm_compute; reflexivity. Qed.

(** C7, amended: in [process_and_store] a failure while writing one
    listing adds one to [errors] and the loop goes on with the remaining
    listings, so that a batch with a bad row leaves the table as the
    batch without it does; for every batch inserted + updated + errors
    is the number of listings, whatever the connection does.  The write
    inside [flush] keeps no counters: a listing that cannot be stored
    makes it raise and the flush fails as a whole. *)
Theorem process_and_store_counts_every_listing :
  (forall (Conn : Type) (conn_execute : Conn -> list pyval -> outcome string * Conn)
          (conn : Conn) (listings : list (gmap string pyval)),
     let st := fst (store_listings conn_execute conn listings) in
     inserted st + updated st + errors st = Z.of_nat (length listings))
  /\ (forall db listings,
        db_reachable db = true ->
        exists st db',
          process_and_store db listings = (Returns st, db')
          /\ inserted st + updated st + errors st = Z.of_nat (length listings))
  /\ (forall db pre bad post e,
        db_reachable db = true ->
        proposed_row bad = Raises e ->
        exists st db',
          process_and_store db (pre ++ post) = (Returns st, db')
          /\ process_and_store db (pre ++ bad :: post)
             = (Returns (mk_stats (inserted st) (updated st) (errors st + 1)), db'))
  /\ (forall st,
        db_reachable (bp_db st) = true ->
        forallb storable (buffer (bp st)) = false ->
        exists e st',
          flush st = (Raises e, st')
          /\ bp st' = bp st
          /\ db_rows (bp_db st') = db_rows (bp_db st)).
Proof.
  split; [|split; [|split]].
  - intros Conn conn_execute conn listings. cbv zeta. unfold store_listings.
    apply (fold_store_counts conn_execute listings (mk_stats 0 0 0, conn)).
  - intros db listings Hup. unfold process_and_store. rewrite Hup.
    destruct listings as [|l ls]; [exists (mk_stats 0 0 0), db; split; reflexivity|].
    destruct (store_listings pg_execute_upsert db (l :: ls)) as [st db'] eqn:E.
    exists st, db'. split; [reflexivity|].
    change st with (fst (st, db')). rewrite <- E.
    apply (fold_store_counts pg_execute_upsert (l :: ls) (mk_stats 0 0 0, db)).
  - intros db pre bad post e Hup Hbad. unfold process_and_store. rewrite Hup.
    assert (Hskip := store_listings_skip_bad db pre bad post e Hbad).
    destruct (pre ++ bad :: post) as [|x xs] eqn:Ebad;
      [now destruct pre|].
    rewrite Hskip.
    destruct (pre ++ post) as [|y ys] eqn:Egood.
    + exists (mk_stats 0 0 0), db. split; reflexivity.
    + destruct (store_listings pg_execute_upsert db (y :: ys)) as [st db'].
      exists st, db'. split; reflexivity.
  - exact flush_unstorable.
Qed.

(** * Further properties of the code *)

(** ** What an upsert leaves alone *)

Section UpsertFrame.

Implicit Types (rows news : list row) (r new old : row) (db : database).

Lemma static_cols_same_key r r' n :
  static_cols r' = static_cols r -> same_key n r' = same_key n r.
Proof. unfold static_cols, same_key, has_key. now intros [= -> ->]. Qed.

Lemma last_match_static news r r' :
  static_cols r' = static_cols r -> last_match news r' = last_match news r.
Proof.
  intros H. induction news as [|n news IH]; cbn [last_match]; [reflexivity|].
  now rewrite IH, (static_cols_same_key r r' n H).
Qed.

Lemma upsert_row_lookup stamp rows new (i : nat) r :
  rows !! i = Some r ->
  exists r', upsert_row stamp rows new !! i = Some r'
             /\ static_cols r' = static_cols r
             /\ (same_key new r = false -> r' = r).
Proof.
  intros Hi. unfold upsert_row. destruct (existsb (same_key new) rows).
  - rewrite list_lookup_fmap, Hi. cbn.
    destruct (same_key new r); eexists; (split; [reflexivity|]); split;
      try reflexivity; discriminate.
  - exists r. rewrite lookup_app_l by (now apply lookup_lt_Some in Hi). auto.
Qed.

Lemma store_listings_lookup (listings : list (gmap string pyval)) :
  forall (st : stats) db (i : nat) r,
    db_rows db !! i = Some r ->
    exists r',
      db_rows (snd (fold_left (store_listing pg_execute_upsert) listings (st, db))) !! i
      = Some r'
      /\ static_cols r' = static_cols r
      /\ (last_match (proposed_rows listings) r = None -> r' = r).
Proof.
  induction listings as [|l ls IH]; intros st db i r Hi;
    cbn [fold_left proposed_rows]; [eauto|].
  destruct (proposed_row l) as [new|e] eqn:E.
  - rewrite (store_listing_good st db l new E).
    destruct (upsert_row_lookup (Some (db_now db)) (db_rows db) new i r Hi)
      as (r1 & H1 & Hs1 & Hk1).
    destruct (IH (mk_stats (inserted st + 1) (updated st) (errors st))
                 (tick db (upsert_row (Some (db_now db)) (db_rows db) new)) i r1 H1)
      as (r' & H' & Hs' & Hk').
    exists r'. split; [exact H'|]. split; [congruence|].
    cbn [last_match]. rewrite (last_match_static (proposed_rows ls) r r1 Hs1) in Hk'.
    destruct (last_match (proposed_rows ls) r); [discriminate|].
    destruct (same_key new r); [discriminate|]. intros _.
    rewrite Hk', Hk1; reflexivity.
  - rewrite (store_listing_bad st db l e E). now apply IH.
Qed.

Lemma process_and_store_rows db listings :
  db_rows (snd (process_and_store db listings))
  = if db_reachable db
    then db_rows (snd (fold_left (store_listing pg_execute_upsert) listings
                                 (mk_stats 0 0 0, db)))
    else db_rows db.
Proof.
  unfold process_and_store, store_listings.
  destruct listings as [|l ls]; [now destruct (db_reachable db)|].
  destruct (db_reachable db); [|reflexivity].
  now destruct (fold_left _ (l :: ls) _).
Qed.

Lemma store_listings_unique (listings : list (gmap string pyval)) :
  forall (st : stats) db,
    unique_keys (db_rows db) ->
    let rows' := db_rows (snd (fold_left (store_listing pg_execute_upsert) listings
                                         (st, db))) in
    unique_keys rows'
    /\ (length (db_rows db) <= length rows')%nat
    /\ (forall n, existsb (same_key n) (db_rows db) = true ->
                  existsb (same_key n) rows' = true)
    /\ Forall (fun n => existsb (same_key n) rows' = true) (proposed_rows listings).
Proof.
  induction listings as [|l ls IH]; intros st db Hu; cbn [fold_left proposed_rows].
  - cbn. repeat split; auto.
  - destruct (proposed_row l) as [new|e] eqn:E.
    + rewrite (store_listing_good st db l new E).
      set (db1 := tick db (upsert_row (Some (db_now db)) (db_rows db) new)).
      destruct (IH (mk_stats (inserted st + 1) (updated st) (errors st)) db1)
        as (Hu' & Hlen & Hkeep & Hall).
      { now apply upsert_row_unique. }
      repeat split.
      * exact Hu'.
      * etransitivity; [|exact Hlen]. cbn. unfold upsert_row.
        destruct (existsb (same_key new) (db_rows db));
          [now rewrite List.length_map | rewrite List.length_app; lia].
      * intros n Hn. apply Hkeep. cbn. now apply existsb_same_key_upsert.
      * constructor; [|exact Hall]. apply Hkeep. cbn. apply upsert_row_present.
    + rewrite (store_listing_bad st db l e E). now apply IH.
Qed.

Lemma last_match_row_data news r :
  last_match (List.map row_data news) (row_data r)
  = option_map row_data (last_match news r).
Proof.
  induction news as [|m news IH]; cbn [last_match List.map]; [reflexivity|].
  change (same_key (row_data m) (row_data r)) with (same_key m r).
  rewrite IH. destruct (last_match news r); [reflexivity|].
  now destruct (same_key m r).
Qed.

End UpsertFrame.

(** X1: whatever batch [process_and_store] writes, a row that was stored
    before stays at its place with its url, address, postal code, city,
    size, rooms and types: on conflict only the price and the time
    stamps change.  A row whose key no listing of the batch carries is
    not changed at all. *)
Theorem process_and_store_keeps_other_columns
    (db : database) (listings : list (gmap string pyval)) (i : nat) (r : row) :
  db_rows db !! i = Some r ->
  exists r',
    db_rows (snd (process_and_store db listings)) !! i = Some r'
    /\ static_cols r' = static_cols r
    /\ (last_match (proposed_rows listings) r = None -> r' = r).
Proof.
  intros Hi. rewrite process_and_store_rows.
  destruct (db_reachable db); [|eauto].
  now apply store_listings_lookup.
Qed.

Lemma process_and_store_keeps_other_columns_witness :
  exists r',
    db_rows (snd (process_and_store one_row_db [rescraped_sample])) !! 0%nat = Some r'
    /\ r_size_m2 r' = Some (inject_Z 85) /\ r_rooms r' = Some 3.
Proof.
  destruct (process_and_store_keeps_other_columns
              one_row_db [rescraped_sample] 0 stored_sample eq_refl)
    as (r' & H & Hs & _).
  exists r'. split; [exact H|].
  unfold static_cols in Hs. injection Hs as _ _ _ _ _ _ Hsize Hrooms _ _.
  split; assumption.
Defined.

(** X2: [process_and_store] keeps the unique index intact and never
    deletes: when no two stored rows share a key before a batch, none do
    after it, the table has not shrunk, every key stored before is still
    stored, and every listing of the batch that could be written has its
    key in the table. *)
Theorem process_and_store_keeps_unique_keys
    (db : database) (listings : list (gmap string pyval)) :
  unique_keys (db_rows db) ->
  db_reachable db = true ->
  let rows' := db_rows (snd (process_and_store db listings)) in
  unique_keys rows'
  /\ (length (db_rows db) <= length rows')%nat
  /\ (forall n, existsb (same_key n) (db_rows db) = true ->
                existsb (same_key n) rows' = true)
  /\ Forall (fun n => existsb (same_key n) rows' = true) (proposed_rows listings).
Proof.
  intros Hu Hup. cbv zeta. rewrite process_and_store_rows, Hup.
  apply (store_listings_unique listings (mk_stats 0 0 0) db Hu).
Qed.

Lemma process_and_store_keeps_unique_keys_witness :
  unique_keys
    (db_rows (snd (process_and_store one_row_db
                     [rescraped_sample; sample_listing "B" 389000 9;
                      sample_listing "B" 379000 10]))).
Proof.
  apply (process_and_store_keeps_unique_keys one_row_db).
  - vm_compute. apply NoDup_cons_2; [apply not_elem_of_nil|apply NoDup_nil_2].
  - reflexivity.
Defined.

(** X3: within a batch the last write wins: after [process_and_store],
    a stored row whose key occurs in the batch carries the price and the
    scrape time of the last listing of the batch with that key that
    could be written. *)
Theorem process_and_store_last_write_wins
    (db : database) (listings : list (gmap string pyval)) (r n : row) :
  db_reachable db = true ->
  In r (db_rows (snd (process_and_store db listings))) ->
  last_match (proposed_rows listings) r = Some n ->
  r_price r = r_price n /\ r_scraped_at r = r_scraped_at n.
Proof.
  intros Hup Hin Hlast.
  assert (Hdata := process_and_store_data db listings Hup).
  assert (Hin' : In (row_data r)
                    (fold_left (upsert_row None) (List.map row_data (proposed_rows listings))
                               (List.map row_data (db_rows db)))).
  { rewrite <- Hdata. now apply in_map. }
  assert (Hlast' : last_match (List.map row_data (proposed_rows listings)) (row_data r)
                   = Some (row_data n)).
  { now rewrite last_match_row_data, Hlast. }
  exact (fold_upsert_last _ _ _ _ Hin' Hlast').
Qed.

Lemma process_and_store_last_write_wins_witness :
  r_price second_write_B = Some (inject_Z 379000)
  /\ r_scraped_at second_write_B = Some 10.
Proof.
  apply (process_and_store_last_write_wins one_row_db
           [sample_listing "B" 389000 9; sample_listing "B" 379000 10]
           second_write_B (row_data second_write_B)).
  - reflexivity.
  - vm_compute. right. left. reflexivity.
  - vm_compute. reflexivity.
Defined.

(** ** The buffer over a whole run *)

Section BufferRun.

Implicit Types (st : bp_state) (ls : list (gmap string pyval)).

Lemma flush_conserves st st' :
  flush st = (Returns tt, st') ->
  concat (handed st') ++ buffer (bp st') = concat (handed st) ++ buffer (bp st)
  /\ batch_size (bp st') = batch_size (bp st)
  /\ buffer (bp st') = [].
Proof.
  intros H. assert (H' := H). apply flush_Returns in H' as (Hnil & Hsame & Hhand).
  destruct (buffer (bp st)) as [|l b] eqn:Hbuf.
  - rewrite (Hsame eq_refl), Hbuf. auto.
  - rewrite Hnil, Hhand by discriminate. rewrite concat_app. cbn.
    rewrite !app_nil_r. split; [reflexivity|]. split; [|reflexivity].
    unfold flush in H. rewrite Hbuf in H.
    destruct (db_reachable (bp_db st)); [|discriminate].
    destruct (traverse flush_args (l :: b)) as [argss|e]; [|discriminate].
    destruct (pg_executemany (bp_db st) argss) as [[[]|e] db']; [|discriminate].
    now injection H as <-.
Qed.

Lemma process_listing_conserves st l st' :
  process_listing st l = (Returns tt, st') ->
  concat (handed st') ++ buffer (bp st')
  = concat (handed st) ++ buffer (bp st) ++ [l]
  /\ batch_size (bp st') = batch_size (bp st).
Proof.
  unfold process_listing. cbn [bp batch_size buffer].
  destruct (_ >=? _).
  - intros (H & HN & _)%flush_conserves. cbn in H, HN. auto.
  - intros [= <-]. cbn. auto.
Qed.

Lemma process_listings_conserves ls : forall st st',
  process_listings st ls = (Returns tt, st') ->
  concat (handed st') ++ buffer (bp st')
  = concat (handed st) ++ buffer (bp st) ++ ls
  /\ batch_size (bp st') = batch_size (bp st).
Proof.
  induction ls as [|l ls IH]; intros st st'; cbn [process_listings].
  - intros [= <-]. now rewrite app_nil_r.
  - destruct (process_listing st l) as [[[]|e] st1] eqn:E; [|discriminate].
    intros H. apply IH in H as [H HN]. apply process_listing_conserves in E as [E EN].
    rewrite H, app_assoc, E, <- !app_assoc. split; [reflexivity|congruence].
Qed.

Lemma process_listing_bounded st l st' :
  1 <= batch_size (bp st) ->
  Z.of_nat (length (buffer (bp st))) < batch_size (bp st) ->
  process_listing st l = (Returns tt, st') ->
  batch_size (bp st') = batch_size (bp st)
  /\ Z.of_nat (length (buffer (bp st'))) < batch_size (bp st)
  /\ exists new, handed st' = handed st ++ new
                 /\ Forall (fun b => Z.of_nat (length b) = batch_size (bp st)) new.
Proof.
  intros HN Hlt. unfold process_listing. cbn [bp batch_size buffer].
  rewrite length_app. cbn [length].
  destruct (Z.geb_spec (Z.of_nat (length (buffer (bp st)) + 1)) (batch_size (bp st)))
    as [Hge|Hlt'].
  - intros H. assert (H' := H). apply flush_conserves in H' as (_ & HN' & Hnil).
    apply flush_Returns in H as (_ & _ & Hhand). cbn in *.
    split; [exact HN'|]. split; [rewrite Hnil; cbn; lia|].
    exists [buffer (bp st) ++ [l]]. split.
    + apply Hhand. intros E. now apply app_eq_nil in E as [_ [=]].
    + constructor; [|constructor]. rewrite length_app. cbn. lia.
  - intros [= <-]. cbn. split; [reflexivity|]. split.
    + rewrite length_app. cbn. lia.
    + exists []. split; [now rewrite app_nil_r|constructor].
Qed.

Lemma process_listings_bounded ls : forall st st',
  1 <= batch_size (bp st) ->
  Z.of_nat (length (buffer (bp st))) < batch_size (bp st) ->
  process_listings st ls = (Returns tt, st') ->
  batch_size (bp st') = batch_size (bp st)
  /\ Z.of_nat (length (buffer (bp st'))) < batch_size (bp st)
  /\ exists new, handed st' = handed st ++ new
                 /\ Forall (fun b => Z.of_nat (length b) = batch_size (bp st)) new.
Proof.
  induction ls as [|l ls IH]; intros st st' HN Hlt; cbn [process_listings].
  - intros [= <-]. split; [reflexivity|]. split; [exact Hlt|].
    exists []. split; [now rewrite app_nil_r|constructor].
  - destruct (process_listing st l) as [[[]|e] st1] eqn:E; [|discriminate].
    apply process_listing_bounded in E as (EN & Elt & new1 & Eh & Ef); try assumption.
    intros H. apply IH in H as (HN' & Hlt' & new2 & Hh & Hf); rewrite ?EN; try assumption.
    rewrite EN in *.
    split; [congruence|]. split; [exact Hlt'|].
    exists (new1 ++ new2). split; [now rewrite Hh, Eh, app_assoc|].
    apply Forall_app. split; assumption.
Qed.

Lemma forallb_storable_snoc ls l :
  forallb storable ls = false -> forallb storable (ls ++ [l]) = false.
Proof. intros H. now rewrite forallb_app, H. Qed.

Lemma flush_unstorable_state st :
  db_reachable (bp_db st) = true ->
  forallb storable (buffer (bp st)) = false ->
  exists e h', flush st = (Raises e, mk_bps (bp st) (bp_db st) h').
Proof.
  intros Hup Hbad. unfold flush.
  destruct (buffer (bp st)) as [|x xs] eqn:Hbuf; [discriminate|]. rewrite Hup.
  destruct (traverse_unstorable _ Hbad) as [[e ->] | (argss & e & -> & Hrows)].
  - exists e, (handed st). now destruct st.
  - unfold pg_executemany. rewrite Hrows. eexists _, _. reflexivity.
Qed.

Lemma process_listing_poisoned st l :
  db_reachable (bp_db st) = true ->
  forallb storable (buffer (bp st)) = false ->
  Z.of_nat (length (buffer (bp st)) + 1) >= batch_size (bp st) ->
  exists e st',
    process_listing st l = (Raises e, st')
    /\ buffer (bp st') = buffer (bp st) ++ [l]
    /\ batch_size (bp st') = batch_size (bp st)
    /\ bp_db st' = bp_db st.
Proof.
  intros Hup Hbad Hge. unfold process_listing. cbn [bp batch_size buffer].
  rewrite length_app. cbn [length].
  destruct (Z.geb_spec (Z.of_nat (length (buffer (bp st)) + 1)) (batch_size (bp st)));
    [|lia].
  destruct (flush_unstorable_state
              (mk_bps (mk_bp (batch_size (bp st)) (buffer (bp st) ++ [l]))
                      (bp_db st) (handed st)))
    as (e & h' & ->); cbn [bp buffer bp_db].
  - exact Hup.
  - now apply forallb_storable_snoc.
  - eexists _, _. repeat split; reflexivity.
Qed.

End BufferRun.

(** X4: no listing is dropped or handed over twice.  Whenever a run of
    [process_listing] calls returns, the batches handed to the writer so
    far followed by the pending buffer are exactly what they were
    before, followed by the added listings in their order. *)
Theorem process_listings_hands_each_listing_once
    (st st' : bp_state) (ls : list (gmap string pyval)) :
  process_listings st ls = (Returns tt, st') ->
  concat (handed st') ++ buffer (bp st')
  = concat (handed st) ++ buffer (bp st) ++ ls.
Proof. intros H. now apply process_listings_conserves in H as [H _]. Qed.

Lemma process_listings_hands_each_listing_once_witness :
  exists st',
    process_listings (new_batch_processor 3 empty_db) (numbered_listings 8)
    = (Returns tt, st')
    /\ concat (handed st') ++ buffer (bp st') = numbered_listings 8.
Proof.
  eexists. split; [vm_compute; reflexivity|].
  refine (process_listings_hands_each_listing_once
            (new_batch_processor 3 empty_db) _ (numbered_listings 8) _).
  vm_compute. reflexivity.
Defined.

(** X5: the capacity bounds the buffer.  With a capacity N >= 1 and
    fewer than N listings pending, after any run of [process_listing]
    calls that returns fewer than N listings are pending again, and every
    batch handed over during the run holds exactly N listings. *)
Theorem process_listings_keeps_buffer_below_capacity
    (st st' : bp_state) (ls : list (gmap string pyval)) :
  1 <= batch_size (bp st) ->
  Z.of_nat (length (buffer (bp st))) < batch_size (bp st) ->
  process_listings st ls = (Returns tt, st') ->
  Z.of_nat (length (buffer (bp st'))) < batch_size (bp st)
  /\ exists new, handed st' = handed st ++ new
                 /\ Forall (fun b => Z.of_nat (length b) = batch_size (bp st)) new.
Proof.
  intros HN Hlt H.
  now apply process_listings_bounded in H as (_ & H1 & H2).
Qed.

Lemma process_listings_keeps_buffer_below_capacity_witness :
  exists st',
    process_listings (new_batch_processor 3 empty_db) (numbered_listings 8)
    = (Returns tt, st')
    /\ Z.of_nat (length (buffer (bp st'))) < 3.
Proof.
  eexists. split; [vm_compute; reflexivity|].
  refine (proj1 (process_listings_keeps_buffer_below_capacity
                   (new_batch_processor 3 empty_db) _ (numbered_listings 8) _ _ _)).
  - cbn. lia.
  - cbn. lia.
  - vm_compute. reflexivity.
Defined.

(** X6: a listing that cannot be stored blocks the buffer for good.
    Once the buffer holds such a listing and is one short of its
    capacity or beyond, the next [process_listing] raises, keeps the new
    listing in the buffer as well and leaves the database as it was; the
    buffer then still holds the bad listing and is still at capacity, so
    every later call raises in the same way. *)
Theorem process_listing_blocked_by_bad_listing
    (st : bp_state) (l : gmap string pyval) :
  db_reachable (bp_db st) = true ->
  forallb storable (buffer (bp st)) = false ->
  Z.of_nat (length (buffer (bp st)) + 1) >= batch_size (bp st) ->
  exists e st',
    process_listing st l = (Raises e, st')
    /\ buffer (bp st') = buffer (bp st) ++ [l]
    /\ bp_db st' = bp_db st
    /\ db_reachable (bp_db st') = true
    /\ forallb storable (buffer (bp st')) = false
    /\ Z.of_nat (length (buffer (bp st')) + 1) >= batch_size (bp st').
Proof.
  intros Hup Hbad Hge.
  destruct (process_listing_poisoned st l Hup Hbad Hge) as (e & st' & H & Hb & HN & Hdb).
  exists e, st'. rewrite Hb, Hdb, HN, length_app. cbn [length].
  repeat split; try assumption; try reflexivity.
  - now apply forallb_storable_snoc.
  - lia.
Qed.

Lemma process_listing_blocked_by_bad_listing_witness :
  exists e st',
    process_listing
      (mk_bps (mk_bp 2 [listing_without_postal_code "B"]) empty_db [])
      (sample_listing "A" 425000 1) = (Raises e, st')
    /\ length (buffer (bp st')) = 2%nat.
Proof.
  destruct (process_listing_blocked_by_bad_listing
              (mk_bps (mk_bp 2 [listing_without_postal_code "B"]) empty_db [])
              (sample_listing "A" 425000 1))
    as (e & st' & H & Hb & _).
  - reflexivity.
  - vm_compute. reflexivity.
  - cbn. lia.
  - exists e, st'. split; [exact H|]. now rewrite Hb.
Defined.

(** ** Page loops *)

Section PageLoop.

Implicit Types (web : Z -> page_outcome) (acc : list (gmap string pyval)).

Lemma scrape_pages_agree web web' : forall n page acc,
  (forall p, page <= p < page + Z.of_nat n ->
             (forall q, page <= q < p -> is_empty_page (web q) = false) ->
             web p = web' p) ->
  scrape_pages web page n acc = scrape_pages web' page n acc.
Proof.
  induction n as [|n IH]; intros page acc Hagree; [reflexivity|].
  cbn [scrape_pages].
  rewrite <- (Hagree page) by lia.
  assert (Hnext : is_empty_page (web page) = false ->
            forall acc', scrape_pages web (page + 1) n acc'
                         = scrape_pages web' (page + 1) n acc').
  { intros Hne acc'. apply IH. intros p Hp Hq. apply Hagree; [lia|].
    intros q Hq'. destruct (Z.eq_dec q page) as [->|]; [exact Hne|].
    apply Hq. lia. }
  destruct (web page) as [|[|l ls]]; [now apply Hnext | reflexivity | now apply Hnext].
Qed.

End PageLoop.

(** X8: a city scrape reads the pages from 1 upward and never looks
    past the first page without listings, nor past [max_pages]: two
    sources that answer alike on every page up to there give the same
    result, in [scrape_city_listings] and in [scrape_search_results]. *)
Theorem scrape_stops_at_first_empty_page
    (web web' : Z -> page_outcome) (max_pages : Z) :
  (forall p, 1 <= p <= max_pages ->
             (forall q, 1 <= q < p -> is_empty_page (web q) = false) ->
             web p = web' p) ->
  scrape_city_listings web max_pages = scrape_city_listings web' max_pages
  /\ FundaScraper.scrape_search_results web max_pages
     = FundaScraper.scrape_search_results web' max_pages.
Proof.
  intros Hagree.
  assert (H : scrape_pages web 1 (Z.to_nat max_pages) []
              = scrape_pages web' 1 (Z.to_nat max_pages) []).
  { apply scrape_pages_agree. intros p Hp Hq. apply Hagree; [lia|exact Hq]. }
  split; exact H.
Qed.

Lemma scrape_stops_at_first_empty_page_witness :
  scrape_city_listings one_page_web 5 = scrape_city_listings one_page_web_and_stray 5
  /\ FundaScraper.scrape_search_results one_page_web 5
     = FundaScraper.scrape_search_results one_page_web_and_stray 5.
Proof.
  apply scrape_stops_at_first_empty_page.
  intros p Hp Hq. unfold one_page_web_and_stray.
  destruct (Z.eqb_spec p 3) as [->|]; [|reflexivity].
  specialize (Hq 2 ltac:(lia)). discriminate Hq.
Defined.

(** ** All cities *)

Section Cities.

Implicit Types (db : database) (web : string -> Z -> page_outcome).

Lemma process_and_store_reachable_stats db listings :
  db_reachable db = true ->
  exists st,
    process_and_store db listings = (Returns st, snd (process_and_store db listings))
    /\ counted st = Z.of_nat (length listings)
    /\ updated st = 0.
Proof.
  intros Hup. unfold process_and_store. rewrite Hup.
  destruct listings as [|l ls]; [exists (mk_stats 0 0 0); repeat split|].
  unfold store_listings.
  assert (Hc := fold_store_counts pg_execute_upsert (l :: ls) (mk_stats 0 0 0, db)).
  assert (Hu := fold_store_never_updated (l :: ls) (mk_stats 0 0 0, db)).
  destruct (fold_left _ (l :: ls) _) as [st db']. exists st. cbn in *.
  repeat split; [|exact Hu]. rewrite Hc. unfold counted. cbn. lia.
Qed.

Lemma counted_add_stats a b : counted (add_stats a b) = counted a + counted b.
Proof. unfold counted, add_stats. cbn. lia. Qed.

Lemma scrape_cities_loop_reachable web max_pages cities : forall total db,
  db_reachable db = true ->
  counted (fst (scrape_cities_loop web max_pages cities total db))
  = counted total
    + Z.of_nat (length (flat_map (fun city => scrape_city_listings (web city) max_pages)
                                 cities))
  /\ updated (fst (scrape_cities_loop web max_pages cities total db)) = updated total.
Proof.
  induction cities as [|city rest IH]; intros total db Hup;
    cbn [scrape_cities_loop flat_map].
  - cbn. split; [lia|reflexivity].
  - destruct (scrape_city_listings (web city) max_pages) as [|l ls] eqn:E.
    + now apply IH.
    + destruct (process_and_store_reachable_stats db (l :: ls) Hup) as (st & Hst & Hc & Hu).
      rewrite Hst.
      destruct (IH (add_stats total st) (snd (process_and_store db (l :: ls))))
        as [IHc IHu]; [now rewrite process_and_store_reachable|].
      rewrite IHc, IHu, counted_add_stats, Hc, length_app.
      split; [lia|]. cbn. lia.
Qed.

Lemma scrape_cities_loop_unreachable web max_pages cities : forall total db,
  db_reachable db = false ->
  scrape_cities_loop web max_pages cities total db = (total, db).
Proof.
  induction cities as [|city rest IH]; intros total db Hdown;
    cbn [scrape_cities_loop]; [reflexivity|].
  destruct (scrape_city_listings (web city) max_pages) as [|l ls]; [now apply IH|].
  unfold process_and_store. rewrite Hdown. now apply IH.
Qed.

End Cities.

(** X9: [scrape_funda_cities] accounts for every scraped listing.  With
    a reachable database the counters it returns add up to the number
    of listings scraped over all cities (the four default cities when
    none are given), and [updated] stays 0; with an unreachable database
    it returns all zeros without raising and writes nothing. *)
Theorem scrape_funda_cities_counts_every_listing
    (web : string -> Z -> page_outcome) (cities : list string) (max_pages : Z)
    (db : database) :
  let scraped :=
    flat_map (fun city => scrape_city_listings (web city) max_pages)
             (match cities with [] => default_cities | _ => cities end) in
  let result := scrape_funda_cities web cities max_pages db in
  (db_reachable db = true ->
   inserted (fst result) + updated (fst result) + errors (fst result)
   = Z.of_nat (length scraped)
   /\ updated (fst result) = 0)
  /\ (db_reachable db = false -> result = (mk_stats 0 0 0, db)).
Proof.
  cbv zeta. unfold scrape_funda_cities. split.
  - intros Hup.
    destruct (scrape_cities_loop_reachable web max_pages
                (match cities with [] => default_cities | _ => cities end)
                (mk_stats 0 0 0) db Hup) as [Hc Hu].
    split; [|exact Hu]. unfold counted in Hc. cbn in Hc. lia.
  - intros Hdown. now apply scrape_cities_loop_unreachable.
Qed.

(** ** More on price texts *)

Section PriceMore.

Local Arguments Ascii.eqb : simpl never.

Lemma text_filter_filter p q (s : string) :
  Text.filter p (Text.filter q s) = Text.filter (fun c => q c && p c) s.
Proof.
  induction s as [|c s IH]; [reflexivity|]. cbn [Text.filter].
  destruct (q c); cbn [andb Text.filter]; [|exact IH].
  destruct (p c); now rewrite IH.
Qed.

Lemma text_filter_ext p q (s : string) :
  (forall c, p c = q c) -> Text.filter p s = Text.filter q s.
Proof.
  intros H. induction s as [|c s IH]; [reflexivity|]. cbn [Text.filter].
  now rewrite H, IH.
Qed.

Lemma price_clean_of_price_chars (s : string) :
  price_clean_of (price_chars s) = price_clean_of s.
Proof.
  unfold price_clean_of, price_chars, strip_non_price, Text.remove, Text.replace.
  rewrite !text_filter_filter. f_equal. apply text_filter_ext. intros c.
  destruct (Ascii.eqb_spec c ".") as [->|_]; [reflexivity|].
  rewrite orb_false_r. cbn [negb]. rewrite !andb_true_r.
  now destruct (Text.is_digit c || Ascii.eqb c ",").
Qed.

Lemma parse_price_text_clean (s t : string) :
  price_clean_of s = price_clean_of t -> parse_price_text s = parse_price_text t.
Proof.
  intros H. unfold parse_price_text. fold (price_clean_of s) (price_clean_of t).
  now rewrite H.
Qed.

Lemma digit_val_nonneg c : Text.is_digit c = true -> 0 <= Text.digit_val c.
Proof.
  unfold Text.is_digit, Text.digit_val.
  intros [H _]%andb_prop. apply Nat.leb_le in H. lia.
Qed.

Lemma digits_value_from_nonneg (s : string) : forall acc,
  0 <= acc -> Text.forallb Text.is_digit s = true ->
  0 <= Text.digits_value_from acc s.
Proof.
  induction s as [|c s IH]; intros acc Hacc; cbn; [auto|].
  intros [Hc Hs]%andb_prop. apply IH; [|exact Hs].
  apply digit_val_nonneg in Hc. lia.
Qed.

Lemma digits_value_nonneg (s : string) : 0 <= Text.digits_value (digits s).
Proof.
  apply digits_value_from_nonneg; [lia|]. apply forallb_filter.
Qed.

Lemma price_of_text_nonneg (s : string) q :
  price_of_text s = Some q -> (0 <= q)%Q.
Proof.
  unfold price_of_text. assert (Hv := digits_value_nonneg s).
  assert (Hz : (0 <= binary64 (inject_Z (Text.digits_value (digits s))))%Q).
  { apply binary64_nonneg. unfold Qle. cbn. lia. }
  assert (Hf : forall d, (0 <= binary64 (Qred (Text.digits_value (digits s) # d)))%Q).
  { intros d. apply binary64_nonneg. rewrite Qred_correct. unfold Qle. cbn. lia. }
  destruct (Text.is_empty (digits s)); [discriminate|].
  destruct (Text.split "," s) as [|p1 [|p2 [|p3 ps]]]; try (now intros [= <-]).
  destruct (_ <=? _)%nat; now intros [= <-].
Qed.

End PriceMore.

(** X10: on plain text (ASCII, the euro sign and the superscript two)
    [parse_price_text] never yields a negative price and looks at
    nothing but the digits and the commas of its text: letters, spaces,
    currency signs, dots and a minus sign are dropped, so "-425.000"
    parses like "425.000". *)
Theorem parse_price_text_ignores_sign_and_noise :
  (forall s, plain_text s = true ->
             match parse_price_text s with
             | Some q => (0 <= q)%Q
             | None => True
             end)
  /\ (forall s, plain_text s = true ->
                parse_price_text s = parse_price_text (price_chars s))
  /\ (forall s, plain_text s = true ->
                parse_price_text (String "-" s) = parse_price_text s)
  /\ parse_price_text "-425.000" = Some (425000 # 1)%Q.
Proof.
  split; [|split; [|split]].
  - intros s _. destruct (parse_price_text s) as [q|] eqn:E; [|exact I].
    rewrite parse_price_text_price_of_text in E. now apply price_of_text_nonneg in E.
  - intros s _. apply parse_price_text_clean. now rewrite price_clean_of_price_chars.
  - intros s _. now apply parse_price_text_clean.
  - vm_compute. reflexivity.
Qed.

(** X11: [extract_price] never returns a price of zero: it returns the
    first text, in selector order, that parses to a price other than
    zero, which is then positive; it returns null when every selector is
    missing or parses to null or zero. *)
Theorem extract_price_never_zero (texts : list (option string)) :
  match extract_price texts with
  | Some price =>
      (0 < price)%Q
      /\ exists before price_text after,
           texts = before ++ Some price_text :: after
           /\ parse_price_text price_text = Some price
           /\ extract_price before = None
  | None =>
      Forall (fun t => match t with
                       | None => True
                       | Some price_text =>
                           match parse_price_text price_text with
                           | Some price => (price == 0)%Q
                           | None => True
                           end
                       end) texts
  end.
Proof.
  induction texts as [|t texts IH]; cbn [extract_price]; [constructor|].
  assert (Hstep : match extract_price texts with
                  | Some price =>
                      (0 < price)%Q
                      /\ exists before price_text after,
                           t :: texts = (t :: before) ++ Some price_text :: after
                           /\ parse_price_text price_text = Some price
                           /\ extract_price before = None
                  | None => True
                  end).
  { destruct (extract_price texts) as [p|]; [|exact I].
    destruct IH as (Hpos & before & pt & after & -> & Hp & Hb).
    split; [exact Hpos|]. exists before, pt, after. auto. }
  destruct t as [price_text|].
  - destruct (parse_price_text price_text) as [price|] eqn:E.
    + destruct (Qnum price =? 0) eqn:Hz; cbn [negb].
      * apply Z.eqb_eq in Hz.
        destruct (extract_price texts) as [p|].
        -- destruct Hstep as (Hpos & before & pt & after & Heq & Hp & Hb).
           split; [exact Hpos|]. exists (Some price_text :: before), pt, after.
           repeat split; [exact Heq|exact Hp|].
           cbn [extract_price]. rewrite E, Hz. exact Hb.
        -- constructor; [|exact IH]. rewrite E. unfold Qeq. cbn. lia.
      * apply Z.eqb_neq in Hz. split.
        -- assert (Hnn : (0 <= price)%Q).
           { rewrite parse_price_text_price_of_text in E.
             now apply price_of_text_nonneg in E. }
           unfold Qlt, Qle in *. cbn in *. lia.
        -- exists [], price_text, texts. auto.
    + destruct (extract_price texts) as [p|].
      * destruct Hstep as (Hpos & before & pt & after & Heq & Hp & Hb).
        split; [exact Hpos|]. exists (Some price_text :: before), pt, after.
        repeat split; [exact Heq|exact Hp|]. cbn [extract_price]. now rewrite E.
      * constructor; [|exact IH]. now rewrite E.
  - destruct (extract_price texts) as [p|].
    + destruct Hstep as (Hpos & before & pt & after & Heq & Hp & Hb).
      split; [exact Hpos|]. exists (None :: before), pt, after. auto.
    + constructor; [exact I|exact IH].
Qed.

(** ** Property type *)

Section PropertyType.

Lemma prefix_append (w post : string) : String.prefix w (w ++ post) = true.
Proof.
  induction w as [|c w IH]; [now destruct post|].
  simpl. destruct (ascii_dec c c); [exact IH|contradiction].
Qed.

Lemma contains_inside (w pre post : string) :
  contains w (pre ++ w ++ post) = true.
Proof.
  assert (Hunfold : forall h, contains w h
            = String.prefix w h
              || match h with
                 | EmptyString => false
                 | String _ rest => contains w rest
                 end) by (now intros []).
  induction pre as [|c pre IH].
  - change (contains w (w ++ post) = true).
    now rewrite Hunfold, prefix_append.
  - change (contains w (String c (pre ++ w ++ post)) = true).
    rewrite Hunfold, IH. apply orb_true_r.
Qed.

Lemma lower_append (a b : string) : lower (a ++ b) = (lower a ++ lower b)%string.
Proof.
  unfold lower. induction a as [|c a IH]; [reflexivity|].
  change (Text.map lower_char (String c (a ++ b))
          = String (lower_char c) (Text.map lower_char a ++ Text.map lower_char b)).
  cbn [Text.map]. now rewrite IH.
Qed.

Lemma lower_char_idem (c : ascii) : lower_char (lower_char c) = lower_char c.
Proof. destruct c as [[] [] [] [] [] [] [] []]; reflexivity. Qed.

Lemma lower_idem (s : string) : lower (lower s) = lower s.
Proof.
  unfold lower. induction s as [|c s IH]; cbn; [reflexivity|].
  now rewrite lower_char_idem, IH.
Qed.

Lemma any_word_inside words w pre post other :
  In w words -> lower w = w ->
  any_word words (lower (pre ++ w ++ post)) other = true
  /\ any_word words other (lower (pre ++ w ++ post)) = true.
Proof.
  intros Hin Hw. unfold any_word. rewrite !existsb_exists.
  rewrite !lower_append, Hw.
  split; exists w; (split; [exact Hin|]); rewrite contains_inside;
    [reflexivity|apply orb_true_r].
Qed.

End PropertyType.

(** X12: [extract_property_type] answers one of "apartment", "house",
    "penthouse" and "unknown" (never "studio"); it does not depend on the
    case of the letters; and an apartment word ("appartement", "flat",
    "studio") anywhere in the text or in the address makes the answer
    "apartment", whatever else is written there, "penthouse" included. *)
Theorem extract_property_type_apartment_first :
  (forall text address,
     In (extract_property_type text address)
        ["apartment"; "house"; "penthouse"; "unknown"]%string)
  /\ (forall text address,
        extract_property_type (lower text) (lower address)
        = extract_property_type text address)
  /\ (forall w pre post other,
        In w apartment_words ->
        extract_property_type (pre ++ w ++ post) other = "apartment"%string
        /\ extract_property_type other (pre ++ w ++ post) = "apartment"%string)
  /\ extract_property_type "Penthouse met dakterras" "Zuidas 1" = "penthouse"%string
  /\ extract_property_type "Penthouse appartement" "Zuidas 1" = "apartment"%string.
Proof.
  split; [|split; [|split; [|split]]].
  - intros text address. unfold extract_property_type.
    destruct (any_word apartment_words _ _); [now left|].
    destruct (any_word house_words _ _); [right; now left|].
    destruct (any_word penthouse_words _ _); [right; right; now left|].
    right; right; right; now left.
  - intros text address. unfold extract_property_type. now rewrite !lower_idem.
  - intros w pre post other Hin.
    assert (Hw : lower w = w).
    { destruct Hin as [<-|[<-|[<-|[]]]]; reflexivity. }
    destruct (any_word_inside apartment_words w pre post (lower other) Hin Hw)
      as [H1 H2].
    unfold extract_property_type. now rewrite H1, H2.
  - vm_compute. reflexivity.
  - vm_compute. reflexivity.
Qed.

(** ** The CBS collection task *)

Section CbsTask.

Variable py_hash : string -> Z.
Variable now : Z.

Lemma source_failed_dec (probe fetch : http_reply) :
  source_failed now probe fetch \/ ~ source_failed now probe fetch.
Proof.
  unfold source_failed.
  destruct (test_api_connection probe); [|auto].
  destruct (fetch_sample_house_data now fetch) as [[|r rs]|e].
  - auto.
  - right. intros [H|[[e H]|H]]; discriminate.
  - left. right. left. eauto.
Qed.

Lemma distinct_length (vals : list pyval) : (length (distinct vals) <= length vals)%nat.
Proof.
  induction vals as [|v vals IH]; cbn [distinct length]; [lia|].
  destruct (existsb (py_eqb v) vals); cbn [length]; lia.
Qed.

Lemma nunique_le (column : list pyval) : (nunique column <= length column)%nat.
Proof.
  unfold nunique. etransitivity; [apply distinct_length|]. apply List.filter_length_le.
Qed.

Lemma mock_regions :
  List.map (fun r => dict_get r "region") (generate_mock_cbs_data py_hash now)
  = flat_map (fun region => List.map (fun _ => PStr region) periods) regions.
Proof. vm_compute. reflexivity. Qed.

Lemma mock_record_in (r : gmap string pyval) :
  In r (generate_mock_cbs_data py_hash now) ->
  exists region period,
    In region regions /\ In period periods
    /\ r = mock_record py_hash now region period.
Proof.
  unfold generate_mock_cbs_data. rewrite in_flat_map.
  intros (region & Hr & (period & <- & Hp)%in_map_iff). eauto.
Qed.

End CbsTask.

(** X13: the summary of [collect_cbs_data] never reports the source
    "none" nor zero records: the source is "cbs_mock" or "cbs_test", at
    least one record is counted, and the regions covered are never more
    than the records.  When the external source fails or is empty the
    summary counts 20 records over 5 regions from "cbs_mock". *)
Theorem collect_cbs_data_summary :
  forall (py_hash : string -> Z) (now : Z) (probe fetch : http_reply),
    let stats := collect_cbs_data py_hash now probe fetch in
    (1 <= records_collected stats)%nat
    /\ (stats_data_source stats = PStr "cbs_mock"
        \/ stats_data_source stats = PStr "cbs_test")
    /\ (regions_covered stats <= records_collected stats)%nat
    /\ (source_failed now probe fetch ->
        records_collected stats = 20%nat
        /\ regions_covered stats = 5%nat
        /\ stats_data_source stats = PStr "cbs_mock").
Proof.
  intros py_hash now probe fetch stats. subst stats. unfold collect_cbs_data.
  destruct (source_failed_dec now probe fetch) as [Hf|Hok].
  - rewrite (collect_falls_back py_hash now probe fetch Hf).
    assert (Hlen : length (generate_mock_cbs_data py_hash now) = 20%nat)
      by reflexivity.
    assert (Hsrc : data_source (generate_mock_cbs_data py_hash now) = PStr "cbs_mock")
      by reflexivity.
    assert (Hreg : match generate_mock_cbs_data py_hash now with
                   | [] => 0%nat
                   | _ => nunique (List.map (fun r => dict_get r "region")
                                            (generate_mock_cbs_data py_hash now))
                   end = 5%nat).
    { rewrite (mock_regions py_hash now). reflexivity. }
    rewrite Hlen, Hsrc, Hreg.
    cbn [records_collected stats_data_source regions_covered].
    repeat split; try lia. now left.
  - destruct (collect_real py_hash now probe fetch Hok) as (records & _ & -> & Hne).
    destruct records as [|r rs]; [contradiction|].
    cbn [List.map length data_source records_collected stats_data_source
         regions_covered].
    split; [lia|]. split; [right; apply processed_record_tagged|].
    split; [|contradiction].
    etransitivity; [apply nunique_le|]. cbn [length]. now rewrite !List.length_map.
Qed.

(** X14: whatever the hash seed and the clock, every mock record has a
    transaction count from 1200 up to 1999 and an average price that is
    at least the base price of its region; the price of a region grows
    with the age of the period, 2023 carrying the base price itself. *)
Theorem mock_data_within_bounds :
  forall (py_hash : string -> Z) (now : Z),
    Forall (fun r =>
              exists region period count,
                dict_get r "region" = PStr region
                /\ dict_get r "period" = PStr period
                /\ dict_get r "transaction_count" = PInt count
                /\ 1200 <= count < 2000
                /\ dict_get r "avg_sale_price" = PInt (avg_sale_price region period)
                /\ base_price_of base_prices region <= avg_sale_price region period)
           (generate_mock_cbs_data py_hash now)
    /\ Forall (fun region =>
                 avg_sale_price region "2023JJ00" = base_price_of base_prices region
                 /\ avg_sale_price region "2023JJ00" < avg_sale_price region "2022JJ00"
                 /\ avg_sale_price region "2022JJ00" < avg_sale_price region "2021JJ00"
                 /\ avg_sale_price region "2021JJ00" < avg_sale_price region "2020JJ00")
              regions.
Proof.
  intros py_hash now. split.
  - apply Forall_forall. intros r Hin%list_elem_of_In.
    apply mock_record_in in Hin as (region & period & Hr & Hp & ->).
    exists region, period, (1200 + py_hash (region ++ period)%string mod 800).
    split; [reflexivity|]. split; [reflexivity|]. split; [reflexivity|].
    split; [assert (H := Z.mod_pos_bound (py_hash (region ++ period)%string) 800); lia|].
    split; [reflexivity|].
    cbn in Hr, Hp.
    repeat match goal with
           | H : _ \/ _ |- _ => destruct H as [<-|H]
           | H : False |- _ => destruct H
           end; vm_compute; intros E; discriminate E.
  - repeat constructor; vm_compute; try reflexivity; intros E; discriminate E.
Qed.

(** ** The regular expressions of the normalizer *)

Section RegexFacts.

Lemma alpha_not_space c : is_alpha c = true -> is_space c = false.
Proof. destruct c as [[] [] [] [] [] [] [] []]; vm_compute; congruence. Qed.

Lemma alpha_not_blank c : is_alpha c = true -> Ascii.eqb c " " = false.
Proof. destruct c as [[] [] [] [] [] [] [] []]; vm_compute; congruence. Qed.

Lemma digit_not_blank c : Text.is_digit c = true -> Ascii.eqb c " " = false.
Proof. destruct c as [[] [] [] [] [] [] [] []]; vm_compute; congruence. Qed.

Lemma digit_not_space c : Text.is_digit c = true -> is_space c = false.
Proof. destruct c as [[] [] [] [] [] [] [] []]; vm_compute; congruence. Qed.

Lemma span_spaces n c rest :
  is_space c = false ->
  span is_space (spaces n ++ String c rest) = (spaces n, String c rest).
Proof.
  intros Hc. induction n as [|n IH].
  - change (span is_space (String c rest) = (EmptyString, String c rest)).
    cbn [span]. now rewrite Hc.
  - change (span is_space (String " " (spaces n ++ String c rest))
            = (String " " (spaces n), String c rest)).
    cbn [span]. change (is_space " ") with true. cbn iota. now rewrite IH.
Qed.

Lemma remove_spaces n (s : string) :
  Text.remove " " (spaces n ++ s) = Text.remove " " s.
Proof.
  induction n as [|n IH]; [reflexivity|].
  change (Text.remove " " (String " " (spaces n ++ s)) = Text.remove " " s).
  unfold Text.remove in *. cbn [Text.filter]. exact IH.
Qed.

Lemma span_app p (a : string) : forall b,
  span p (a ++ b) = let '(x, y) := span p a in
                    match y with
                    | EmptyString => let '(x', y') := span p b in ((x ++ x')%string, y')
                    | _ => (x, (y ++ b)%string)
                    end.
Proof.
  induction a as [|c a IH]; intros b.
  - change (span p b = let '(x', y') := span p b in (x', y')). now destruct (span p b).
  - change (span p (String c (a ++ b)) = let '(x, y) := span p (String c a) in
            match y with
            | EmptyString => let '(x', y') := span p b in ((x ++ x')%string, y')
            | _ => (x, (y ++ b)%string)
            end).
    cbn [span]. destruct (p c); [|reflexivity].
    rewrite IH. destruct (span p a) as [x y].
    destruct y; [|reflexivity]. now destruct (span p b).
Qed.

Lemma span_parts p (s : string) :
  let '(a, b) := span p s in
  s = (a ++ b)%string /\ Text.forallb p a = true /\ boundary_with p b = true.
Proof.
  induction s as [|c s IH]; cbn [span]; [repeat split|].
  destruct (p c) eqn:E.
  - destruct (span p s) as [a b]. destruct IH as (-> & Ha & Hb).
    repeat split; [|exact Hb]. cbn. now rewrite E.
  - repeat split. cbn. now rewrite E.
Qed.

End RegexFacts.

Section RegexSearch.

Lemma span_all p (s : string) : Text.forallb p s = true -> span p s = (s, EmptyString).
Proof.
  induction s as [|c s IH]; cbn [span Text.forallb]; [reflexivity|].
  intros [-> Hs]%andb_prop. now rewrite (IH Hs).
Qed.

Lemma span_none p (s : string) : boundary_with p s = true -> span p s = (EmptyString, s).
Proof.
  destruct s as [|c s]; cbn [span boundary_with]; [reflexivity|].
  now intros ->%negb_true_iff.
Qed.

Lemma append_empty_r (s : string) : (s ++ EmptyString)%string = s.
Proof.
  induction s as [|c s IH]; [reflexivity|].
  change (String c (s ++ EmptyString) = String c s). now rewrite IH.
Qed.

Lemma span_run p (a b : string) :
  Text.forallb p a = true -> boundary_with p b = true ->
  span p (a ++ b) = (a, b).
Proof.
  intros Ha Hb. rewrite span_app, (span_all p a Ha), (span_none p b Hb).
  now rewrite append_empty_r.
Qed.

Lemma mem_remove c (s : string) : Text.mem c (Text.remove c s) = false.
Proof.
  unfold Text.remove. induction s as [|d s IH]; [reflexivity|]. cbn [Text.filter].
  destruct (Ascii.eqb d c) eqn:E; cbn [negb]; [exact IH|].
  cbn [Text.mem]. now rewrite Ascii.eqb_sym, E, IH.
Qed.

Lemma remove_keeps c (s : string) :
  Text.forallb (fun d => negb (Ascii.eqb d c)) s = true -> Text.remove c s = s.
Proof.
  unfold Text.remove. induction s as [|d s IH]; [reflexivity|].
  cbn [Text.forallb Text.filter]. intros [-> Hs]%andb_prop. now rewrite (IH Hs).
Qed.

Lemma forallb_weaken (p q : ascii -> bool) (s : string) :
  (forall c, p c = true -> q c = true) ->
  Text.forallb p s = true -> Text.forallb q s = true.
Proof.
  intros H. induction s as [|c s IH]; [reflexivity|]. cbn [Text.forallb].
  intros [Hc Hs]%andb_prop. now rewrite (H c Hc), (IH Hs).
Qed.

Lemma forallb_remove (p : ascii -> bool) c (s : string) :
  Text.forallb p s = true ->
  Text.forallb (fun d => p d && negb (Ascii.eqb d c)) (Text.remove c s) = true.
Proof.
  unfold Text.remove. induction s as [|d s IH]; [reflexivity|].
  cbn [Text.forallb Text.filter]. intros [Hd Hs]%andb_prop.
  destruct (Ascii.eqb d c) eqn:E; cbn [negb]; [now apply IH|].
  cbn [Text.forallb]. now rewrite Hd, E, (IH Hs).
Qed.

Lemma match_postal_at_shape prev s m :
  match_postal_at prev s = Some m -> postal_shape m.
Proof.
  unfold match_postal_at.
  destruct s as [|d1 [|d2 [|d3 [|d4 rest]]]]; try discriminate.
  destruct (boundary_before prev && _ && _ && _ && _) eqn:Hd; [|discriminate].
  assert (Hspan := span_parts is_space rest).
  destruct (span is_space rest) as [ws rest2]. destruct Hspan as (_ & Hws & _).
  destruct rest2 as [|l1 [|l2 rest3]]; try discriminate.
  destruct (is_alpha l1 && is_alpha l2 && boundary_after rest3) eqn:Hl; [|discriminate].
  intros [= <-].
  apply andb_prop in Hd as [Hd H4]. apply andb_prop in Hd as [Hd H3].
  apply andb_prop in Hd as [Hd H2]. apply andb_prop in Hd as [_ H1].
  apply andb_prop in Hl as [Hl _]. apply andb_prop in Hl as [Hl1 Hl2].
  exists (String d1 (String d2 (String d3 (String d4 EmptyString)))), ws,
         (String l1 (String l2 EmptyString)).
  repeat split; cbn [Text.forallb]; try assumption.
  - now rewrite H1, H2, H3, H4.
  - now rewrite Hl1, Hl2.
Qed.

Lemma search_postal_shape (s : string) : forall prev m,
  search_postal prev s = Some m -> postal_shape m.
Proof.
  induction s as [|c s IH]; intros prev m; cbn [search_postal].
  - destruct (match_postal_at prev EmptyString) eqn:E; [|discriminate].
    intros [= <-]. eapply match_postal_at_shape, E.
  - destruct (match_postal_at prev (String c s)) eqn:E.
    + intros [= <-]. eapply match_postal_at_shape, E.
    + apply IH.
Qed.

Lemma match_number_at_nondigit unit (s : string) :
  boundary_with Text.is_digit s = true -> match_number_at unit s = None.
Proof. intros H. unfold match_number_at. now rewrite (span_none _ _ H). Qed.

Lemma search_number_skip unit (pre s : string) :
  Text.forallb (fun c => negb (Text.is_digit c)) pre = true ->
  search_number unit (pre ++ s) = search_number unit s.
Proof.
  induction pre as [|c pre IH]; [reflexivity|]. cbn [Text.forallb].
  intros [Hc Hpre]%andb_prop.
  change (search_number unit (String c (pre ++ s)) = search_number unit s).
  cbn [search_number]. rewrite match_number_at_nondigit by exact Hc.
  now apply IH.
Qed.

Lemma prefix_ci_lower (word post : string) :
  prefix_ci (lower word) (word ++ post) = true.
Proof.
  unfold lower. induction word as [|c word IH]; [reflexivity|].
  change (prefix_ci (String (lower_char c) (Text.map lower_char word))
                    (String c (word ++ post)) = true).
  cbn [prefix_ci]. now rewrite Ascii.eqb_refl, IH.
Qed.

Lemma boundary_with_append p (a b : string) :
  Text.forallb (fun c => negb (p c)) a = true ->
  boundary_with p b = true ->
  boundary_with p (a ++ b) = true.
Proof.
  destruct a as [|c a]; [now intros _|].
  cbn [Text.forallb]. intros [Hc _]%andb_prop _. exact Hc.
Qed.

Lemma match_number_at_here unit (d ws rest : string) :
  d <> EmptyString ->
  Text.forallb Text.is_digit d = true ->
  Text.forallb is_space ws = true ->
  boundary_with Text.is_digit rest = true ->
  boundary_with is_space rest = true ->
  prefix_ci unit rest = true ->
  match_number_at unit (d ++ ws ++ rest) = Some (Text.digits_value d).
Proof.
  intros Hne Hd Hws Hrd Hrs Hunit. unfold match_number_at.
  rewrite (span_run Text.is_digit d (ws ++ rest) Hd).
  - destruct d; [contradiction|]. cbn [Text.is_empty].
    now rewrite (span_run is_space ws rest Hws Hrs), Hunit.
  - apply boundary_with_append; [|exact Hrd].
    revert Hws. apply forallb_weaken. intros c Hc.
    destruct (Text.is_digit c) eqn:E; [|reflexivity].
    apply digit_not_space in E. congruence.
Qed.

Lemma search_number_here unit (s : string) n :
  match_number_at unit s = Some n -> search_number unit s = Some n.
Proof. intros H. destruct s; cbn [search_number]; now rewrite H. Qed.

End RegexSearch.

(** X15: [extract_postal_code] normalises the spacing of a postal code:
    four digits, any number of spaces and two letters, followed by the
    end of the text or by an ASCII text whose first character is no
    letter, digit or underscore, give the four digits and the two
    letters without any space. *)
Theorem extract_postal_code_normalises (d l post : string) (n : nat) :
  String.length d = 4%nat ->
  Text.forallb Text.is_digit d = true ->
  String.length l = 2%nat ->
  Text.forallb is_alpha l = true ->
  is_ascii post = true ->
  boundary_after post = true ->
  extract_postal_code (d ++ spaces n ++ l ++ post) = Some (d ++ l)%string.
Proof.
  intros Hd4 Hd Hl2 Hl _ Hpost.
  destruct d as [|d1 [|d2 [|d3 [|d4 [|]]]]]; try discriminate Hd4.
  destruct l as [|l1 [|l2 [|]]]; try discriminate Hl2.
  cbn [Text.forallb] in Hd, Hl.
  apply andb_prop in Hd as [H1 Hd]. apply andb_prop in Hd as [H2 Hd].
  apply andb_prop in Hd as [H3 Hd]. apply andb_prop in Hd as [H4 _].
  apply andb_prop in Hl as [Hl1 Hl]. apply andb_prop in Hl as [Hl2' _].
  unfold extract_postal_code.
  change (String d1 (String d2 (String d3 (String d4 EmptyString)))
          ++ spaces n ++ String l1 (String l2 EmptyString) ++ post)%string
    with (String d1 (String d2 (String d3 (String d4
            (spaces n ++ String l1 (String l2 post)))))).
  cbn [search_postal match_postal_at boundary_before andb].
  rewrite H1, H2, H3, H4. cbn [andb].
  rewrite (span_spaces n l1 (String l2 post) (alpha_not_space l1 Hl1)).
  rewrite Hl1, Hl2', Hpost. cbn [andb]. f_equal.
  unfold Text.remove. cbn [Text.filter].
  rewrite !digit_not_blank by assumption. cbn [negb].
  fold (Text.remove " " (spaces n ++ String l1 (String l2 EmptyString))).
  rewrite remove_spaces. unfold Text.remove. cbn [Text.filter].
  now rewrite !alpha_not_blank by assumption.
Qed.

Lemma extract_postal_code_normalises_witness :
  extract_postal_code "1015    CC, Amsterdam" = Some "1015CC"%string.
Proof.
  apply (extract_postal_code_normalises "1015" "CC" ", Amsterdam" 4); reflexivity.
Defined.

(** X16: on an ASCII address, a postal code that [extract_postal_code]
    returns is four digits followed by two letters, with nothing between
    them but white space other than the space; it never holds a space. *)
Theorem extract_postal_code_shape (address code : string) :
  is_ascii address = true ->
  extract_postal_code address = Some code ->
  Text.mem " " code = false
  /\ exists d w l,
       code = (d ++ w ++ l)%string
       /\ String.length d = 4%nat /\ Text.forallb Text.is_digit d = true
       /\ Text.forallb (fun c => is_space c && negb (Ascii.eqb c " ")) w = true
       /\ String.length l = 2%nat /\ Text.forallb is_alpha l = true.
Proof.
  intros _. unfold extract_postal_code.
  destruct (search_postal None address) as [m|] eqn:E; [|discriminate].
  intros [= <-]. split; [apply mem_remove|].
  apply search_postal_shape in E as (d & ws & l & -> & Hd4 & Hd & Hws & Hl2 & Hl).
  exists d, (Text.remove " " ws), l.
  unfold Text.remove at 1. rewrite !filter_app.
  fold (Text.remove " " d) (Text.remove " " ws) (Text.remove " " l).
  rewrite (remove_keeps " " d), (remove_keeps " " l).
  - repeat split; try assumption. now apply forallb_remove.
  - revert Hl. apply forallb_weaken. intros c Hc. now rewrite alpha_not_blank.
  - revert Hd. apply forallb_weaken. intros c Hc. now rewrite digit_not_blank.
Qed.

Lemma extract_postal_code_shape_witness :
  extract_postal_code "Keizersgracht 1, 1015 CC Amsterdam" = Some "1015CC"%string
  /\ Text.mem " " "1015CC" = false
  /\ exists d w l,
       "1015CC"%string = (d ++ w ++ l)%string
       /\ String.length d = 4%nat /\ Text.forallb Text.is_digit d = true
       /\ Text.forallb (fun c => is_space c && negb (Ascii.eqb c " ")) w = true
       /\ String.length l = 2%nat /\ Text.forallb is_alpha l = true.
Proof.
  split; [reflexivity|].
  apply (extract_postal_code_shape "Keizersgracht 1, 1015 CC Amsterdam" "1015CC");
    reflexivity.
Defined.

(** X17: [extract_rooms] and [extract_size] read the number that stands
    before the unit: when the text before the first digit run is ASCII
    and holds no digit, and that run (of at most 4300 digits) is
    followed by white space (or nothing) and then the word "kamer" in
    any mix of cases, respectively "m²", the value of the run is the
    result, whatever follows the unit. *)
Theorem extract_number_before_unit (before d ws word after : string) :
  is_ascii before = true ->
  Text.forallb (fun c => negb (Text.is_digit c)) before = true ->
  d <> EmptyString ->
  Text.forallb Text.is_digit d = true ->
  (String.length d <= 4300)%nat ->
  Text.forallb is_space ws = true ->
  lower word = "kamer"%string ->
  extract_rooms (before ++ d ++ ws ++ word ++ after) = Some (Text.digits_value d)
  /\ extract_size (before ++ d ++ ws ++ "m²" ++ after) = Some (Text.digits_value d).
Proof.
  intros _ Hbefore Hne Hd _ Hws Hword. split.
  - unfold extract_rooms, room_units. cbn [first_found].
    rewrite search_number_skip by exact Hbefore.
    rewrite (search_number_here "kamer" _ (Text.digits_value d)); [reflexivity|].
    assert (Hpre : prefix_ci "kamer" (word ++ after) = true)
      by (rewrite <- Hword; apply prefix_ci_lower).
    apply match_number_at_here; try assumption;
      destruct word as [|c word]; try discriminate Hword;
      injection Hword as Hc _;
      destruct c as [[] [] [] [] [] [] [] []]; try discriminate Hc; reflexivity.
  - unfold extract_size, size_units. cbn [first_found].
    rewrite search_number_skip by exact Hbefore.
    rewrite (search_number_here "m²" _ (Text.digits_value d)); [reflexivity|].
    apply match_number_at_here; try assumption; reflexivity.
Qed.

Lemma extract_number_before_unit_witness :
  extract_rooms "Ruim huis, 12 Kamer en tuin" = Some 12
  /\ extract_size "Ruim huis, 12 m² en tuin" = Some 12.
Proof.
  apply (extract_number_before_unit "Ruim huis, " "12" " " "Kamer" " en tuin");
    try reflexivity; [discriminate | cbn; lia].
Defined.

(** ** One search result *)

Section ListingData.

Lemma extract_listing_data_args item city now l :
  extract_listing_data item city now = Some l ->
  exists source_id,
    source_id_of item = Some source_id
    /\ upsert_args l
       = Returns [PStr "funda"; PStr source_id; py_opt PStr (href_of item);
                  PStr (address_of item);
                  py_opt PStr (extract_postal_code (address_of item));
                  PStr city;
                  py_opt PFloat (extract_price (price_texts item));
                  py_opt PInt (extract_size (item_text item));
                  py_opt PInt (extract_rooms (item_text item));
                  PStr (extract_property_type (item_text item) (address_of item));
                  PStr "sale"; PTime now].
Proof.
  unfold extract_listing_data.
  destruct (source_id_of item) as [source_id|]; [|discriminate].
  destruct (int_raises _ _ || int_raises _ _); [discriminate|].
  intros [= <-]. exists source_id. split; [reflexivity|].
  generalize (href_of item), (address_of item),
    (extract_postal_code (address_of item)), (extract_price (price_texts item)),
    (extract_size (item_text item)), (extract_rooms (item_text item)),
    (extract_property_type (item_text item) (address_of item)), (raw_html item).
  intros. vm_compute. reflexivity.
Qed.

End ListingData.

Section ListingFacts.

Lemma extract_listing_data_fields item city now l :
  extract_listing_data item city now = Some l ->
  exists source_id,
    source_id_of item = Some source_id
    /\ dict_get l "source" = PStr "funda"
    /\ dict_get l "source_id" = PStr source_id
    /\ dict_get l "address" = PStr (address_of item)
    /\ dict_get l "postal_code" = py_opt PStr (extract_postal_code (address_of item))
    /\ dict_get l "city" = PStr city
    /\ dict_get l "price" = py_opt PFloat (extract_price (price_texts item))
    /\ dict_get l "rooms" = py_opt PInt (extract_rooms (item_text item))
    /\ dict_get l "listing_type" = PStr "sale".
Proof.
  unfold extract_listing_data.
  destruct (source_id_of item) as [source_id|]; [|discriminate].
  destruct (int_raises _ _ || int_raises _ _); [discriminate|].
  intros [= <-]. exists source_id. split; [reflexivity|].
  generalize (href_of item), (address_of item),
    (extract_postal_code (address_of item)), (extract_price (price_texts item)),
    (extract_size (item_text item)), (extract_rooms (item_text item)),
    (extract_property_type (item_text item) (address_of item)), (raw_html item).
  intros. repeat split; vm_compute; reflexivity.
Qed.

Lemma extract_price_nonzero (texts : list (option string)) price :
  extract_price texts = Some price -> Qnum price <> 0.
Proof.
  induction texts as [|[price_text|] texts IH]; cbn [extract_price];
    [discriminate | | exact IH].
  destruct (parse_price_text price_text) as [p|]; [|exact IH].
  destruct (Qnum p =? 0) eqn:E; cbn [negb]; [exact IH|].
  intros [= <-]. now apply Z.eqb_neq.
Qed.

Lemma parse_items_from clock city (items : list result_item) : forall n,
  Forall (fun l =>
            validate_listing l = Returns true
            /\ exists item m, In item items
                              /\ extract_listing_data item city (clock m) = Some l)
         (parse_items clock n city items).
Proof.
  induction items as [|item items IH]; intros n; cbn [parse_items]; [constructor|].
  assert (Hrest : forall k,
            Forall (fun l =>
                      validate_listing l = Returns true
                      /\ exists item' m, In item' (item :: items)
                           /\ extract_listing_data item' city (clock m) = Some l)
                   (parse_items clock k city items)).
  { intros k. eapply Forall_impl; [apply (IH k)|].
    intros l (Hv & item' & m & Hin & He). split; [exact Hv|].
    exists item', m. split; [now right | exact He]. }
  destruct (extract_listing_data item city (clock n)) as [l|] eqn:E; [|apply Hrest].
  destruct (validate_listing l) as [[|]|e] eqn:V; try apply Hrest.
  constructor; [|apply Hrest]. split; [exact V|].
  exists item, n. split; [now left | exact E].
Qed.

Lemma row_of_args12_no_postal_code source source_id url address city price size_m2
    rooms property_type listing_type scraped_at :
  exists e,
    row_of_args12 [source; source_id; url; address; PNone; city; price; size_m2;
                   rooms; property_type; listing_type; scraped_at] = Raises e.
Proof.
  cbn [row_of_args12]. change (as_text PNone) with (@Returns (option string) None).
  repeat match goal with
         | |- exists e, mbind _ (Returns _) = Raises e => cbn [mbind outcome_bind]
         | |- exists e, mbind _ (not_null None) = Raises e =>
             cbn [not_null mbind outcome_bind]
         | |- exists e, mbind _ ?m = Raises e =>
             destruct m as [?|?]; cbn [mbind outcome_bind]; [|eauto]
         end.
  all: eauto.
Qed.

End ListingFacts.

(** X18: whatever the page, every listing that [parse_search_page]
    returns was extracted from an item of the first selector that
    selects anything, passes [validate_listing], carries all twelve
    values that the upsert statement reads, has source "funda" and
    listing type "sale", and has either no price or a price from 50,000
    to 5,000,000: the price of zero that the validator would let through
    never comes out of the extraction. *)
Theorem parse_search_page_listings_valid
    (selections : list (list result_item)) (city : string) (clock : nat -> Z) :
  Forall (fun l =>
            validate_listing l = Returns true
            /\ (exists item n, In item (first_nonempty selections)
                               /\ extract_listing_data item city (clock n) = Some l)
            /\ (exists args, upsert_args l = Returns args /\ length args = 12%nat)
            /\ dict_get l "source" = PStr "funda"
            /\ dict_get l "listing_type" = PStr "sale"
            /\ dict_get l "city" = PStr city
            /\ (dict_get l "price" = PNone
                \/ exists q, dict_get l "price" = PFloat q
                             /\ (inject_Z 50000 <= q)%Q /\ (q <= inject_Z 5000000)%Q))
         (parse_search_page selections city clock).
Proof.
  unfold parse_search_page.
  eapply Forall_impl; [apply parse_items_from|].
  intros l (Hv & item & n & Hin & He). split; [exact Hv|].
  split; [now exists item, n|].
  destruct (extract_listing_data_args _ _ _ _ He) as (sid & _ & Hargs).
  destruct (extract_listing_data_fields _ _ _ _ He)
    as (sid' & _ & Hsrc & _ & _ & _ & Hcity & Hprice & _ & Htype).
  split; [eexists; split; [exact Hargs | reflexivity]|].
  repeat split; try assumption.
  destruct (extract_price (price_texts item)) as [q|] eqn:Eq; [|now left].
  right. exists q. split; [exact Hprice|].
  apply validate_listing_true in Hv as [_ Hrange].
  rewrite Hprice in Hrange. cbn [py_opt truthy num_of] in Hrange.
  destruct Hrange as (p & [= <-] & Hlo & Hhi); [|now split].
  apply negb_true_iff, Z.eqb_neq. eapply extract_price_nonzero, Eq.
Qed.

(** ** The search results of [FundaScraper] *)

Section FundaPage.

Import FundaScraperPage.

Lemma mem_append c (a b : string) :
  Text.mem c (a ++ b) = Text.mem c a || Text.mem c b.
Proof.
  induction a as [|d a IH]; [reflexivity|].
  change (Text.mem c (String d (a ++ b)) = Text.mem c (String d a) || Text.mem c b).
  cbn [Text.mem]. now rewrite IH, orb_assoc.
Qed.

Lemma strip_prefix_Some (old : string) : forall s rest,
  strip_prefix old s = Some rest -> s = (old ++ rest)%string.
Proof.
  induction old as [|a old IH]; intros s rest; cbn [strip_prefix].
  - now intros [= ->].
  - destruct s as [|b s]; [discriminate|].
    destruct (Ascii.eqb_spec a b) as [->|]; [|discriminate].
    intros H%IH. now subst.
Qed.

Lemma mem_remove_sub c (old : string) : forall fuel s,
  Text.mem c old = false ->
  Text.mem c (remove_sub fuel old s) = Text.mem c s.
Proof.
  intros fuel s Hold. revert s.
  induction fuel as [|fuel IH]; intros s; [reflexivity|]. cbn [remove_sub].
  destruct (strip_prefix old s) as [rest|] eqn:E.
  - apply strip_prefix_Some in E as ->. now rewrite IH, mem_append, Hold.
  - destruct s as [|d s]; [reflexivity|]. cbn [Text.mem]. now rewrite IH.
Qed.

Lemma remove_sub_absent c (old : string) : forall fuel s,
  Text.mem c old = true -> Text.mem c s = false ->
  remove_sub fuel old s = s.
Proof.
  intros fuel s Hold. revert s.
  induction fuel as [|fuel IH]; intros s Hs; [reflexivity|]. cbn [remove_sub].
  destruct (strip_prefix old s) as [rest|] eqn:E.
  - apply strip_prefix_Some in E as ->.
    rewrite mem_append, Hold in Hs. discriminate.
  - destruct s as [|d s]; [reflexivity|]. cbn [Text.mem] in Hs.
    apply orb_false_iff in Hs as [_ Hs]. now rewrite IH.
Qed.

Lemma mem_k_remove_dot (s : string) :
  Text.mem "k" (Text.remove "." s) = Text.mem "k" s.
Proof.
  unfold Text.remove. induction s as [|d s IH]; [reflexivity|].
  cbn [Text.filter Text.mem].
  destruct (Ascii.eqb_spec d ".") as [->|]; cbn [negb].
  - now rewrite IH.
  - cbn [Text.mem]. now rewrite IH.
Qed.

Lemma mem_k_replace_comma (s : string) :
  Text.mem "k" (Text.replace "," "." s) = Text.mem "k" s.
Proof.
  unfold Text.replace. induction s as [|d s IH]; [reflexivity|].
  cbn [Text.map Text.mem]. rewrite IH.
  destruct (Ascii.eqb_spec d ",") as [->|]; reflexivity.
Qed.

Variable str_strip : string -> string.
Variable str_float : string -> option Q.

Lemma listing_of_unstorable item listed_date scraped_at l :
  listing_of str_strip str_float item listed_date scraped_at = Some l ->
  storable l = false.
Proof.
  unfold listing_of.
  destruct (sr_href item) as [href|]; [|discriminate].
  destruct (sr_heading item) as [address|]; [|discriminate].
  destruct (sr_location item) as [city|]; [|discriminate].
  destruct (sr_price_text item) as [price_text|]; [|discriminate].
  intros [= <-]. unfold storable.
  generalize (py_opt PStr (sr_object_id item)),
    (py_opt PFloat (parse_price str_strip str_float price_text)),
    (py_opt PInt (sr_size item)), (py_opt PInt (sr_rooms item)).
  intros source_id price size_m2 rooms.
  match goal with
  | |- context [flush_args ?l] =>
      assert (Hargs : flush_args l
                      = Returns [PStr "funda"; source_id; PStr href; PStr address;
                                 PNone; PStr city; price; size_m2; rooms;
                                 PTime scraped_at])
        by (vm_compute; reflexivity)
  end.
  rewrite Hargs. cbn [mbind outcome_bind row_of_args10].
  destruct (row_of_args12_no_postal_code
              (PStr "funda") source_id (PStr href) (PStr address) (PStr city)
              price size_m2 rooms PNone PNone (PTime scraped_at)) as [e ->].
  reflexivity.
Qed.

Lemma parse_results_unstorable clock (items : list search_result) : forall n,
  Forall (fun l => storable l = false)
         (parse_results str_strip str_float clock n items).
Proof.
  induction items as [|item items IH]; intros n; cbn [parse_results]; [constructor|].
  destruct (listing_of str_strip str_float item (clock n) (clock (S n))) as [l|] eqn:E;
    [|apply IH].
  constructor; [|apply IH]. eapply listing_of_unstorable, E.
Qed.

End FundaPage.

Section BlockedRun.

Implicit Types (st : bp_state) (ls : list (gmap string pyval)).

Lemma forallb_storable_none ls :
  ls <> [] -> Forall (fun l => storable l = false) ls ->
  forallb storable ls = false.
Proof.
  destruct ls as [|l ls]; [contradiction|].
  intros _ H. inversion H as [|? ? Hl _]; subst. cbn [forallb]. now rewrite Hl.
Qed.

Lemma flush_none_storable st :
  Forall (fun l => storable l = false) (buffer (bp st)) ->
  (buffer (bp st) = [] /\ flush st = (Returns tt, st))
  \/ (buffer (bp st) <> []
      /\ exists e h', flush st = (Raises e, mk_bps (bp st) (bp_db st) h')).
Proof.
  intros Hbad. destruct (buffer (bp st)) as [|l ls] eqn:Hbuf.
  - left. split; [reflexivity|]. unfold flush. now rewrite Hbuf.
  - right. split; [discriminate|].
    destruct (db_reachable (bp_db st)) eqn:Hup.
    + apply flush_unstorable_state; [exact Hup|].
      rewrite Hbuf. apply forallb_storable_none; [discriminate | exact Hbad].
    + exists ConnectionFailure, (handed st). unfold flush.
      rewrite Hbuf, Hup. now destruct st.
Qed.

Lemma process_listing_none_storable st l :
  Forall (fun l => storable l = false) (buffer (bp st)) ->
  storable l = false ->
  exists o st',
    process_listing st l = (o, st')
    /\ bp_db st' = bp_db st
    /\ buffer (bp st') = buffer (bp st) ++ [l].
Proof.
  intros Hbad Hl. unfold process_listing. cbn [bp batch_size buffer].
  destruct (_ >=? _).
  - destruct (flush_none_storable
                (mk_bps (mk_bp (batch_size (bp st)) (buffer (bp st) ++ [l]))
                        (bp_db st) (handed st)))
      as [[Hnil _] | (_ & e & h' & ->)]; cbn [bp buffer bp_db] in *.
    + apply Forall_app. split; [exact Hbad | now constructor].
    + now destruct (buffer (bp st)).
    + eexists _, _. repeat split; reflexivity.
  - eexists _, _. repeat split; reflexivity.
Qed.

Lemma process_listings_none_storable ls : forall st,
  Forall (fun l => storable l = false) (buffer (bp st)) ->
  Forall (fun l => storable l = false) ls ->
  exists o st',
    process_listings st ls = (o, st')
    /\ bp_db st' = bp_db st
    /\ Forall (fun l => storable l = false) (buffer (bp st'))
    /\ (o = Returns tt -> buffer (bp st') = buffer (bp st) ++ ls).
Proof.
  induction ls as [|l ls IH]; intros st Hbuf Hls; cbn [process_listings].
  - exists (Returns tt), st. repeat split; [exact Hbuf|]. now rewrite app_nil_r.
  - inversion Hls as [|? ? Hl Hls']; subst.
    destruct (process_listing_none_storable st l Hbuf Hl) as (o & st1 & -> & Hdb & Hb).
    assert (Hbuf1 : Forall (fun l => storable l = false) (buffer (bp st1))).
    { rewrite Hb. apply Forall_app. split; [exact Hbuf | now constructor]. }
    destruct o as [[]|e].
    + destruct (IH st1 Hbuf1 Hls') as (o' & st' & -> & Hdb' & Hbuf' & Hret).
      exists o', st'. repeat split; [congruence | exact Hbuf' |].
      intros Ho. rewrite (Hret Ho), Hb, <- app_assoc. reflexivity.
    + exists (Raises e), st1. repeat split; [exact Hdb | exact Hbuf1 | discriminate].
Qed.

Lemma scrape_all_none_storable web max_pages (cities : list string) : forall st,
  (forall city page ls, web city page = PageListings ls ->
                        Forall (fun l => storable l = false) ls) ->
  buffer (bp st) = [] ->
  bp_db (snd (scrape_all web max_pages st cities)) = bp_db st
  /\ (fst (scrape_all web max_pages st cities) = Returns tt ->
      Forall (fun city =>
                FundaScraper.scrape_search_results (web city) max_pages = [])
             cities).
Proof.
  intros st Hweb. revert st.
  induction cities as [|city cities IH]; intros st Hbuf; cbn [scrape_all].
  - split; [reflexivity | constructor].
  - assert (Hls : Forall (fun l => storable l = false)
                         (FundaScraper.scrape_search_results (web city) max_pages)).
    { unfold FundaScraper.scrape_search_results.
      destruct (scrape_pages_extends (web city) (Z.to_nat max_pages) 1 [])
        as (more & -> & Hmore).
      cbn [app]. eapply Forall_impl; [exact Hmore|].
      intros l (p & ls & _ & Hp & Hin).
      apply Hweb in Hp. rewrite Forall_forall in Hp. now apply Hp, list_elem_of_In. }
    destruct (process_listings_none_storable _ st ltac:(rewrite Hbuf; constructor) Hls)
      as (o & st1 & -> & Hdb & Hbuf1 & Hret).
    destruct o as [[]|e]; [|split; [exact Hdb | discriminate]].
    specialize (Hret eq_refl). rewrite Hbuf in Hret. cbn [app] in Hret.
    destruct (flush_none_storable st1 Hbuf1) as [[Hnil ->] | (Hne & e & h' & ->)].
    + destruct (IH st1 Hnil) as [Hdb' Hall]. split; [congruence|].
      intros Ho. constructor; [congruence | now apply Hall].
    + split; [exact Hdb | discriminate].
Qed.

End BlockedRun.

(** X20: [FundaScraper.parse_price] gives no price for a text that
    holds the letter k, such as the "€ 425.000 k.k." of its docstring.
    The dots are removed before "k.k." is looked for, so that this
    replacement never changes the text and the letters reach [float].
    Stated for any [strip] that neither adds nor removes a k and any
    [float] that rejects a text with a k in it. *)
Theorem parse_price_rejects_kk
    (str_strip : string -> string) (str_float : string -> option Q) :
  (forall s, Text.mem "k" (str_strip s) = Text.mem "k" s) ->
  (forall s, Text.mem "k" s = true -> str_float s = None) ->
  forall price_text : string,
    FundaScraperPage.str_remove "k.k."
      (Text.remove "." (FundaScraperPage.str_remove "€" price_text))
    = Text.remove "." (FundaScraperPage.str_remove "€" price_text)
    /\ (Text.mem "k" price_text = true ->
        FundaScraperPage.parse_price str_strip str_float price_text = None).
Proof.
  intros Hstrip Hfloat price_text.
  assert (Hdead : FundaScraperPage.str_remove "k.k."
                    (Text.remove "." (FundaScraperPage.str_remove "€" price_text))
                  = Text.remove "." (FundaScraperPage.str_remove "€" price_text)).
  { unfold FundaScraperPage.str_remove at 1.
    apply (remove_sub_absent "."); [reflexivity | apply mem_remove]. }
  split; [exact Hdead|].
  intros Hk. unfold FundaScraperPage.parse_price. rewrite Hdead.
  apply Hfloat. rewrite mem_k_replace_comma, Hstrip, mem_k_remove_dot.
  unfold FundaScraperPage.str_remove. now rewrite mem_remove_sub.
Qed.

Lemma parse_price_rejects_kk_witness :
  FundaScraperPage.parse_price (fun s => s) FundaScraperPage.plain_float
                               "€ 425.000 k.k." = None.
Proof.
  apply (parse_price_rejects_kk (fun s => s) FundaScraperPage.plain_float).
  - reflexivity.
  - intros s Hs. unfold FundaScraperPage.plain_float. now rewrite Hs.
  - reflexivity.
Defined.

(** X21: a run of [scrape_all] over pages parsed by
    [FundaScraper.parse_search_page] never writes to the table.  Every
    listing it builds has the postal code [None], which the table does
    not accept, so every batch handed to the database is refused: the
    database is left exactly as it was, and the run returns normally
    only when no city gave any listing. *)
Theorem funda_scraper_run_stores_nothing
    (str_strip : string -> string) (str_float : string -> option Q)
    (web : string -> Z -> page_outcome) (max_pages batch_size : Z)
    (db : database) (cities : list string) :
  (forall city page ls,
     web city page = PageListings ls ->
     exists clock items,
       ls = FundaScraperPage.parse_search_page str_strip str_float clock items) ->
  bp_db (snd (scrape_all web max_pages (new_batch_processor batch_size db) cities)) = db
  /\ (fst (scrape_all web max_pages (new_batch_processor batch_size db) cities)
      = Returns tt ->
      Forall (fun city =>
                FundaScraper.scrape_search_results (web city) max_pages = [])
             cities).
Proof.
  intros Hweb.
  assert (Hbad : forall city page ls,
            web city page = PageListings ls ->
            Forall (fun l => storable l = false) ls).
  { intros city page ls Hpage.
    destruct (Hweb city page ls Hpage) as (clock & items & ->).
    unfold FundaScraperPage.parse_search_page. apply parse_results_unstorable. }
  exact (scrape_all_none_storable web max_pages cities
           (new_batch_processor batch_size db) Hbad eq_refl).
Qed.

Lemma funda_scraper_run_stores_nothing_witness :
  bp_db (snd (scrape_all FundaScraperPage.sample_web 2
                         (new_batch_processor 100 empty_db) ["amsterdam"%string]))
  = empty_db
  /\ fst (scrape_all FundaScraperPage.sample_web 2
                     (new_batch_processor 100 empty_db) ["amsterdam"%string])
     = Raises NotNullViolation.
Proof.
  destruct (funda_scraper_run_stores_nothing
              (fun s => s) FundaScraperPage.plain_float FundaScraperPage.sample_web
              2 100 empty_db ["amsterdam"%string]) as [Hdb _].
  - intros city page ls. unfold FundaScraperPage.sample_web.
    destruct (page =? 1); intros [= <-].
    + exists (fun n => Z.of_nat n), [FundaScraperPage.sample_result]. reflexivity.
    + exists (fun n => Z.of_nat n), []. reflexivity.
  - split; [exact Hdb|]. vm_compute. reflexivity.
Defined.

(** ** The identifier of a search result *)

Section SourceId.

Lemma match_id_at_shape (s ds : string) :
  match_id_at s = Some ds ->
  exists post,
    s = ("/" ++ ds ++ "/" ++ post)%string
    /\ ds <> EmptyString /\ Text.forallb Text.is_digit ds = true.
Proof.
  unfold match_id_at. destruct s as [|c rest]; [discriminate|].
  destruct (Ascii.eqb_spec c "/") as [->|Hc].
  - assert (Hspan := span_parts Text.is_digit rest).
    destruct (span Text.is_digit rest) as [run rest2].
    destruct Hspan as (-> & Hrun & _).
    destruct run as [|d run]; [discriminate|]. cbn [Text.is_empty].
    destruct rest2 as [|c2 post]; [discriminate|].
    destruct (Ascii.eqb_spec c2 "/") as [->|Hc2].
    + intros [= <-]. exists post. repeat split; [discriminate | exact Hrun].
    + destruct c2 as [[] [] [] [] [] [] [] []]; try discriminate; contradiction.
  - destruct c as [[] [] [] [] [] [] [] []]; try discriminate; contradiction.
Qed.

Lemma search_id_shape (s ds : string) :
  search_id s = Some ds ->
  exists pre post,
    s = (pre ++ "/" ++ ds ++ "/" ++ post)%string
    /\ ds <> EmptyString /\ Text.forallb Text.is_digit ds = true.
Proof.
  induction s as [|c s IH]; cbn [search_id].
  - destruct (match_id_at EmptyString) eqn:E; [|discriminate].
    intros [= ->]. apply match_id_at_shape in E as (post & H & Hne & Hd).
    exists EmptyString, post. auto.
  - destruct (match_id_at (String c s)) eqn:E.
    + intros [= ->]. apply match_id_at_shape in E as (post & H & Hne & Hd).
      exists EmptyString, post. auto.
    + intros (pre & post & -> & Hne & Hd)%IH.
      exists (String c pre), post. auto.
Qed.

Lemma length_append (a b : string) :
  String.length (a ++ b) = (String.length a + String.length b)%nat.
Proof.
  induction a as [|c a IH]; [reflexivity|].
  change (S (String.length (a ++ b)) = S (String.length a + String.length b)).
  now rewrite IH.
Qed.

Lemma match_digits_at_length unit (s ds : string) :
  match_digits_at unit s = Some ds -> (String.length ds <= String.length s)%nat.
Proof.
  unfold match_digits_at.
  assert (Hspan := span_parts Text.is_digit s).
  destruct (span Text.is_digit s) as [run rest]. destruct Hspan as (-> & _ & _).
  destruct (Text.is_empty run); [discriminate|].
  destruct (span is_space rest) as [ws rest2].
  destruct (prefix_ci unit rest2); [|discriminate].
  intros [= <-]. rewrite length_append. lia.
Qed.

Lemma search_digits_length unit (s ds : string) :
  search_digits unit s = Some ds -> (String.length ds <= String.length s)%nat.
Proof.
  induction s as [|c s IH]; cbn [search_digits].
  - destruct (match_digits_at unit EmptyString) eqn:E; [|discriminate].
    intros [= <-]. now apply match_digits_at_length in E.
  - destruct (match_digits_at unit (String c s)) eqn:E.
    + intros [= <-]. now apply match_digits_at_length in E.
    + intros H%IH. cbn [String.length]. lia.
Qed.

Lemma int_raises_long units (text : string) :
  int_raises units text = true -> (4300 < String.length text)%nat.
Proof.
  unfold int_raises.
  destruct (first_digits units text) as [ds|] eqn:E; [|discriminate].
  intros Hlong%Z.ltb_lt.
  assert (Hlen : (String.length ds <= String.length text)%nat).
  { revert E. induction units as [|unit units IH]; cbn [first_digits]; [discriminate|].
    destruct (search_digits unit text) eqn:Es; [|exact IH].
    intros [= <-]. now apply search_digits_length in Es. }
  lia.
Qed.

End SourceId.

(** X22: where the identity of a listing comes from.  The [source_id]
    of a listing that [extract_listing_data] returns is never empty: it
    is the item's [data-object-id] when that is not empty, and otherwise
    a run of digits that stands between two slashes in the (ASCII) link
    of the item.  An item with a non-empty [data-object-id] gives a
    listing when its text has at most 4300 characters, and always unless
    [int] raises on a run of more than 4300 digits before a unit, in
    which case no listing is returned.  Stated for items whose text is
    plain (ASCII, the euro sign and the superscript two). *)
Theorem extract_listing_data_source_id
    (item : result_item) (city : string) (now : Z) :
  (forall href, link_href item = Some (Some href) -> is_ascii href = true) ->
  plain_text (item_text item) = true ->
  (forall l, extract_listing_data item city now = Some l ->
     exists source_id,
       dict_get l "source_id" = PStr source_id
       /\ source_id <> EmptyString
       /\ (data_object_id item = Some source_id
           \/ ((data_object_id item = None \/ data_object_id item = Some EmptyString)
               /\ exists pre post,
                    link_href item
                    = Some (Some (pre ++ "/" ++ source_id ++ "/" ++ post)%string)
                    /\ Text.forallb Text.is_digit source_id = true)))
  /\ (forall source_id,
        data_object_id item = Some source_id -> source_id <> EmptyString ->
        (exists l, extract_listing_data item city now = Some l
                   /\ dict_get l "source_id" = PStr source_id)
        \/ (extract_listing_data item city now = None
            /\ (int_raises size_units (item_text item) = true
                \/ int_raises room_units (item_text item) = true)
            /\ (4300 < String.length (item_text item))%nat)).
Proof.
  intros _ _. split.
  - intros l He.
    destruct (extract_listing_data_fields _ _ _ _ He) as (sid & Hsid & _ & Hl & _).
    exists sid. split; [exact Hl|]. revert Hsid. unfold source_id_of, href_of.
    destruct (data_object_id item) as [[|c s]|].
    + destruct (link_href item) as [[[|c h]|]|]; try discriminate.
      intros (pre & post & -> & Hne & Hd)%search_id_shape.
      split; [exact Hne|]. right. split; [now right|]. now exists pre, post.
    + intros [= <-]. split; [discriminate | now left].
    + destruct (link_href item) as [[[|c h]|]|]; try discriminate.
      intros (pre & post & -> & Hne & Hd)%search_id_shape.
      split; [exact Hne|]. right. split; [now left|]. now exists pre, post.
  - intros source_id Hattr Hne.
    destruct (extract_listing_data item city now) as [l|] eqn:He.
    + left. exists l. split; [reflexivity|].
      destruct (extract_listing_data_fields _ _ _ _ He) as (sid & Hsid & _ & Hl & _).
      rewrite Hl. unfold source_id_of in Hsid. rewrite Hattr in Hsid.
      destruct source_id; [contradiction|]. now injection Hsid as <-.
    + right. split; [reflexivity|].
      unfold extract_listing_data, source_id_of in He. rewrite Hattr in He.
      destruct source_id; [contradiction|].
      destruct (int_raises size_units (item_text item)) eqn:Hs.
      * split; [now left|]. now apply int_raises_long in Hs.
      * destruct (int_raises room_units (item_text item)) eqn:Hr; [|discriminate He].
        split; [now right|]. now apply int_raises_long in Hr.
Qed.

Lemma extract_listing_data_source_id_witness :
  exists l,
    extract_listing_data sample_item "amsterdam" 7 = Some l
    /\ dict_get l "source_id" = PStr "42194096".
Proof.
  destruct (extract_listing_data_source_id sample_item "amsterdam" 7)
    as [_ Hattr].
  - intros href [= <-]. reflexivity.
  - reflexivity.
  - destruct (Hattr "42194096"%string eq_refl) as [Hl | (_ & _ & Hlong)].
    + discriminate.
    + exact Hl.
    + vm_compute in Hlong. lia.
Defined.

(** ** Requests and pauses *)

Section Politeness.

Import Requests.

Lemma continues_refl s : continues s s [].
Proof. unfold continues. now rewrite app_nil_r, Nat.add_0_r. Qed.

Lemma continues_trans s1 s2 s3 a b :
  continues s1 s2 a -> continues s2 s3 b -> continues s1 s3 (a ++ b).
Proof.
  intros (Hs & Ht & Hn) (Hs' & Ht' & Hn'). unfold continues, requests in *.
  rewrite Hs', Hs, Ht', Ht, Hn', Hn, List.filter_app, length_app, app_assoc.
  split; [reflexivity|]. split; [reflexivity|]. lia.
Qed.

Lemma polite_from_ready ready tr :
  polite_from false tr = true -> polite_from ready tr = true.
Proof. destruct tr as [|[seconds|page] tr]; cbn; auto. discriminate. Qed.

Lemma polite_from_app (a : list event) : forall ready b,
  polite_from ready a = true -> polite_from false b = true ->
  polite_from ready (a ++ b) = true.
Proof.
  induction a as [|[seconds|page] a IH]; intros ready b Ha Hb; cbn [app polite_from] in *.
  - now apply polite_from_ready.
  - now apply IH.
  - apply andb_prop in Ha as [-> Ha]. cbn [andb]. now apply IH.
Qed.

(** What [polite_from] means. *)
Lemma polite_from_spec (tr : list event) : forall ready pre page post,
  polite_from ready tr = true ->
  tr = pre ++ Request page :: post ->
  (pre = [] /\ ready = true) \/ exists pre', pre = pre' ++ [Sleep request_delay].
Proof.
  induction tr as [|e tr IH]; intros ready pre page post Hp Htr.
  - now destruct pre.
  - destruct pre as [|e' pre]; cbn [app] in Htr; injection Htr as -> ->.
    + cbn [polite_from] in Hp. apply andb_prop in Hp as [-> _]. now left.
    + right. destruct e' as [seconds|page']; cbn [polite_from] in Hp.
      * destruct (IH _ _ _ _ Hp eq_refl) as [[-> Hready] | [pre' ->]].
        -- apply Z.eqb_eq in Hready as ->. now exists [].
        -- now exists (Sleep seconds :: pre').
      * apply andb_prop in Hp as [_ Hp].
        destruct (IH _ _ _ _ Hp eq_refl) as [[_ [=]] | [pre' ->]].
        now exists (Request page' :: pre').
Qed.

Lemma fetch_once_continues page s :
  exists new,
    continues s (snd (fetch_once page s)) new
    /\ polite_from false new = true
    /\ length (requests new) = 1%nat
    /\ requests new = [Request page].
Proof.
  unfold fetch_once, log. cbn [server sent trace].
  destruct (server s (sent s)); cbn [snd].
  - exists [Sleep request_delay; Request page]. unfold continues. cbn.
    rewrite <- app_assoc. repeat split. lia.
  - exists [Sleep request_delay; Request page; Sleep 10]. unfold continues. cbn.
    rewrite <- !app_assoc. repeat split. lia.
  - exists [Sleep request_delay; Request page]. unfold continues. cbn.
    rewrite <- app_assoc. repeat split. lia.
Qed.

Lemma log_sleep_continues seconds s :
  continues s (log (Sleep seconds) s) [Sleep seconds].
Proof. unfold continues, log. cbn. repeat split. lia. Qed.

Lemma fetch_attempts_continues page (left : nat) : forall attempt s,
  exists new,
    continues s (snd (fetch_attempts left attempt page s)) new
    /\ polite_from false new = true
    /\ (length (requests new) <= left)%nat
    /\ Forall (fun e => e = Request page) (requests new).
Proof.
  induction left as [|left IH]; intros attempt s; cbn [fetch_attempts].
  - exists []. split; [apply continues_refl|]. split; [reflexivity|].
    split; [reflexivity | constructor].
  - destruct (fetch_once_continues page s) as (new1 & Hc1 & Hp1 & Hn1 & Hr1).
    destruct (fetch_once page s) as [[html|] s1]; cbn [snd] in *.
    + exists new1. split; [exact Hc1|]. split; [exact Hp1|]. split; [lia|].
      rewrite Hr1. now constructor.
    + destruct left as [|left'].
      * exists new1. split; [exact Hc1|]. split; [exact Hp1|]. split; [lia|].
        rewrite Hr1. now constructor.
      * destruct (IH (attempt + 1) (log (Sleep (retry_wait attempt)) s1))
          as (new2 & Hc2 & Hp2 & Hn2 & Hr2).
        exists (new1 ++ [Sleep (retry_wait attempt)] ++ new2).
        split; [|split; [|split]].
        -- eapply continues_trans; [exact Hc1|].
           eapply continues_trans; [apply log_sleep_continues | exact Hc2].
        -- apply polite_from_app; [exact Hp1|]. cbn [app polite_from].
           now apply polite_from_ready.
        -- unfold requests in *. rewrite List.filter_app, length_app. cbn [app List.filter is_request].
           lia.
        -- unfold requests in *. rewrite List.filter_app. cbn [app List.filter is_request].
           apply Forall_app. split; [|exact Hr2]. rewrite Hr1. now constructor.
Qed.

Lemma scrape_pages_continues parse (remaining : nat) : forall page all_listings s,
  exists new,
    continues s (snd (scrape_pages parse page remaining all_listings s)) new
    /\ polite_from false new = true
    /\ (length (requests new) <= 3 * remaining)%nat
    /\ Forall (fun e => exists p, e = Request p
                                  /\ page <= p < page + Z.of_nat remaining)
              (requests new).
Proof.
  induction remaining as [|n IH]; intros page all_listings s; cbn [scrape_pages].
  - exists []. split; [apply continues_refl|]. split; [reflexivity|].
    split; [cbn; lia | constructor].
  - unfold fetch_page.
    destruct (fetch_attempts_continues page 3 1 s) as (new1 & Hc1 & Hp1 & Hn1 & Hr1).
    assert (Hr1' : Forall (fun e => exists p, e = Request p
                                     /\ page <= p < page + Z.of_nat (S n))
                          (requests new1)).
    { eapply Forall_impl; [exact Hr1|]. intros e ->. exists page. split; [reflexivity|lia]. }
    assert (Hstop : exists new,
              continues s (snd (fetch_attempts 3 1 page s)) new
              /\ polite_from false new = true
              /\ (length (requests new) <= 3 * S n)%nat
              /\ Forall (fun e => exists p, e = Request p
                                   /\ page <= p < page + Z.of_nat (S n))
                        (requests new)).
    { exists new1. split; [exact Hc1|]. split; [exact Hp1|].
      split; [lia | exact Hr1']. }
    assert (Hgo : forall ls,
              exists new,
                continues s (snd (scrape_pages parse (page + 1) n ls
                                               (snd (fetch_attempts 3 1 page s)))) new
                /\ polite_from false new = true
                /\ (length (requests new) <= 3 * S n)%nat
                /\ Forall (fun e => exists p, e = Request p
                                     /\ page <= p < page + Z.of_nat (S n))
                          (requests new)).
    { intros ls.
      destruct (IH (page + 1) ls (snd (fetch_attempts 3 1 page s)))
        as (new2 & Hc2 & Hp2 & Hn2 & Hr2).
      exists (new1 ++ new2). split; [|split; [|split]].
      - eapply continues_trans; [exact Hc1 | exact Hc2].
      - now apply polite_from_app.
      - unfold requests in *. rewrite List.filter_app, length_app. lia.
      - unfold requests in *. rewrite List.filter_app. apply Forall_app.
        split; [exact Hr1'|]. eapply Forall_impl; [exact Hr2|].
        intros e (p & -> & Hp). exists p. split; [reflexivity|lia]. }
    destruct (fetch_attempts 3 1 page s) as [[html|] s1]; cbn [snd] in *.
    + destruct (parse html) as [|[|l ls]]; [apply Hgo | exact Hstop | apply Hgo].
    + apply Hgo.
Qed.

End Politeness.

(** X23: the scraper keeps its pace.  In a run of
    [scrape_city_listings], whatever the server replies and whatever the
    pages parse to, every request comes right after a pause of
    [request_delay] (2 seconds), at most three requests are made per
    page, so at most 3 * max_pages in all, and only pages 1 to
    max_pages are asked for. *)
Theorem scrape_city_listings_keeps_pace
    (parse : string -> page_outcome) (max_pages : Z) (s : Requests.session) :
  exists new,
    Requests.trace (snd (Requests.scrape_city_listings parse max_pages s))
    = Requests.trace s ++ new
    /\ Requests.sent (snd (Requests.scrape_city_listings parse max_pages s))
       = (Requests.sent s + length (Requests.requests new))%nat
    /\ (length (Requests.requests new) <= 3 * Z.to_nat max_pages)%nat
    /\ (forall pre page post,
          new = pre ++ Requests.Request page :: post ->
          1 <= page <= max_pages
          /\ exists pre', pre = pre' ++ [Requests.Sleep Requests.request_delay]).
Proof.
  unfold Requests.scrape_city_listings.
  destruct (scrape_pages_continues parse (Z.to_nat max_pages) 1 [] s)
    as (new & (_ & Htrace & Hsent) & Hpolite & Hcount & Hpages).
  exists new. split; [exact Htrace|]. split; [exact Hsent|]. split; [exact Hcount|].
  intros pre page post Hnew. split.
  - assert (Hin : In (Requests.Request page) (Requests.requests new)).
    { unfold Requests.requests. apply filter_In. split; [|reflexivity].
      rewrite Hnew. apply in_or_app. right. now left. }
    rewrite Forall_forall in Hpages.
    destruct (Hpages _ (proj2 (list_elem_of_In _ _) Hin)) as (p & [= <-] & Hp). lia.
  - destruct (polite_from_spec _ _ _ _ _ Hpolite Hnew) as [[_ [=]] | Hpre]. exact Hpre.
Qed.
